(** * The GPU device/state abstraction layer ([Engine]) of Babylon.js

    A shallow embedding of the parts of [Engine] (in
    [src/nodeEditor/src/graphEditor.tsx]) that cache WebGL state, manage
    buffer and texture lifetimes, issue draw calls, resize the canvas and
    recover from a lost context, together with the properties the
    specification states about them.

    Conventions.
    - A JavaScript object reference is an integer address; the objects live
      in finite maps (heaps) inside the engine state, so that two aliases of
      one object see each other's writes.
    - [null] is [None] where a value is [Nullable<T>]; a missing property
      ([undefined]) is a failed map lookup.
    - Every call on the WebGL context is recorded: an operation returns the
      list of context calls it issued, next to its result and the new state.
    - A JavaScript exception is a [Throw] completion; the state changes made
      before it stay. *)

From Stdlib Require Import ZArith QArith Lia List String Ascii Bool.
From stdpp Require Import base gmap list strings.

Local Open Scope Z_scope.

(** ** JavaScript numbers and the 32-bit integer operators *)

Module JS.

(** [ToInt32] on an integer value: reduction modulo 2^32 into
    [-2^31, 2^31). *)
Definition toInt32 (z : Z) : Z := (z + 2^31) mod 2^32 - 2^31.

(** [a | b]: both operands go through [ToInt32]; on two's-complement
    integers the result is [Z.lor]. *)
Definition bitor (a b : Z) : Z := Z.lor (toInt32 a) (toInt32 b).

(** [a >> n]: sign-propagating shift of [ToInt32 a] by [n mod 32]. *)
Definition sar (a n : Z) : Z := Z.shiftr (toInt32 a) (n mod 32).

(** A JavaScript [number]: a finite value (every finite double is a
    rational), or one of the three non-finite values. *)
Inductive number : Type :=
| Finite (q : Q)
| NaN
| PosInf
| NegInf.

(** Truncation of a rational toward zero. *)
Definition truncQ (q : Q) : Z := Z.quot (Qnum q) (Zpos (Qden q)).

(** [ToInt32] on a [number]: non-finite values give 0, a finite value is
    truncated toward zero and reduced modulo 2^32. *)
Definition numberToInt32 (n : number) : Z :=
  match n with
  | Finite q => toInt32 (truncQ q)
  | _ => 0
  end.

(** [a === b] on numbers: [NaN] equals nothing, [+0] equals [-0] (both are
    [Finite 0] here). *)
Definition strictEq (a b : number) : bool :=
  match a, b with
  | Finite p, Finite q => Qeq_bool p q
  | PosInf, PosInf => true
  | NegInf, NegInf => true
  | _, _ => false
  end.

Definition ofZ (z : Z) : number := Finite (inject_Z z).

End JS.

(** ** Powers of two: [CeilingPOT], [FloorPOT], [NearestPOT],
    [GetExponentOfTwo] *)

Module POT.

(** [Engine.CeilingPOT]: [x--], five smearing steps [x |= x >> k], [x++].
    The decrement and the increment are arithmetic on numbers, the smearing
    steps are 32-bit. *)
Definition CeilingPOT (x : Z) : Z :=
  let x := x - 1 in
  let x := JS.bitor x (JS.sar x 1) in
  let x := JS.bitor x (JS.sar x 2) in
  let x := JS.bitor x (JS.sar x 4) in
  let x := JS.bitor x (JS.sar x 8) in
  let x := JS.bitor x (JS.sar x 16) in
  x + 1.

(** [Engine.FloorPOT]. *)
Definition FloorPOT (x : Z) : Z :=
  let x := JS.bitor x (JS.sar x 1) in
  let x := JS.bitor x (JS.sar x 2) in
  let x := JS.bitor x (JS.sar x 4) in
  let x := JS.bitor x (JS.sar x 8) in
  let x := JS.bitor x (JS.sar x 16) in
  x - JS.sar x 1.

(** [Engine.NearestPOT]: the floor when it is strictly closer, otherwise
    the ceiling. *)
Definition NearestPOT (x : Z) : Z :=
  let c := CeilingPOT x in
  let f := FloorPOT x in
  if (x - f) <? (c - x) then f else c.

Section ScaleModes.

(** The three scale-mode constants come from [Constants] (in
    [./constants], not part of the sources at hand); they are parameters
    here. *)
Variables SCALEMODE_FLOOR SCALEMODE_NEAREST SCALEMODE_CEILING : Z.

(** [Engine.GetExponentOfTwo (value, max, mode)]; the [switch] compares
    [mode] with the cases in order, [SCALEMODE_CEILING] and [default] share
    a body. *)
Definition GetExponentOfTwo_mode (value max mode : Z) : Z :=
  let pot :=
    if mode =? SCALEMODE_FLOOR then FloorPOT value
    else if mode =? SCALEMODE_NEAREST then NearestPOT value
    else CeilingPOT value in
  Z.min pot max.

(** The two-argument call: [mode] takes its default,
    [Constants.SCALEMODE_NEAREST]. *)
Definition GetExponentOfTwo (value max : Z) : Z :=
  GetExponentOfTwo_mode value max SCALEMODE_NEAREST.

End ScaleModes.

(** The five smearing steps alone. *)
Definition smear (x : Z) : Z :=
  let x := JS.bitor x (JS.sar x 1) in
  let x := JS.bitor x (JS.sar x 2) in
  let x := JS.bitor x (JS.sar x 4) in
  let x := JS.bitor x (JS.sar x 8) in
  let x := JS.bitor x (JS.sar x 16) in
  x.

End POT.

(** ** WebGL enumerants used by the engine (values of the WebGL API) *)

Module GLenum.
Definition NO_ERROR : Z := 0.
Definition POINTS : Z := 0.
Definition LINES : Z := 1.
Definition LINE_LOOP : Z := 2.
Definition LINE_STRIP : Z := 3.
Definition TRIANGLES : Z := 4.
Definition TRIANGLE_STRIP : Z := 5.
Definition TRIANGLE_FAN : Z := 6.
Definition LEQUAL : Z := 515.
Definition MAX_TEXTURE_SIZE : Z := 3379.
Definition TEXTURE_2D : Z := 3553.
Definition BYTE : Z := 5120.
Definition UNSIGNED_BYTE : Z := 5121.
Definition SHORT : Z := 5122.
Definition UNSIGNED_SHORT : Z := 5123.
Definition INT : Z := 5124.
Definition UNSIGNED_INT : Z := 5125.
Definition FLOAT : Z := 5126.
Definition HALF_FLOAT : Z := 5131.
Definition RGBA : Z := 6408.
Definition VERSION : Z := 7938.
Definition NEAREST : Z := 9728.
Definition TEXTURE_MAG_FILTER : Z := 10240.
Definition TEXTURE_MIN_FILTER : Z := 10241.
Definition COLOR_BUFFER_BIT : Z := 16384.
Definition UNSIGNED_SHORT_4_4_4_4 : Z := 32819.
Definition UNSIGNED_SHORT_5_5_5_1 : Z := 32820.
Definition TEXTURE_3D : Z := 32879.
Definition UNSIGNED_SHORT_5_6_5 : Z := 33635.
Definition UNSIGNED_INT_2_10_10_10_REV : Z := 33640.
Definition TEXTURE0 : Z := 33984.
Definition MAX_RENDERBUFFER_SIZE : Z := 34024.
Definition UNSIGNED_INT_24_8 : Z := 34042.
Definition MAX_TEXTURE_MAX_ANISOTROPY_EXT : Z := 34047.
Definition TEXTURE_CUBE_MAP : Z := 34067.
Definition MAX_CUBE_MAP_TEXTURE_SIZE : Z := 34076.
Definition QUERY_COUNTER_BITS_EXT : Z := 34916.
Definition MAX_VERTEX_ATTRIBS : Z := 34921.
Definition MAX_TEXTURE_IMAGE_UNITS : Z := 34930.
Definition ARRAY_BUFFER : Z := 34962.
Definition ELEMENT_ARRAY_BUFFER : Z := 34963.
Definition FRAGMENT_SHADER : Z := 35632.
Definition VERTEX_SHADER : Z := 35633.
Definition MAX_VERTEX_TEXTURE_IMAGE_UNITS : Z := 35660.
Definition MAX_COMBINED_TEXTURE_IMAGE_UNITS : Z := 35661.
Definition UNSIGNED_INT_10F_11F_11F_REV : Z := 35899.
Definition UNSIGNED_INT_5_9_9_9_REV : Z := 35902.
Definition FRAMEBUFFER_COMPLETE : Z := 36053.
Definition COLOR_ATTACHMENT0 : Z := 36064.
Definition FRAMEBUFFER : Z := 36160.
Definition MAX_SAMPLES : Z := 36183.
Definition HALF_FLOAT_OES : Z := 36193.
Definition FLOAT_32_UNSIGNED_INT_24_8_REV : Z := 36269.
Definition HIGH_FLOAT : Z := 36338.
Definition MAX_VERTEX_UNIFORM_VECTORS : Z := 36347.
Definition MAX_VARYING_VECTORS : Z := 36348.
Definition MAX_FRAGMENT_UNIFORM_VECTORS : Z := 36349.
Definition TIMESTAMP_EXT : Z := 36392.
Definition UNPACK_FLIP_Y_WEBGL : Z := 37440.
Definition UNMASKED_VENDOR_WEBGL : Z := 37445.
Definition UNMASKED_RENDERER_WEBGL : Z := 37446.
End GLenum.

(** ** Calls that leave the engine

    [gl_*] are calls on the WebGL context [this._gl]; the others are calls
    into collaborators whose code is outside the engine (state objects,
    observables, the logger, effects, textures, scenes, uniform buffers). *)

Inductive state_object : Type := DepthCulling | Stencil | Alpha.

Inductive call : Type :=
| gl_activeTexture (texture : Z)
| gl_bindTexture (target : Z) (texture : option Z)
| gl_uniform1i (location : Z) (v : Z)
| gl_useProgram (program : Z)
| gl_viewport (x y width height : JS.number)
| gl_bindBuffer (target : Z) (buffer : option Z)
| gl_bindVertexArray (vao : option Z)
| gl_deleteBuffer (buffer : Z)
| gl_pixelStorei (pname : Z) (param : Z)
| gl_texParameteri (target pname param : Z)
| gl_generateMipmap (target : Z)
| gl_drawElements (mode count type offset : Z)
| gl_drawElementsInstanced (mode count type offset instances : Z)
| gl_drawArrays (mode first count : Z)
| gl_drawArraysInstanced (mode first count instances : Z)
| state_apply (s : state_object)
| notify_resize
| notify_contextRestored
| notify_contextLost
| event_preventDefault
| notify_loaded (texture : Z)
| logger_warn (message : string)
| effect_prepareEffect (effect : Z)
| effect_resetCache
| texture_rebuild (texture : Z)
| scene_resetCachedMaterial (scene : nat)
| scene_rebuildGeometries (scene : nat)
| scene_rebuildTextures (scene : nat)
| uniformBuffer_rebuild (buffer : Z)
| gl_vertexAttribPointer (indx size type : Z) (normalized : bool) (stride offset : Z)
| queue_new_frame
| effect_onBind (effect : Z)
| notify_effectBind (effect : Z)
| gl_enableVertexAttribArray (index : Z)
| gl_disableVertexAttribArray (index : Z)
| gl_getParameter (pname : Z)
| gl_getExtension (name : string)
| gl_getQuery (target pname : Z)
| gl_getShaderPrecisionFormat (shaderType precisionType : Z)
| gl_getError
| gl_createTexture
| gl_texImage2D (target level internalformat width height border format type : Z)
| gl_createFramebuffer
| gl_bindFramebuffer (target : Z) (framebuffer : option Z)
| gl_framebufferTexture2D (target attachment textarget : Z) (texture : option Z) (level : Z)
| gl_checkFramebufferStatus (target : Z)
| gl_clear (mask : Z)
| gl_readPixels (x y width height format type : Z)
| gl_deleteTexture (texture : option Z)
| gl_deleteFramebuffer (framebuffer : option Z).

(** ** Objects on the heap *)

(** The fields of [InternalTexture] that the engine code below reads or
    writes. *)
Record InternalTexture : Type := {
  _associatedChannel : Z;
  isMultiview : bool;
  _webGLTexture : option Z;
  _colorTextureArray : option Z;
  baseWidth : Z;
  baseHeight : Z;
  width : Z;
  height : Z;
  isReady : bool
}.

Global Instance InternalTexture_inhabited : Inhabited InternalTexture :=
  populate {| _associatedChannel := -1; isMultiview := false;
              _webGLTexture := None; _colorTextureArray := None;
              baseWidth := 0; baseHeight := 0; width := 0; height := 0;
              isReady := false |}.

Definition with_associatedChannel (c : Z) (t : InternalTexture) : InternalTexture :=
  {| _associatedChannel := c; isMultiview := isMultiview t;
     _webGLTexture := _webGLTexture t; _colorTextureArray := _colorTextureArray t;
     baseWidth := baseWidth t; baseHeight := baseHeight t;
     width := width t; height := height t; isReady := isReady t |}.

Definition with_prepared (bw bh w h : Z) (t : InternalTexture) : InternalTexture :=
  {| _associatedChannel := _associatedChannel t; isMultiview := isMultiview t;
     _webGLTexture := _webGLTexture t; _colorTextureArray := _colorTextureArray t;
     baseWidth := bw; baseHeight := bh; width := w; height := h; isReady := true |}.

Definition with_size (w h : Z) (t : InternalTexture) : InternalTexture :=
  {| _associatedChannel := _associatedChannel t; isMultiview := isMultiview t;
     _webGLTexture := _webGLTexture t; _colorTextureArray := _colorTextureArray t;
     baseWidth := baseWidth t; baseHeight := baseHeight t;
     width := w; height := h; isReady := isReady t |}.

(** [DataBuffer]: the reference count is a JavaScript number that only ever
    moves by one; it is an integer here (the two agree below 2^53). *)
Record DataBuffer : Type := {
  references : Z;
  underlyingResource : Z;
  is32Bits : bool
}.

Global Instance DataBuffer_inhabited : Inhabited DataBuffer :=
  populate {| references := 0; underlyingResource := 0; is32Bits := false |}.

Definition with_references (n : Z) (b : DataBuffer) : DataBuffer :=
  {| references := n; underlyingResource := underlyingResource b;
     is32Bits := is32Bits b |}.

(** What the engine uses of an [Effect]: the program of its pipeline
    context; for each sampler, in order, the result of
    [getUniform (samplers [index])]; whether [onBind] and
    [_onBindObservable] are set; and for each attribute, in order, the
    result of [getAttributeLocation (index)] (their number is
    [getAttributesCount ()]). *)
Record Effect : Type := {
  program : Z;
  samplerUniforms : list (option Z);
  onBind : bool;
  _onBindObservable : bool;
  attributeLocations : list Z
}.

Global Instance Effect_inhabited : Inhabited Effect :=
  populate {| program := 0; samplerUniforms := []; onBind := false;
              _onBindObservable := false; attributeLocations := [] |}.

(** [BufferPointer]: the last [vertexAttribPointer] arguments of one
    attribute slot.  The fields have no initialiser, so a new pointer is not
    [active]; its other fields are written before they are read. *)
Record BufferPointer : Type := {
  active : bool;
  pointer_index : Z;
  pointer_size : Z;
  pointer_type : Z;
  pointer_normalized : bool;
  pointer_stride : Z;
  pointer_offset : Z;
  pointer_buffer : Z
}.

Definition with_active (a : bool) (p : BufferPointer) : BufferPointer :=
  {| active := a; pointer_index := pointer_index p; pointer_size := pointer_size p;
     pointer_type := pointer_type p; pointer_normalized := pointer_normalized p;
     pointer_stride := pointer_stride p; pointer_offset := pointer_offset p;
     pointer_buffer := pointer_buffer p |}.

(** The state objects [_DepthCullingState], [_StencilState], [_AlphaState]
    are defined outside the engine; the engine only calls them.  Such an
    object is represented by the calls made on it, oldest first. *)
Inductive state_op : Type :=
| op_reset
| op_set_depthFunc (v : Z)
| op_apply
| op_set_depthTest (v : bool)
| op_set_depthMask (v : bool).

(** Modelled from the spec: [PerfCounter] (in [../Misc/perfCounter], not
    part of the sources at hand).  The spec says the draw count "increments
    by exactly 1 per [drawElementsType] call", so [addCount (n, false)]
    adds [n] to the current count. *)
Record PerfCounter : Type := { current : Z }.

Definition addCount (newCount : Z) (fetchResult : bool) (c : PerfCounter) : PerfCounter :=
  {| current := current c + newCount |}.

Record Canvas : Type := { canvas_width : Z; canvas_height : Z }.

Record Camera : Type := { _currentRenderId : Z }.

Record Scene : Type := { cameras : list Camera }.

Record Viewport4 : Type := { vx : JS.number; vy : JS.number; vz : JS.number; vw : JS.number }.

(** [EngineCapabilities], without [maxTextureSize], which the engine
    record below keeps itself.  A number the context answers is an integer
    here.  An extension object is an address, [None] for [null].  A
    capability typed [boolean] holds the truth value of what the code
    stores in it, and one that is left [undefined] reads [false]; the
    engine only tests these. *)
Record EngineCapabilities : Type := {
  maxTexturesImageUnits : Z;
  maxVertexTextureImageUnits : Z;
  maxCombinedTexturesImageUnits : Z;
  maxCubemapTextureSize : Z;
  maxRenderTextureSize : Z;
  maxVertexAttribs : Z;
  maxVaryingVectors : Z;
  maxVertexUniformVectors : Z;
  maxFragmentUniformVectors : Z;
  standardDerivatives : bool;
  s3tc : option Z;
  pvrtc : option Z;
  etc1 : option Z;
  etc2 : option Z;
  astc : option Z;
  textureFloat : bool;
  vertexArrayObject : bool;
  textureAnisotropicFilterExtension : option Z;
  maxAnisotropy : Z;
  instancedArrays : bool;
  uintIndices : bool;
  highPrecisionShaderSupported : bool;
  fragmentDepthSupported : bool;
  textureFloatLinearFiltering : bool;
  textureFloatRender : bool;
  textureHalfFloat : bool;
  textureHalfFloatLinearFiltering : bool;
  textureHalfFloatRender : bool;
  textureLOD : bool;
  drawBuffersExtension : bool;
  depthTextureExtension : bool;
  colorBufferFloat : bool;
  timerQuery : option Z;
  canUseTimestampForTimerQuery : bool;
  multiview : option Z;
  parallelShaderCompile : option Z;
  maxMSAASamples : Z
}.

Definition caps_eta (c : EngineCapabilities) : EngineCapabilities :=
  Build_EngineCapabilities
    (maxTexturesImageUnits c) (maxVertexTextureImageUnits c)
    (maxCombinedTexturesImageUnits c) (maxCubemapTextureSize c) (maxRenderTextureSize c)
    (maxVertexAttribs c) (maxVaryingVectors c) (maxVertexUniformVectors c)
    (maxFragmentUniformVectors c) (standardDerivatives c) (s3tc c) (pvrtc c) (etc1 c)
    (etc2 c) (astc c) (textureFloat c) (vertexArrayObject c)
    (textureAnisotropicFilterExtension c) (maxAnisotropy c) (instancedArrays c)
    (uintIndices c) (highPrecisionShaderSupported c) (fragmentDepthSupported c)
    (textureFloatLinearFiltering c) (textureFloatRender c) (textureHalfFloat c)
    (textureHalfFloatLinearFiltering c) (textureHalfFloatRender c) (textureLOD c)
    (drawBuffersExtension c) (depthTextureExtension c) (colorBufferFloat c)
    (timerQuery c) (canUseTimestampForTimerQuery c) (multiview c)
    (parallelShaderCompile c) (maxMSAASamples c).

(** [new EngineCapabilities ()]: only [maxMSAASamples] has an
    initialiser. *)
Definition newEngineCapabilities : EngineCapabilities :=
  {| maxTexturesImageUnits := 0;
     maxVertexTextureImageUnits := 0;
     maxCombinedTexturesImageUnits := 0;
     maxCubemapTextureSize := 0;
     maxRenderTextureSize := 0;
     maxVertexAttribs := 0;
     maxVaryingVectors := 0;
     maxVertexUniformVectors := 0;
     maxFragmentUniformVectors := 0;
     standardDerivatives := false;
     s3tc := None;
     pvrtc := None;
     etc1 := None;
     etc2 := None;
     astc := None;
     textureFloat := false;
     vertexArrayObject := false;
     textureAnisotropicFilterExtension := None;
     maxAnisotropy := 0;
     instancedArrays := false;
     uintIndices := false;
     highPrecisionShaderSupported := false;
     fragmentDepthSupported := false;
     textureFloatLinearFiltering := false;
     textureFloatRender := false;
     textureHalfFloat := false;
     textureHalfFloatLinearFiltering := false;
     textureHalfFloatRender := false;
     textureLOD := false;
     drawBuffersExtension := false;
     depthTextureExtension := false;
     colorBufferFloat := false;
     timerQuery := None;
     canUseTimestampForTimerQuery := false;
     multiview := None;
     parallelShaderCompile := None;
     maxMSAASamples := 1 |}.

(** [setter_of eta proj] builds the field update [fun v r => r with proj := v]
    of a record from its eta expansion: the one component that reads
    [proj r] is replaced by [v]. *)
Ltac setter_of eta proj :=
  let v := fresh "v" in
  let r := fresh "r" in
  intros v r;
  let t := eval cbv [eta] in (eta r) in
  let t' := eval pattern (proj r) in t in
  lazymatch t' with
  | ?F _ => let u := eval cbv beta in (F v) in exact u
  end.

Definition set_maxTexturesImageUnits : Z -> EngineCapabilities -> EngineCapabilities.
Proof. setter_of caps_eta maxTexturesImageUnits. Defined.
Definition set_maxVertexTextureImageUnits : Z -> EngineCapabilities -> EngineCapabilities.
Proof. setter_of caps_eta maxVertexTextureImageUnits. Defined.
Definition set_maxCombinedTexturesImageUnits : Z -> EngineCapabilities -> EngineCapabilities.
Proof. setter_of caps_eta maxCombinedTexturesImageUnits. Defined.
Definition set_maxCubemapTextureSize : Z -> EngineCapabilities -> EngineCapabilities.
Proof. setter_of caps_eta maxCubemapTextureSize. Defined.
Definition set_maxRenderTextureSize : Z -> EngineCapabilities -> EngineCapabilities.
Proof. setter_of caps_eta maxRenderTextureSize. Defined.
Definition set_maxVertexAttribs : Z -> EngineCapabilities -> EngineCapabilities.
Proof. setter_of caps_eta maxVertexAttribs. Defined.
Definition set_maxVaryingVectors : Z -> EngineCapabilities -> EngineCapabilities.
Proof. setter_of caps_eta maxVaryingVectors. Defined.
Definition set_maxVertexUniformVectors : Z -> EngineCapabilities -> EngineCapabilities.
Proof. setter_of caps_eta maxVertexUniformVectors. Defined.
Definition set_maxFragmentUniformVectors : Z -> EngineCapabilities -> EngineCapabilities.
Proof. setter_of caps_eta maxFragmentUniformVectors. Defined.
Definition set_standardDerivatives : bool -> EngineCapabilities -> EngineCapabilities.
Proof. setter_of caps_eta standardDerivatives. Defined.
Definition set_s3tc : option Z -> EngineCapabilities -> EngineCapabilities.
Proof. setter_of caps_eta s3tc. Defined.
Definition set_pvrtc : option Z -> EngineCapabilities -> EngineCapabilities.
Proof. setter_of caps_eta pvrtc. Defined.
Definition set_etc1 : option Z -> EngineCapabilities -> EngineCapabilities.
Proof. setter_of caps_eta etc1. Defined.
Definition set_etc2 : option Z -> EngineCapabilities -> EngineCapabilities.
Proof. setter_of caps_eta etc2. Defined.
Definition set_astc : option Z -> EngineCapabilities -> EngineCapabilities.
Proof. setter_of caps_eta astc. Defined.
Definition set_textureFloat : bool -> EngineCapabilities -> EngineCapabilities.
Proof. setter_of caps_eta textureFloat. Defined.
Definition set_vertexArrayObject : bool -> EngineCapabilities -> EngineCapabilities.
Proof. setter_of caps_eta vertexArrayObject. Defined.
Definition set_textureAnisotropicFilterExtension : option Z -> EngineCapabilities -> EngineCapabilities.
Proof. setter_of caps_eta textureAnisotropicFilterExtension. Defined.
Definition set_maxAnisotropy : Z -> EngineCapabilities -> EngineCapabilities.
Proof. setter_of caps_eta maxAnisotropy. Defined.
Definition set_instancedArrays : bool -> EngineCapabilities -> EngineCapabilities.
Proof. setter_of caps_eta instancedArrays. Defined.
Definition set_uintIndices : bool -> EngineCapabilities -> EngineCapabilities.
Proof. setter_of caps_eta uintIndices. Defined.
Definition set_highPrecisionShaderSupported : bool -> EngineCapabilities -> EngineCapabilities.
Proof. setter_of caps_eta highPrecisionShaderSupported. Defined.
Definition set_fragmentDepthSupported : bool -> EngineCapabilities -> EngineCapabilities.
Proof. setter_of caps_eta fragmentDepthSupported. Defined.
Definition set_textureFloatLinearFiltering : bool -> EngineCapabilities -> EngineCapabilities.
Proof. setter_of caps_eta textureFloatLinearFiltering. Defined.
Definition set_textureFloatRender : bool -> EngineCapabilities -> EngineCapabilities.
Proof. setter_of caps_eta textureFloatRender. Defined.
Definition set_textureHalfFloat : bool -> EngineCapabilities -> EngineCapabilities.
Proof. setter_of caps_eta textureHalfFloat. Defined.
Definition set_textureHalfFloatLinearFiltering : bool -> EngineCapabilities -> EngineCapabilities.
Proof. setter_of caps_eta textureHalfFloatLinearFiltering. Defined.
Definition set_textureHalfFloatRender : bool -> EngineCapabilities -> EngineCapabilities.
Proof. setter_of caps_eta textureHalfFloatRender. Defined.
Definition set_textureLOD : bool -> EngineCapabilities -> EngineCapabilities.
Proof. setter_of caps_eta textureLOD. Defined.
Definition set_drawBuffersExtension : bool -> EngineCapabilities -> EngineCapabilities.
Proof. setter_of caps_eta drawBuffersExtension. Defined.
Definition set_depthTextureExtension : bool -> EngineCapabilities -> EngineCapabilities.
Proof. setter_of caps_eta depthTextureExtension. Defined.
Definition set_colorBufferFloat : bool -> EngineCapabilities -> EngineCapabilities.
Proof. setter_of caps_eta colorBufferFloat. Defined.
Definition set_timerQuery : option Z -> EngineCapabilities -> EngineCapabilities.
Proof. setter_of caps_eta timerQuery. Defined.
Definition set_canUseTimestampForTimerQuery : bool -> EngineCapabilities -> EngineCapabilities.
Proof. setter_of caps_eta canUseTimestampForTimerQuery. Defined.
Definition set_multiview : option Z -> EngineCapabilities -> EngineCapabilities.
Proof. setter_of caps_eta multiview. Defined.
Definition set_parallelShaderCompile : option Z -> EngineCapabilities -> EngineCapabilities.
Proof. setter_of caps_eta parallelShaderCompile. Defined.
Definition set_maxMSAASamples : Z -> EngineCapabilities -> EngineCapabilities.
Proof. setter_of caps_eta maxMSAASamples. Defined.

(** ** The engine *)

Record Engine : Type := {
  (* options and capabilities *)
  _webGLVersion : Z;
  forcePOTTextures : bool;
  maxTextureSize : Z;
  preventCacheWipeBetweenFrames : bool;
  enableUnpackFlipYCached : bool;
  _maxSimultaneousTextures : Z;
  disableVertexArrayObjects : bool;
  _caps : EngineCapabilities;
  _glVersion : option string;
  _glRenderer : option string;
  _glVendor : option string;
  _texturesSupported : list string;
  _nextFreeTextureSlots : list Z;
  (* texture binding cache *)
  _activeChannel : Z;
  _currentTextureChannel : Z;
  _boundTexturesCache : gmap Z (option Z);
  _boundUniforms : gmap Z Z;
  _unpackFlipYCached : option bool;
  (* program and viewport cache *)
  _currentEffect : option Z;
  _currentProgram : option Z;
  _viewportCached : Viewport4;
  (* buffer binding cache *)
  _currentBoundBuffer : gmap Z (option Z);
  _cachedVertexBuffers : option Z;
  _cachedIndexBuffer : option Z;
  _cachedEffectForVertexBuffers : option Z;
  _cachedVertexArrayObject : option Z;
  _vaoRecordInProgress : bool;
  _uintIndicesCurrentlySet : bool;
  (* render states and counters *)
  _depthCullingState : list state_op;
  _stencilState : list state_op;
  _alphaState : list state_op;
  _drawCalls : PerfCounter;
  (* canvas, scenes, resources *)
  _renderingCanvas : option Canvas;
  scenes : list Scene;
  _compiledEffects : list (string * Z);
  _internalTexturesCache : list Z;
  _uniformBuffers : list Z;
  _contextWasLost : bool;
  onResizeObservable_hasObservers : bool;
  (* frame loop *)
  _activeRenderLoops : list Z;
  _renderingQueueLaunched : bool;
  (* vertex attributes *)
  _currentBufferPointers : gmap Z BufferPointer;
  _vertexAttribArraysEnabled : list bool;
  _mustWipeVertexAttributes : bool;
  (* heaps *)
  textures : gmap Z InternalTexture;
  uniformStates : gmap Z (option Z);
  buffers : gmap Z DataBuffer;
  effects : gmap Z Effect
}.

Definition eta (e : Engine) : Engine :=
  Build_Engine
    (_webGLVersion e) (forcePOTTextures e) (maxTextureSize e)
    (preventCacheWipeBetweenFrames e) (enableUnpackFlipYCached e)
    (_maxSimultaneousTextures e)
    (disableVertexArrayObjects e) (_caps e) (_glVersion e) (_glRenderer e) (_glVendor e)
    (_texturesSupported e) (_nextFreeTextureSlots e)
    (_activeChannel e) (_currentTextureChannel e) (_boundTexturesCache e)
    (_boundUniforms e) (_unpackFlipYCached e)
    (_currentEffect e) (_currentProgram e) (_viewportCached e)
    (_currentBoundBuffer e) (_cachedVertexBuffers e) (_cachedIndexBuffer e)
    (_cachedEffectForVertexBuffers e) (_cachedVertexArrayObject e)
    (_vaoRecordInProgress e) (_uintIndicesCurrentlySet e)
    (_depthCullingState e) (_stencilState e) (_alphaState e) (_drawCalls e)
    (_renderingCanvas e) (scenes e) (_compiledEffects e)
    (_internalTexturesCache e) (_uniformBuffers e) (_contextWasLost e)
    (onResizeObservable_hasObservers e)
    (_activeRenderLoops e) (_renderingQueueLaunched e)
    (_currentBufferPointers e) (_vertexAttribArraysEnabled e) (_mustWipeVertexAttributes e)
    (textures e) (uniformStates e) (buffers e) (effects e).

(** [setter proj]: the field update [fun v e => e with proj := v] of the
    engine. *)
Ltac setter proj := setter_of eta proj.

Definition set_activeChannel : Z -> Engine -> Engine.
Proof. setter _activeChannel. Defined.
Definition set_currentTextureChannel : Z -> Engine -> Engine.
Proof. setter _currentTextureChannel. Defined.
Definition set_boundTexturesCache : gmap Z (option Z) -> Engine -> Engine.
Proof. setter _boundTexturesCache. Defined.
Definition set_boundUniforms : gmap Z Z -> Engine -> Engine.
Proof. setter _boundUniforms. Defined.
Definition set_unpackFlipYCached : option bool -> Engine -> Engine.
Proof. setter _unpackFlipYCached. Defined.
Definition set_currentEffect : option Z -> Engine -> Engine.
Proof. setter _currentEffect. Defined.
Definition set_currentProgram : option Z -> Engine -> Engine.
Proof. setter _currentProgram. Defined.
Definition set_viewportCached : Viewport4 -> Engine -> Engine.
Proof. setter _viewportCached. Defined.
Definition set_currentBoundBuffer : gmap Z (option Z) -> Engine -> Engine.
Proof. setter _currentBoundBuffer. Defined.
Definition set_cachedVertexBuffers : option Z -> Engine -> Engine.
Proof. setter _cachedVertexBuffers. Defined.
Definition set_cachedIndexBuffer : option Z -> Engine -> Engine.
Proof. setter _cachedIndexBuffer. Defined.
Definition set_cachedEffectForVertexBuffers : option Z -> Engine -> Engine.
Proof. setter _cachedEffectForVertexBuffers. Defined.
Definition set_cachedVertexArrayObject : option Z -> Engine -> Engine.
Proof. setter _cachedVertexArrayObject. Defined.
Definition set_vaoRecordInProgress : bool -> Engine -> Engine.
Proof. setter _vaoRecordInProgress. Defined.
Definition set_uintIndicesCurrentlySet : bool -> Engine -> Engine.
Proof. setter _uintIndicesCurrentlySet. Defined.
Definition set_depthCullingState : list state_op -> Engine -> Engine.
Proof. setter _depthCullingState. Defined.
Definition set_stencilState : list state_op -> Engine -> Engine.
Proof. setter _stencilState. Defined.
Definition set_alphaState : list state_op -> Engine -> Engine.
Proof. setter _alphaState. Defined.
Definition set_drawCalls : PerfCounter -> Engine -> Engine.
Proof. setter _drawCalls. Defined.
Definition set_renderingCanvas : option Canvas -> Engine -> Engine.
Proof. setter _renderingCanvas. Defined.
Definition set_scenes : list Scene -> Engine -> Engine.
Proof. setter scenes. Defined.
Definition set_compiledEffects : list (string * Z) -> Engine -> Engine.
Proof. setter _compiledEffects. Defined.
Definition set_internalTexturesCache : list Z -> Engine -> Engine.
Proof. setter _internalTexturesCache. Defined.
Definition set_contextWasLost : bool -> Engine -> Engine.
Proof. setter _contextWasLost. Defined.
Definition set_uniformBuffers : list Z -> Engine -> Engine.
Proof. setter _uniformBuffers. Defined.
Definition set_textures : gmap Z InternalTexture -> Engine -> Engine.
Proof. setter textures. Defined.
Definition set_uniformStates : gmap Z (option Z) -> Engine -> Engine.
Proof. setter uniformStates. Defined.
Definition set_buffers : gmap Z DataBuffer -> Engine -> Engine.
Proof. setter buffers. Defined.
Definition set_activeRenderLoops : list Z -> Engine -> Engine.
Proof. setter _activeRenderLoops. Defined.
Definition set_renderingQueueLaunched : bool -> Engine -> Engine.
Proof. setter _renderingQueueLaunched. Defined.
Definition set_currentBufferPointers : gmap Z BufferPointer -> Engine -> Engine.
Proof. setter _currentBufferPointers. Defined.
Definition set_vertexAttribArraysEnabled : list bool -> Engine -> Engine.
Proof. setter _vertexAttribArraysEnabled. Defined.
Definition set_mustWipeVertexAttributes : bool -> Engine -> Engine.
Proof. setter _mustWipeVertexAttributes. Defined.
Definition set_maxTextureSize : Z -> Engine -> Engine.
Proof. setter maxTextureSize. Defined.
Definition set_maxSimultaneousTextures : Z -> Engine -> Engine.
Proof. setter _maxSimultaneousTextures. Defined.
Definition set_caps : EngineCapabilities -> Engine -> Engine.
Proof. setter _caps. Defined.
Definition set_glVersion : option string -> Engine -> Engine.
Proof. setter _glVersion. Defined.
Definition set_glRenderer : option string -> Engine -> Engine.
Proof. setter _glRenderer. Defined.
Definition set_glVendor : option string -> Engine -> Engine.
Proof. setter _glVendor. Defined.
Definition set_texturesSupported : list string -> Engine -> Engine.
Proof. setter _texturesSupported. Defined.
Definition set_nextFreeTextureSlots : list Z -> Engine -> Engine.
Proof. setter _nextFreeTextureSlots. Defined.

(** ** Engine operations: state, context calls and exceptions *)

Inductive completion (A : Type) : Type :=
| Normal (a : A)
| Throw (error : string).
Arguments Normal {A} a.
Arguments Throw {A} error.

(** The result of running an operation: how it completed, the engine state
    it left, and the calls it issued, in order. *)
Record Run (A : Type) : Type := mkRun {
  outcome : completion A;
  final : Engine;
  calls : list call
}.
Arguments mkRun {A} _ _ _.
Arguments outcome {A} _.
Arguments final {A} _.
Arguments calls {A} _.

Definition M (A : Type) : Type := Engine -> Run A.

Definition ret {A : Type} (a : A) : M A := fun e => mkRun (Normal a) e [].

Definition bind {A B : Type} (m : M A) (k : A -> M B) : M B := fun e =>
  match m e with
  | mkRun (Normal a) e1 c1 =>
      match k a e1 with
      | mkRun o e2 c2 => mkRun o e2 (c1 ++ c2)
      end
  | mkRun (Throw err) e1 c1 => mkRun (Throw err) e1 c1
  end.

Declare Scope engine_scope.
Delimit Scope engine_scope with engine.
Notation "x ← y ; z" := (bind y (fun x => z))
  (at level 20, y at level 100, z at level 200, only parsing) : engine_scope.
Notation "y ;; z" := (bind y (fun _ => z))
  (at level 100, z at level 200, only parsing, right associativity) : engine_scope.
Local Open Scope engine_scope.

Definition emit (c : call) : M unit := fun e => mkRun (Normal tt) e [c].
Definition gets {A : Type} (f : Engine -> A) : M A := fun e => mkRun (Normal (f e)) e [].
Definition modify (f : Engine -> Engine) : M unit := fun e => mkRun (Normal tt) (f e) [].
Definition throw {A : Type} (err : string) : M A := fun e => mkRun (Throw err) e [].

Arguments ret {A} a e /.
Arguments bind {A B} m k e /.
Arguments emit c e /.
Arguments gets {A} f e /.
Arguments modify f e /.
Arguments throw {A} err e /.

Fixpoint forEach {A : Type} (l : list A) (body : A -> M unit) : M unit :=
  match l with
  | [] => ret tt
  | x :: l' => body x ;; forEach l' body
  end.

(** *** Texture binding cache *)

(** [Engine._activateCurrentTexture]. *)
Definition _activateCurrentTexture : M unit :=
  ach ← gets _activeChannel;
  cur ← gets _currentTextureChannel;
  if cur =? ach then ret tt
  else
    emit (gl_activeTexture (GLenum.TEXTURE0 + ach)) ;;
    modify (set_currentTextureChannel ach).

(** [Engine._bindSamplerUniformToChannel].  When no uniform is recorded for
    [sourceSlot], [uniform] is [undefined] and reading [_currentState]
    throws a [TypeError]. *)
Definition _bindSamplerUniformToChannel (sourceSlot destination : Z) : M unit :=
  bu ← gets _boundUniforms;
  match bu !! sourceSlot with
  | None => throw "TypeError"
  | Some uniform =>
      us ← gets uniformStates;
      if bool_decide (us !!! uniform = Some destination) then ret tt
      else
        emit (gl_uniform1i uniform destination) ;;
        modify (fun e => set_uniformStates (<[uniform := Some destination]> (uniformStates e)) e)
  end.

(** The native object handed to [gl.bindTexture] for a texture. *)
Definition nativeTexture (ts : gmap Z InternalTexture) (texture : option Z) : option Z :=
  match texture with
  | Some t =>
      if isMultiview (ts !!! t) then _colorTextureArray (ts !!! t)
      else _webGLTexture (ts !!! t)
  | None => None
  end.

(** [Engine._bindTextureDirectly (target, texture, forTextureDataUpdate,
    force)]. *)
Definition _bindTextureDirectly (target : Z) (texture : option Z)
    (forTextureDataUpdate force : bool) : M bool :=
  ts ← gets textures;
  let isTextureForRendering :=
    match texture with
    | Some t => bool_decide (-1 < _associatedChannel (ts !!! t))
    | None => false
    end in
  (if forTextureDataUpdate && isTextureForRendering then
     match texture with
     | Some t => modify (set_activeChannel (_associatedChannel (ts !!! t)))
     | None => ret tt
     end
   else ret tt) ;;
  ach ← gets _activeChannel;
  currentTextureBound ← gets (fun e => _boundTexturesCache e !! ach);
  wasPreviouslyBound ←
    (if negb (bool_decide (currentTextureBound = Some texture)) || force then
       _activateCurrentTexture ;;
       emit (gl_bindTexture target (nativeTexture ts texture)) ;;
       modify (fun e => set_boundTexturesCache (<[ach := texture]> (_boundTexturesCache e)) e) ;;
       match texture with
       | Some t =>
           modify (fun e => set_textures
                     (<[t := with_associatedChannel ach (textures e !!! t)]> (textures e)) e)
       | None => ret tt
       end ;;
       ret false
     else if forTextureDataUpdate then
       _activateCurrentTexture ;; ret true
     else ret false);
  (if isTextureForRendering && negb forTextureDataUpdate then
     match texture with
     | Some t =>
         chan ← gets (fun e => _associatedChannel (textures e !!! t));
         ach' ← gets _activeChannel;
         _bindSamplerUniformToChannel chan ach'
     | None => ret tt
     end
   else ret tt) ;;
  ret wasPreviouslyBound.

(** [Engine._bindTexture (channel, texture)]; [channel = None] is
    [undefined]. *)
Definition _bindTexture (channel : option Z) (texture : option Z) : M unit :=
  match channel with
  | None => ret tt
  | Some ch =>
      match texture with
      | Some t =>
          modify (fun e => set_textures
                    (<[t := with_associatedChannel ch (textures e !!! t)]> (textures e)) e)
      | None => ret tt
      end ;;
      modify (set_activeChannel ch) ;;
      _bindTextureDirectly GLenum.TEXTURE_2D texture false false ;;
      ret tt
  end.

(** [Engine.resetTextureCache]: every own key of the cache is set to
    [null]. *)
Definition resetTextureCache : M unit :=
  modify (fun e => set_boundTexturesCache ((fun _ => None) <$> _boundTexturesCache e) e) ;;
  modify (set_currentTextureChannel (-1)).

(** The body of the loop of [unbindAllTextures], for one channel. *)
Definition unbindChannel (version : Z) (channel : Z) : M unit :=
  modify (set_activeChannel channel) ;;
  _bindTextureDirectly GLenum.TEXTURE_2D None false false ;;
  _bindTextureDirectly GLenum.TEXTURE_CUBE_MAP None false false ;;
  if 1 <? version then _bindTextureDirectly GLenum.TEXTURE_3D None false false ;; ret tt
  else ret tt.

(** [Engine.unbindAllTextures]. *)
Definition unbindAllTextures : M unit :=
  n ← gets _maxSimultaneousTextures;
  v ← gets _webGLVersion;
  forEach (seqZ 0 n) (unbindChannel v).

(** [Engine._unpackFlipY]. *)
Definition _unpackFlipY (value : bool) : M unit :=
  cached ← gets _unpackFlipYCached;
  if bool_decide (cached = Some value) then ret tt
  else
    emit (gl_pixelStorei GLenum.UNPACK_FLIP_Y_WEBGL (if value then 1 else 0)) ;;
    en ← gets enableUnpackFlipYCached;
    if en then modify (set_unpackFlipYCached (Some value)) else ret tt.

(** *** Program and viewport cache *)

(** [Engine.setProgram]. *)
Definition setProgram (program : Z) : M unit :=
  cur ← gets _currentProgram;
  if bool_decide (cur = Some program) then ret tt
  else
    emit (gl_useProgram program) ;;
    modify (set_currentProgram (Some program)).

(** The loop of [bindSamplers]: [_boundUniforms [index] = uniform] for each
    sampler whose uniform exists. *)
Fixpoint recordSamplerUniforms (index : Z) (us : list (option Z)) (bu : gmap Z Z) : gmap Z Z :=
  match us with
  | [] => bu
  | Some uniform :: us' => recordSamplerUniforms (index + 1) us' (<[index := uniform]> bu)
  | None :: us' => recordSamplerUniforms (index + 1) us' bu
  end.

(** [Engine.bindSamplers (effect)]. *)
Definition bindSamplers (effect : Z) : M unit :=
  eff ← gets (fun e => effects e !!! effect);
  setProgram (program eff) ;;
  modify (fun e => set_boundUniforms (recordSamplerUniforms 0 (samplerUniforms eff) (_boundUniforms e)) e) ;;
  modify (set_currentEffect None).

Section Collaborators.

(** Whether a call into a collaborator throws, and what the collaborator
    does to the engine while it runs (it may call back into the engine),
    are decided outside the engine. *)
Variable fails : call -> bool.
Variable reaction : call -> Engine -> Engine.

(** A call into a collaborator: it is made, the collaborator does what it
    does, and it may throw. *)
Definition external (c : call) : M unit :=
  emit c ;;
  modify (reaction c) ;;
  if fails c then throw "external failure" else ret tt.

(** [Engine.enableEffect (effect)]; [effect.onBind] and the observers of
    [effect._onBindObservable] are collaborators. *)
Definition enableEffect (effect : option Z) : M unit :=
  match effect with
  | None => ret tt
  | Some eff =>
      cur ← gets _currentEffect;
      if bool_decide (cur = Some eff) then ret tt
      else
        bindSamplers eff ;;
        modify (set_currentEffect (Some eff)) ;;
        ob ← gets (fun e => onBind (effects e !!! eff));
        (if ob then external (effect_onBind eff) else ret tt) ;;
        obs ← gets (fun e => _onBindObservable (effects e !!! eff));
        if obs then external (notify_effectBind eff) else ret tt
  end.

End Collaborators.

(** [Engine._viewport (x, y, width, height)]. *)
Definition _viewport (x y width height : JS.number) : M unit :=
  c ← gets _viewportCached;
  if negb (JS.strictEq x (vx c)) || negb (JS.strictEq y (vy c))
     || negb (JS.strictEq width (vz c)) || negb (JS.strictEq height (vw c)) then
    modify (set_viewportCached {| vx := x; vy := y; vz := width; vw := height |}) ;;
    emit (gl_viewport x y width height)
  else ret tt.

(** [Engine.setDepthFunctionToLessOrEqual]. *)
Definition setDepthFunctionToLessOrEqual : M unit :=
  modify (fun e => set_depthCullingState (_depthCullingState e ++ [op_set_depthFunc GLenum.LEQUAL]) e).

(** [Engine.setDepthBuffer (enable)]. *)
Definition setDepthBuffer (enable : bool) : M unit :=
  modify (fun e => set_depthCullingState (_depthCullingState e ++ [op_set_depthTest enable]) e).

(** [Engine.setDepthWrite (enable)]. *)
Definition setDepthWrite (enable : bool) : M unit :=
  modify (fun e => set_depthCullingState (_depthCullingState e ++ [op_set_depthMask enable]) e).

(** *** Buffer binding cache *)

(** [Engine._unbindVertexArrayObject]. *)
Definition _unbindVertexArrayObject : M unit :=
  vao ← gets _cachedVertexArrayObject;
  match vao with
  | None => ret tt
  | Some _ =>
      modify (set_cachedVertexArrayObject None) ;;
      emit (gl_bindVertexArray None)
  end.

(** [Engine.bindBuffer (buffer, target)]: [_currentBoundBuffer [target]] is
    [undefined] until first written, and [undefined !== null]. *)
Definition bindBuffer (buffer : option Z) (target : Z) : M unit :=
  rec ← gets _vaoRecordInProgress;
  cur ← gets (fun e => _currentBoundBuffer e !! target);
  if rec || negb (bool_decide (cur = Some buffer)) then
    bs ← gets buffers;
    emit (gl_bindBuffer target
            (match buffer with Some b => Some (underlyingResource (bs !!! b)) | None => None end)) ;;
    modify (fun e => set_currentBoundBuffer (<[target := buffer]> (_currentBoundBuffer e)) e)
  else ret tt.

(** [Engine.bindArrayBuffer]. *)
Definition bindArrayBuffer (buffer : option Z) : M unit :=
  rec ← gets _vaoRecordInProgress;
  (if negb rec then _unbindVertexArrayObject else ret tt) ;;
  bindBuffer buffer GLenum.ARRAY_BUFFER.

(** [Engine.bindIndexBuffer]. *)
Definition bindIndexBuffer (buffer : option Z) : M unit :=
  rec ← gets _vaoRecordInProgress;
  (if negb rec then _unbindVertexArrayObject else ret tt) ;;
  bindBuffer buffer GLenum.ELEMENT_ARRAY_BUFFER.

(** [Engine._resetVertexBufferBinding]. *)
Definition _resetVertexBufferBinding : M unit :=
  bindArrayBuffer None ;;
  modify (set_cachedVertexBuffers None).

(** [Engine._resetIndexBufferBinding]. *)
Definition _resetIndexBufferBinding : M unit :=
  bindIndexBuffer None ;;
  modify (set_cachedIndexBuffer None).

(** [Engine._bindIndexBufferWithCache]. *)
Definition _bindIndexBufferWithCache (indexBuffer : option Z) : M unit :=
  match indexBuffer with
  | None => ret tt
  | Some b =>
      cached ← gets _cachedIndexBuffer;
      if bool_decide (cached = Some b) then ret tt
      else
        modify (set_cachedIndexBuffer (Some b)) ;;
        bindIndexBuffer (Some b) ;;
        bs ← gets buffers;
        modify (set_uintIndicesCurrentlySet (is32Bits (bs !!! b)))
  end.

(** [Engine.bindVertexArrayObject]. *)
Definition bindVertexArrayObject (vertexArrayObject : Z) (indexBuffer : option Z) : M unit :=
  cached ← gets _cachedVertexArrayObject;
  if bool_decide (cached = Some vertexArrayObject) then ret tt
  else
    modify (set_cachedVertexArrayObject (Some vertexArrayObject)) ;;
    emit (gl_bindVertexArray (Some vertexArrayObject)) ;;
    modify (set_cachedVertexBuffers None) ;;
    modify (set_cachedIndexBuffer None) ;;
    bs ← gets buffers;
    modify (set_uintIndicesCurrentlySet
              (match indexBuffer with Some b => is32Bits (bs !!! b) | None => false end)) ;;
    modify (set_mustWipeVertexAttributes true).

(** [Engine._vertexAttribPointer].  A slot without a pointer object makes
    the read of [pointer.active] throw a [TypeError]. *)
Definition _vertexAttribPointer (buffer : Z) (indx size type : Z) (normalized : bool)
    (stride offset : Z) : M unit :=
  ps ← gets _currentBufferPointers;
  match ps !! indx with
  | None => throw "TypeError"
  | Some pointer =>
      let changed :=
        if active pointer then
          negb (pointer_buffer pointer =? buffer)
          || negb (pointer_size pointer =? size)
          || negb (pointer_type pointer =? type)
          || negb (eqb (pointer_normalized pointer) normalized)
          || negb (pointer_stride pointer =? stride)
          || negb (pointer_offset pointer =? offset)
        else true in
      modify (set_currentBufferPointers
                (<[indx := {| active := true;
                              pointer_index := if active pointer then pointer_index pointer
                                               else indx;
                              pointer_size := size; pointer_type := type;
                              pointer_normalized := normalized;
                              pointer_stride := stride; pointer_offset := offset;
                              pointer_buffer := buffer |}]> ps)) ;;
      rec ← gets _vaoRecordInProgress;
      if changed || rec then
        bindArrayBuffer (Some buffer) ;;
        emit (gl_vertexAttribPointer indx size type normalized stride offset)
      else ret tt
  end.

(** [a [i] = v] on the array of enabled attributes: a write past the end
    extends the array; the holes it leaves read [undefined], which is
    [false] for the tests the engine makes.  [i] is never negative. *)
Definition arraySet (i : Z) (v : bool) (a : list bool) : list bool :=
  if i <? Z.of_nat (length a) then <[Z.to_nat i := v]> a
  else a ++ replicate (Z.to_nat i - length a) false ++ [v].

(** [this._currentBufferPointers [i].active = false]; a slot without a
    pointer object makes it throw a [TypeError]. *)
Definition deactivatePointer (i : Z) : M unit :=
  ps ← gets _currentBufferPointers;
  match ps !! i with
  | None => throw "TypeError"
  | Some pointer => modify (set_currentBufferPointers (<[i := with_active false pointer]> ps))
  end.

(** What [unbindAllAttributes] does to attribute [i] when it disables
    it. *)
Definition disableAttribute (i : Z) : M unit :=
  emit (gl_disableVertexAttribArray i) ;;
  modify (fun e => set_vertexAttribArraysEnabled (arraySet i false (_vertexAttribArraysEnabled e)) e) ;;
  deactivatePointer i.

(** [Engine.unbindAllAttributes]. *)
Definition unbindAllAttributes : M unit :=
  must ← gets _mustWipeVertexAttributes;
  if must then
    modify (set_mustWipeVertexAttributes false) ;;
    n ← gets (fun e => maxVertexAttribs (_caps e));
    forEach (seqZ 0 n) disableAttribute
  else
    ul ← gets (fun e => Z.of_nat (length (_vertexAttribArraysEnabled e)));
    forEach (seqZ 0 ul) (fun i =>
      n ← gets (fun e => maxVertexAttribs (_caps e));
      enabled ← gets (fun e => _vertexAttribArraysEnabled e !! Z.to_nat i);
      if (n <=? i) || negb (bool_decide (enabled = Some true)) then ret tt
      else disableAttribute i).

(** The loop of [bindBuffersDirectly]: attribute [index] has location
    [order] and [vertexDeclaration [index]] floats, at [offset] bytes; the
    attributes past the end of the declaration are skipped. *)
Fixpoint bindDeclaredAttributes (vertexBuffer vertexStrideSize : Z)
    (locations vertexDeclaration : list Z) (offset : Z) : M unit :=
  match locations, vertexDeclaration with
  | order :: locations', size :: vertexDeclaration' =>
      (if 0 <=? order then
         emit (gl_enableVertexAttribArray order) ;;
         modify (fun e => set_vertexAttribArraysEnabled
                   (arraySet order true (_vertexAttribArraysEnabled e)) e) ;;
         _vertexAttribPointer vertexBuffer order size GLenum.FLOAT false vertexStrideSize offset
       else ret tt) ;;
      bindDeclaredAttributes vertexBuffer vertexStrideSize locations' vertexDeclaration'
        (offset + size * 4)
  | _, _ => ret tt
  end.

(** The guarded block of [bindBuffersDirectly]: what it does when the
    cache does not hold the vertex buffer and the effect. *)
Definition rebindBuffersDirectly (vertexBuffer : Z) (vertexDeclaration : list Z)
    (vertexStrideSize : Z) (effect : Z) : M unit :=
  modify (set_cachedVertexBuffers (Some vertexBuffer)) ;;
  modify (set_cachedEffectForVertexBuffers (Some effect)) ;;
  locations ← gets (fun e => attributeLocations (effects e !!! effect));
  _unbindVertexArrayObject ;;
  unbindAllAttributes ;;
  bindDeclaredAttributes vertexBuffer vertexStrideSize locations vertexDeclaration 0.

(** [Engine.bindBuffersDirectly]. *)
Definition bindBuffersDirectly (vertexBuffer : Z) (indexBuffer : option Z)
    (vertexDeclaration : list Z) (vertexStrideSize : Z) (effect : Z) : M unit :=
  cachedBuffers ← gets _cachedVertexBuffers;
  cachedEffect ← gets _cachedEffectForVertexBuffers;
  (if negb (bool_decide (cachedBuffers = Some vertexBuffer))
      || negb (bool_decide (cachedEffect = Some effect))
   then rebindBuffersDirectly vertexBuffer vertexDeclaration vertexStrideSize effect
   else ret tt) ;;
  _bindIndexBufferWithCache indexBuffer.

(** [Engine._releaseBuffer]. *)
Definition _releaseBuffer (buffer : Z) : M bool :=
  modify (fun e => set_buffers
            (<[buffer := with_references (references (buffers e !!! buffer) - 1)
                                        (buffers e !!! buffer)]> (buffers e)) e) ;;
  b ← gets (fun e => buffers e !!! buffer);
  if references b =? 0 then
    emit (gl_deleteBuffer (underlyingResource b)) ;;
    ret true
  else ret false.

(** *** Bulk invalidation *)

(** [Engine.wipeCaches (bruteForce)]; an absent argument is [false]. *)
Definition wipeCaches (bruteForce : bool) : M unit :=
  prevent ← gets preventCacheWipeBetweenFrames;
  if prevent && negb bruteForce then ret tt
  else
    modify (set_currentEffect None) ;;
    modify (fun e => set_viewportCached
              {| vx := JS.ofZ 0; vy := JS.ofZ 0; vz := JS.ofZ 0; vw := JS.ofZ 0 |} e) ;;
    (if bruteForce then
       resetTextureCache ;;
       modify (set_currentProgram None) ;;
       modify (fun e => set_stencilState (_stencilState e ++ [op_reset]) e) ;;
       modify (fun e => set_depthCullingState (_depthCullingState e ++ [op_reset]) e) ;;
       setDepthFunctionToLessOrEqual ;;
       modify (fun e => set_alphaState (_alphaState e ++ [op_reset]) e) ;;
       modify (set_unpackFlipYCached None)
     else ret tt) ;;
    _resetVertexBufferBinding ;;
    modify (set_cachedIndexBuffer None) ;;
    modify (set_cachedEffectForVertexBuffers None) ;;
    _unbindVertexArrayObject ;;
    bindIndexBuffer None.

(** *** Draw calls *)

(** [Engine.applyStates]: one [apply (gl)] on each of the three state
    objects. *)
Definition applyStates : M unit :=
  modify (fun e => set_depthCullingState (_depthCullingState e ++ [op_apply]) e) ;;
  emit (state_apply DepthCulling) ;;
  modify (fun e => set_stencilState (_stencilState e ++ [op_apply]) e) ;;
  emit (state_apply Stencil) ;;
  modify (fun e => set_alphaState (_alphaState e ++ [op_apply]) e) ;;
  emit (state_apply Alpha).

(** The fill-mode constants of [Constants] (in [./constants], not part of
    the sources at hand). *)
Record FillModes : Type := {
  MATERIAL_TriangleFillMode : Z;
  MATERIAL_WireFrameFillMode : Z;
  MATERIAL_PointFillMode : Z;
  MATERIAL_PointListDrawMode : Z;
  MATERIAL_LineListDrawMode : Z;
  MATERIAL_LineLoopDrawMode : Z;
  MATERIAL_LineStripDrawMode : Z;
  MATERIAL_TriangleStripDrawMode : Z;
  MATERIAL_TriangleFanDrawMode : Z
}.

(** [if (instancesCount)]: absent and [0] are falsy. *)
Definition truthyCount (instancesCount : option Z) : option Z :=
  match instancesCount with
  | Some n => if n =? 0 then None else Some n
  | None => None
  end.

Section Draw.

Variable K : FillModes.

(** [Engine._drawMode]: the [switch] takes the first matching case. *)
Definition _drawMode (fillMode : Z) : Z :=
  if fillMode =? MATERIAL_TriangleFillMode K then GLenum.TRIANGLES
  else if fillMode =? MATERIAL_PointFillMode K then GLenum.POINTS
  else if fillMode =? MATERIAL_WireFrameFillMode K then GLenum.LINES
  else if fillMode =? MATERIAL_PointListDrawMode K then GLenum.POINTS
  else if fillMode =? MATERIAL_LineListDrawMode K then GLenum.LINES
  else if fillMode =? MATERIAL_LineLoopDrawMode K then GLenum.LINE_LOOP
  else if fillMode =? MATERIAL_LineStripDrawMode K then GLenum.LINE_STRIP
  else if fillMode =? MATERIAL_TriangleStripDrawMode K then GLenum.TRIANGLE_STRIP
  else if fillMode =? MATERIAL_TriangleFanDrawMode K then GLenum.TRIANGLE_FAN
  else GLenum.TRIANGLES.

(** [Engine.drawElementsType]. *)
Definition drawElementsType (fillMode indexStart indexCount : Z)
    (instancesCount : option Z) : M unit :=
  applyStates ;;
  modify (fun e => set_drawCalls (addCount 1 false (_drawCalls e)) e) ;;
  let drawMode := _drawMode fillMode in
  uint ← gets _uintIndicesCurrentlySet;
  let indexFormat := if uint then GLenum.UNSIGNED_INT else GLenum.UNSIGNED_SHORT in
  let mult := if uint then 4 else 2 in
  match truthyCount instancesCount with
  | Some n => emit (gl_drawElementsInstanced drawMode indexCount indexFormat (indexStart * mult) n)
  | None => emit (gl_drawElements drawMode indexCount indexFormat (indexStart * mult))
  end.

(** [Engine.drawArraysType]. *)
Definition drawArraysType (fillMode verticesStart verticesCount : Z)
    (instancesCount : option Z) : M unit :=
  applyStates ;;
  modify (fun e => set_drawCalls (addCount 1 false (_drawCalls e)) e) ;;
  let drawMode := _drawMode fillMode in
  match truthyCount instancesCount with
  | Some n => emit (gl_drawArraysInstanced drawMode verticesStart verticesCount n)
  | None => emit (gl_drawArrays drawMode verticesStart verticesCount)
  end.

(** [Engine.draw]. *)
Definition draw (useTriangles : bool) (indexStart indexCount : Z)
    (instancesCount : option Z) : M unit :=
  drawElementsType
    (if useTriangles then MATERIAL_TriangleFillMode K else MATERIAL_WireFrameFillMode K)
    indexStart indexCount instancesCount.

(** [Engine.drawPointClouds]. *)
Definition drawPointClouds (verticesStart verticesCount : Z)
    (instancesCount : option Z) : M unit :=
  drawArraysType (MATERIAL_PointFillMode K) verticesStart verticesCount instancesCount.

(** [Engine.drawUnIndexed]. *)
Definition drawUnIndexed (useTriangles : bool) (verticesStart verticesCount : Z)
    (instancesCount : option Z) : M unit :=
  drawArraysType
    (if useTriangles then MATERIAL_TriangleFillMode K else MATERIAL_WireFrameFillMode K)
    verticesStart verticesCount instancesCount.

End Draw.

(** *** Canvas size *)

Definition resetRenderIds (s : Scene) : Scene :=
  {| cameras := map (fun _ => {| _currentRenderId := 0 |}) (cameras s) |}.

(** [Engine.setSize (width, height)].  A canvas stores a dimension in
    [0, 2^31) as it is given. *)
Definition setSize (width height : JS.number) : M unit :=
  canvas ← gets _renderingCanvas;
  match canvas with
  | None => ret tt
  | Some c =>
      let width := JS.numberToInt32 width in
      let height := JS.numberToInt32 height in
      if (canvas_width c =? width) && (canvas_height c =? height) then ret tt
      else
        modify (set_renderingCanvas (Some {| canvas_width := width; canvas_height := height |})) ;;
        modify (fun e => set_scenes (map resetRenderIds (scenes e)) e) ;;
        has ← gets onResizeObservable_hasObservers;
        if has then emit notify_resize else ret tt
  end.

(** *** Preparing a texture *)

Section Prepare.

Variables SCALEMODE_FLOOR SCALEMODE_NEAREST : Z.

(** [Engine.needPOTTextures]. *)
Definition needPOTTextures (e : Engine) : bool :=
  (_webGLVersion e <? 2) || forcePOTTextures e.

(** The dimension computed at the head of [_prepareWebGLTexture]:
    [Math.min (maxTextureSize, needPOTTextures ? GetExponentOfTwo (d,
    maxTextureSize) : d)]. *)
Definition potDimension (e : Engine) (d : Z) : Z :=
  Z.min (maxTextureSize e)
        (if needPOTTextures e
         then POT.GetExponentOfTwo SCALEMODE_FLOOR SCALEMODE_NEAREST (d) (maxTextureSize e)
         else d).

(** [Engine._getSamplingParameters] is not modelled; the two filters it
    returns are arguments of the continuation. *)

(** [Engine._prepareWebGLTextureContinuation]; the scene's pending-data
    bookkeeping is left out, the load notification is recorded. *)
Definition _prepareWebGLTextureContinuation (texture : Z) (magFilter minFilter : Z)
    (noMipmap isCompressed : bool) : M unit :=
  emit (gl_texParameteri GLenum.TEXTURE_2D GLenum.TEXTURE_MAG_FILTER magFilter) ;;
  emit (gl_texParameteri GLenum.TEXTURE_2D GLenum.TEXTURE_MIN_FILTER minFilter) ;;
  (if negb noMipmap && negb isCompressed then emit (gl_generateMipmap GLenum.TEXTURE_2D)
   else ret tt) ;;
  _bindTextureDirectly GLenum.TEXTURE_2D None false false ;;
  emit (notify_loaded texture).

(** [Engine._prepareWebGLTexture]; [invertY = None] is [undefined], the
    context [this._gl] exists, and the scene's pending-data bookkeeping is
    left out.  [processFunction] receives the two computed dimensions and answers
    whether the continuation is deferred. *)
Definition _prepareWebGLTexture (texture : Z) (width height : Z) (invertY : option bool)
    (noMipmap isCompressed : bool) (processFunction : Z -> Z -> M bool)
    (magFilter minFilter : Z) : M unit :=
  potWidth ← gets (fun e => potDimension e width);
  potHeight ← gets (fun e => potDimension e height);
  t ← gets (fun e => textures e !!! texture);
  match _webGLTexture t with
  | None => ret tt
  | Some _ =>
      _bindTextureDirectly GLenum.TEXTURE_2D (Some texture) true false ;;
      _unpackFlipY (match invertY with None => true | Some b => b end) ;;
      modify (fun e => set_textures
                (<[texture := with_prepared width height potWidth potHeight
                                (textures e !!! texture)]> (textures e)) e) ;;
      deferred ← processFunction potWidth potHeight;
      if deferred then ret tt
      else _prepareWebGLTextureContinuation texture magFilter minFilter noMipmap isCompressed
  end.

End Prepare.

(** *** The answers of the WebGL context

    What the context answers to a query is decided outside the engine.  The
    answers are a parameter; each query is recorded among the calls like
    any other call on the context. *)

(** What one run of [_canRenderToFramebuffer] meets: the number of errors
    [getError] reports before it answers [NO_ERROR] when the probe starts,
    the objects the context creates, the framebuffer status, the answers
    of the three [getError] calls of the probe, and the number of errors
    reported after a failed probe.  Both [while] loops on [getError] end:
    the context holds finitely many error flags. *)
Record FramebufferProbe : Type := {
  pendingErrors : nat;
  probeTexture : option Z;
  probeFramebuffer : option Z;
  framebufferStatus : Z;
  errorAfterAttach : Z;
  errorAfterClear : Z;
  errorAfterRead : Z;
  trailingErrors : nat
}.

(** [getParameter] on a numeric and on a string-valued parameter,
    [getExtension], [getQuery], whether the context has
    [getShaderPrecisionFormat] and the [precision] of the format it
    returns ([None] for [null]), and the probes by texture type. *)
Record Context : Type := {
  getParameter : Z -> Z;
  getParameterString : Z -> option string;
  getExtension : string -> option Z;
  getQuery : Z -> Z -> Z;
  hasGetShaderPrecisionFormat : bool;
  getShaderPrecisionFormat : Z -> Z -> option Z;
  framebufferProbe : Z -> FramebufferProbe
}.

(** The texture-type constants of [Constants] (in [./constants], not part
    of the sources at hand). *)
Record TextureTypes : Type := {
  TEXTURETYPE_UNSIGNED_BYTE : Z;
  TEXTURETYPE_FLOAT : Z;
  TEXTURETYPE_HALF_FLOAT : Z;
  TEXTURETYPE_BYTE : Z;
  TEXTURETYPE_SHORT : Z;
  TEXTURETYPE_UNSIGNED_SHORT : Z;
  TEXTURETYPE_INT : Z;
  TEXTURETYPE_UNSIGNED_INTEGER : Z;
  TEXTURETYPE_UNSIGNED_SHORT_4_4_4_4 : Z;
  TEXTURETYPE_UNSIGNED_SHORT_5_5_5_1 : Z;
  TEXTURETYPE_UNSIGNED_SHORT_5_6_5 : Z;
  TEXTURETYPE_UNSIGNED_INT_2_10_10_10_REV : Z;
  TEXTURETYPE_UNSIGNED_INT_24_8 : Z;
  TEXTURETYPE_UNSIGNED_INT_10F_11F_11F_REV : Z;
  TEXTURETYPE_UNSIGNED_INT_5_9_9_9_REV : Z;
  TEXTURETYPE_FLOAT_32_UNSIGNED_INT_24_8_REV : Z
}.

(** Whether a string is falsy: [null], [undefined] or empty. *)
Definition falsyString (s : option string) : bool :=
  match s with
  | Some EmptyString => true
  | Some _ => false
  | None => true
  end.

Definition isSome {A : Type} (x : option A) : bool :=
  match x with Some _ => true | None => false end.

(** [this._caps.field = v]. *)
Definition setCap (f : EngineCapabilities -> EngineCapabilities) : M unit :=
  modify (fun e => set_caps (f (_caps e)) e).

(** *** Context loss and recovery *)

Section Recovery.

Variable fails : call -> bool.
Variable reaction : call -> Engine -> Engine.

Variable gl : Context.
Variable K : TextureTypes.

(** The table of [_getRGBABufferInternalSizedFormat] for a WebGL version
    other than 1, by texture type, for an absent format: a [switch] that
    only selects an enumerant. *)
Variable sizedFormat : Z -> Z.

(** [this._gl.getParameter (pname)], for a number and for a string. *)
Definition queryParameter (pname : Z) : M Z :=
  emit (gl_getParameter pname) ;; ret (getParameter gl pname).

Definition queryString (pname : Z) : M (option string) :=
  emit (gl_getParameter pname) ;; ret (getParameterString gl pname).

(** [this._gl.getExtension (name)]. *)
Definition queryExtension (name : string) : M (option Z) :=
  emit (gl_getExtension name) ;; ret (getExtension gl name).

(** [getExtension (n1) || getExtension (n2) || ...]: the first extension
    the context has; the later ones are not asked for. *)
Fixpoint firstExtension (names : list string) : M (option Z) :=
  match names with
  | [] => ret None
  | name :: names' =>
      x ← queryExtension name;
      match x with
      | Some _ => ret x
      | None => firstExtension names'
      end
  end.

(** [this._webGLVersion > 1 || this._gl.getExtension (name)], as a truth
    value; the extension is asked for only on a version that is not above
    1. *)
Definition versionOrExtension (name : string) : M bool :=
  v ← gets _webGLVersion;
  if 1 <? v then ret true
  else x ← queryExtension name; ret (isSome x).

(** [Engine._getWebGLTextureType (type)].  [this._gl.HALF_FLOAT_OES] is
    the value [_initGLContext] gives it before any probe. *)
Definition _getWebGLTextureType (version type : Z) : Z :=
  if version =? 1 then
    if type =? TEXTURETYPE_FLOAT K then GLenum.FLOAT
    else if type =? TEXTURETYPE_HALF_FLOAT K then GLenum.HALF_FLOAT_OES
    else if type =? TEXTURETYPE_UNSIGNED_BYTE K then GLenum.UNSIGNED_BYTE
    else if type =? TEXTURETYPE_UNSIGNED_SHORT_4_4_4_4 K then GLenum.UNSIGNED_SHORT_4_4_4_4
    else if type =? TEXTURETYPE_UNSIGNED_SHORT_5_5_5_1 K then GLenum.UNSIGNED_SHORT_5_5_5_1
    else if type =? TEXTURETYPE_UNSIGNED_SHORT_5_6_5 K then GLenum.UNSIGNED_SHORT_5_6_5
    else GLenum.UNSIGNED_BYTE
  else
    if type =? TEXTURETYPE_BYTE K then GLenum.BYTE
    else if type =? TEXTURETYPE_UNSIGNED_BYTE K then GLenum.UNSIGNED_BYTE
    else if type =? TEXTURETYPE_SHORT K then GLenum.SHORT
    else if type =? TEXTURETYPE_UNSIGNED_SHORT K then GLenum.UNSIGNED_SHORT
    else if type =? TEXTURETYPE_INT K then GLenum.INT
    else if type =? TEXTURETYPE_UNSIGNED_INTEGER K then GLenum.UNSIGNED_INT
    else if type =? TEXTURETYPE_FLOAT K then GLenum.FLOAT
    else if type =? TEXTURETYPE_HALF_FLOAT K then GLenum.HALF_FLOAT
    else if type =? TEXTURETYPE_UNSIGNED_SHORT_4_4_4_4 K then GLenum.UNSIGNED_SHORT_4_4_4_4
    else if type =? TEXTURETYPE_UNSIGNED_SHORT_5_5_5_1 K then GLenum.UNSIGNED_SHORT_5_5_5_1
    else if type =? TEXTURETYPE_UNSIGNED_SHORT_5_6_5 K then GLenum.UNSIGNED_SHORT_5_6_5
    else if type =? TEXTURETYPE_UNSIGNED_INT_2_10_10_10_REV K
      then GLenum.UNSIGNED_INT_2_10_10_10_REV
    else if type =? TEXTURETYPE_UNSIGNED_INT_24_8 K then GLenum.UNSIGNED_INT_24_8
    else if type =? TEXTURETYPE_UNSIGNED_INT_10F_11F_11F_REV K
      then GLenum.UNSIGNED_INT_10F_11F_11F_REV
    else if type =? TEXTURETYPE_UNSIGNED_INT_5_9_9_9_REV K
      then GLenum.UNSIGNED_INT_5_9_9_9_REV
    else if type =? TEXTURETYPE_FLOAT_32_UNSIGNED_INT_24_8_REV K
      then GLenum.FLOAT_32_UNSIGNED_INT_24_8_REV
    else GLenum.UNSIGNED_BYTE.

(** [Engine._getRGBABufferInternalSizedFormat (type)], the format being
    absent. *)
Definition _getRGBABufferInternalSizedFormat (version type : Z) : Z :=
  if version =? 1 then GLenum.RGBA else sizedFormat type.

(** [while (gl.getError () !== gl.NO_ERROR) { }] with [n] errors
    pending. *)
Definition drainErrors (n : nat) : M unit :=
  forEach (replicate (S n) gl_getError) emit.

(** [Engine._canRenderToFramebuffer (type)].  It calls the context
    directly, past the binding caches of the engine. *)
Definition _canRenderToFramebuffer (type : Z) : M bool :=
  let probe := framebufferProbe gl type in
  drainErrors (pendingErrors probe) ;;
  emit gl_createTexture ;;
  emit (gl_bindTexture GLenum.TEXTURE_2D (probeTexture probe)) ;;
  v ← gets _webGLVersion;
  emit (gl_texImage2D GLenum.TEXTURE_2D 0 (_getRGBABufferInternalSizedFormat v type) 1 1 0
          GLenum.RGBA (_getWebGLTextureType v type)) ;;
  emit (gl_texParameteri GLenum.TEXTURE_2D GLenum.TEXTURE_MIN_FILTER GLenum.NEAREST) ;;
  emit (gl_texParameteri GLenum.TEXTURE_2D GLenum.TEXTURE_MAG_FILTER GLenum.NEAREST) ;;
  emit gl_createFramebuffer ;;
  emit (gl_bindFramebuffer GLenum.FRAMEBUFFER (probeFramebuffer probe)) ;;
  emit (gl_framebufferTexture2D GLenum.FRAMEBUFFER GLenum.COLOR_ATTACHMENT0 GLenum.TEXTURE_2D
          (probeTexture probe) 0) ;;
  emit (gl_checkFramebufferStatus GLenum.FRAMEBUFFER) ;;
  successful ←
    (if framebufferStatus probe =? GLenum.FRAMEBUFFER_COMPLETE then
       emit gl_getError ;; ret (errorAfterAttach probe =? GLenum.NO_ERROR)
     else ret false);
  successful ←
    (if successful : bool then
       emit (gl_clear GLenum.COLOR_BUFFER_BIT) ;;
       emit gl_getError ;; ret (errorAfterClear probe =? GLenum.NO_ERROR)
     else ret false);
  successful ←
    (if successful : bool then
       emit (gl_bindFramebuffer GLenum.FRAMEBUFFER None) ;;
       emit (gl_readPixels 0 0 1 1 GLenum.RGBA GLenum.UNSIGNED_BYTE) ;;
       emit gl_getError ;; ret (errorAfterRead probe =? GLenum.NO_ERROR)
     else ret false);
  emit (gl_deleteTexture (probeTexture probe)) ;;
  emit (gl_deleteFramebuffer (probeFramebuffer probe)) ;;
  emit (gl_bindFramebuffer GLenum.FRAMEBUFFER None) ;;
  (if successful : bool then ret tt else drainErrors (trailingErrors probe)) ;;
  ret successful.

(** [Engine._canRenderToFloatFramebuffer] and
    [Engine._canRenderToHalfFloatFramebuffer]. *)
Definition _canRenderToFloatFramebuffer : M bool :=
  v ← gets _webGLVersion;
  if 1 <? v then gets (fun e => colorBufferFloat (_caps e))
  else _canRenderToFramebuffer (TEXTURETYPE_FLOAT K).

Definition _canRenderToHalfFloatFramebuffer : M bool :=
  v ← gets _webGLVersion;
  if 1 <? v then gets (fun e => colorBufferFloat (_caps e))
  else _canRenderToFramebuffer (TEXTURETYPE_HALF_FLOAT K).

(** [Engine._initGLContext], block by block.  What it writes on the
    context object itself (the enumerants [HALF_FLOAT_OES], [RGBA16F],
    [RGBA32F], [DEPTH24_STENCIL8], [DRAW_FRAMEBUFFER], [UNSIGNED_INT_24_8],
    [COLOR_ATTACHMENTi_WEBGL], and the methods it aliases to those of an
    extension object) is not engine state and is left out: the calls
    recorded here name the method, whichever object carries it. *)

(** The block [// Caps]: a new capability record and the ten limits. *)
Definition initLimits : M unit :=
  modify (set_caps newEngineCapabilities) ;;
  v ← queryParameter GLenum.MAX_TEXTURE_IMAGE_UNITS;
  setCap (set_maxTexturesImageUnits v) ;;
  v ← queryParameter GLenum.MAX_COMBINED_TEXTURE_IMAGE_UNITS;
  setCap (set_maxCombinedTexturesImageUnits v) ;;
  v ← queryParameter GLenum.MAX_VERTEX_TEXTURE_IMAGE_UNITS;
  setCap (set_maxVertexTextureImageUnits v) ;;
  v ← queryParameter GLenum.MAX_TEXTURE_SIZE;
  modify (set_maxTextureSize v) ;;
  v ← queryParameter GLenum.MAX_CUBE_MAP_TEXTURE_SIZE;
  setCap (set_maxCubemapTextureSize v) ;;
  v ← queryParameter GLenum.MAX_RENDERBUFFER_SIZE;
  setCap (set_maxRenderTextureSize v) ;;
  v ← queryParameter GLenum.MAX_VERTEX_ATTRIBS;
  setCap (set_maxVertexAttribs v) ;;
  v ← queryParameter GLenum.MAX_VARYING_VECTORS;
  setCap (set_maxVaryingVectors v) ;;
  v ← queryParameter GLenum.MAX_FRAGMENT_UNIFORM_VECTORS;
  setCap (set_maxFragmentUniformVectors v) ;;
  v ← queryParameter GLenum.MAX_VERTEX_UNIFORM_VECTORS;
  setCap (set_maxVertexUniformVectors v).

(** The block [// Infos]. *)
Definition initInfos : M unit :=
  s ← queryString GLenum.VERSION;
  modify (set_glVersion s) ;;
  rendererInfo ← queryExtension "WEBGL_debug_renderer_info";
  match rendererInfo with
  | Some _ =>
      s ← queryString GLenum.UNMASKED_RENDERER_WEBGL;
      modify (set_glRenderer s) ;;
      s ← queryString GLenum.UNMASKED_VENDOR_WEBGL;
      modify (set_glVendor s)
  | None => ret tt
  end ;;
  vendor ← gets _glVendor;
  (if falsyString vendor then modify (set_glVendor (Some "Unknown vendor"%string)) else ret tt) ;;
  renderer ← gets _glRenderer;
  if falsyString renderer then modify (set_glRenderer (Some "Unknown renderer"%string))
  else ret tt.

(** The block [// Extensions], up to the multiview extension. *)
Definition initExtensions : M unit :=
  b ← versionOrExtension "OES_standard_derivatives";
  setCap (set_standardDerivatives b) ;;
  x ← firstExtension ["WEBGL_compressed_texture_astc"; "WEBKIT_WEBGL_compressed_texture_astc"]%string;
  setCap (set_astc x) ;;
  x ← firstExtension ["WEBGL_compressed_texture_s3tc"; "WEBKIT_WEBGL_compressed_texture_s3tc"]%string;
  setCap (set_s3tc x) ;;
  x ← firstExtension ["WEBGL_compressed_texture_pvrtc"; "WEBKIT_WEBGL_compressed_texture_pvrtc"]%string;
  setCap (set_pvrtc x) ;;
  x ← firstExtension ["WEBGL_compressed_texture_etc1"; "WEBKIT_WEBGL_compressed_texture_etc1"]%string;
  setCap (set_etc1 x) ;;
  x ← firstExtension ["WEBGL_compressed_texture_etc"; "WEBKIT_WEBGL_compressed_texture_etc";
                      "WEBGL_compressed_texture_es3_0"]%string;
  setCap (set_etc2 x) ;;
  x ← firstExtension ["EXT_texture_filter_anisotropic"; "WEBKIT_EXT_texture_filter_anisotropic";
                      "MOZ_EXT_texture_filter_anisotropic"]%string;
  setCap (set_textureAnisotropicFilterExtension x) ;;
  match x with
  | Some _ =>
      v ← queryParameter GLenum.MAX_TEXTURE_MAX_ANISOTROPY_EXT;
      setCap (set_maxAnisotropy v)
  | None => setCap (set_maxAnisotropy 0)
  end ;;
  b ← versionOrExtension "OES_element_index_uint";
  setCap (set_uintIndices b) ;;
  b ← versionOrExtension "EXT_frag_depth";
  setCap (set_fragmentDepthSupported b) ;;
  setCap (set_highPrecisionShaderSupported false) ;;
  x ← firstExtension ["EXT_disjoint_timer_query_webgl2"; "EXT_disjoint_timer_query"]%string;
  setCap (set_timerQuery x) ;;
  match x with
  | Some _ =>
      emit (gl_getQuery GLenum.TIMESTAMP_EXT GLenum.QUERY_COUNTER_BITS_EXT) ;;
      setCap (set_canUseTimestampForTimerQuery
                (0 <? getQuery gl GLenum.TIMESTAMP_EXT GLenum.QUERY_COUNTER_BITS_EXT))
  | None => ret tt
  end ;;
  v ← gets _webGLVersion;
  b ← (if 1 <? v then x ← queryExtension "EXT_color_buffer_float"; ret (isSome x)
       else ret false);
  setCap (set_colorBufferFloat b) ;;
  b ← versionOrExtension "OES_texture_float";
  setCap (set_textureFloat b) ;;
  b ← (if b : bool then x ← queryExtension "OES_texture_float_linear"; ret (isSome x)
       else ret false);
  setCap (set_textureFloatLinearFiltering b) ;;
  textureFloat ← gets (fun e => textureFloat (_caps e));
  b ← (if textureFloat : bool then _canRenderToFloatFramebuffer else ret false);
  setCap (set_textureFloatRender b) ;;
  b ← versionOrExtension "OES_texture_half_float";
  setCap (set_textureHalfFloat b) ;;
  b ← (if 1 <? v then ret true
       else if b : bool then x ← queryExtension "OES_texture_half_float_linear"; ret (isSome x)
       else ret false);
  setCap (set_textureHalfFloatLinearFiltering b) ;;
  textureHalfFloat ← gets (fun e => textureHalfFloat (_caps e));
  b ← (if textureHalfFloat : bool then _canRenderToHalfFloatFramebuffer else ret false);
  setCap (set_textureHalfFloatRender b) ;;
  b ← versionOrExtension "EXT_shader_texture_lod";
  setCap (set_textureLOD b) ;;
  x ← queryExtension "OVR_multiview2";
  setCap (set_multiview x).

(** The blocks [// Draw buffers], [// Shader compiler threads],
    [// Depth Texture], [// Vertex array object] and
    [// Instances count]. *)
Definition initDrawFeatures : M unit :=
  v ← gets _webGLVersion;
  (if 1 <? v then
     setCap (set_drawBuffersExtension true) ;;
     n ← queryParameter GLenum.MAX_SAMPLES;
     setCap (set_maxMSAASamples n)
   else
     x ← queryExtension "WEBGL_draw_buffers";
     setCap (set_drawBuffersExtension (isSome x))) ;;
  x ← queryExtension "KHR_parallel_shader_compile";
  setCap (set_parallelShaderCompile x) ;;
  (if 1 <? v then setCap (set_depthTextureExtension true)
   else
     x ← queryExtension "WEBGL_depth_texture";
     match x with
     | Some _ => setCap (set_depthTextureExtension true)
     | None => ret tt
     end) ;;
  disabled ← gets disableVertexArrayObjects;
  (if disabled : bool then setCap (set_vertexArrayObject false)
   else if 1 <? v then setCap (set_vertexArrayObject true)
   else
     x ← queryExtension "OES_vertex_array_object";
     setCap (set_vertexArrayObject (isSome x))) ;;
  if 1 <? v then setCap (set_instancedArrays true)
  else
    x ← queryExtension "ANGLE_instanced_arrays";
    setCap (set_instancedArrays (isSome x)).

(** The compressed formats to look for, by capability, in the order of the
    code; the list is appended to, it is not emptied first. *)
Definition initCompressedFormats : M unit :=
  caps ← gets _caps;
  let supported (x : option Z) (suffix : string) : list string :=
    if isSome x then [suffix] else [] in
  modify (fun e => set_texturesSupported
            (_texturesSupported e
             ++ supported (astc caps) "-astc.ktx"%string
             ++ supported (s3tc caps) "-dxt.ktx"%string
             ++ supported (pvrtc caps) "-pvrtc.ktx"%string
             ++ supported (etc2 caps) "-etc2.ktx"%string
             ++ supported (etc1 caps) "-etc1.ktx"%string) e).

(** The precision of the shaders. *)
Definition initShaderPrecision : M unit :=
  if hasGetShaderPrecisionFormat gl then
    emit (gl_getShaderPrecisionFormat GLenum.VERTEX_SHADER GLenum.HIGH_FLOAT) ;;
    emit (gl_getShaderPrecisionFormat GLenum.FRAGMENT_SHADER GLenum.HIGH_FLOAT) ;;
    match getShaderPrecisionFormat gl GLenum.VERTEX_SHADER GLenum.HIGH_FLOAT,
          getShaderPrecisionFormat gl GLenum.FRAGMENT_SHADER GLenum.HIGH_FLOAT with
    | Some vertex_highp, Some fragment_highp =>
        setCap (set_highPrecisionShaderSupported
                  (negb (vertex_highp =? 0) && negb (fragment_highp =? 0)))
    | _, _ => ret tt
    end
  else ret tt.

(** The block [// Depth buffer]. *)
Definition initDepthBuffer : M unit :=
  setDepthBuffer true ;;
  setDepthFunctionToLessOrEqual ;;
  setDepthWrite true.

(** The block [// Texture maps]; the free slots are appended to the
    list. *)
Definition initTextureSlots : M unit :=
  n ← gets (fun e => maxCombinedTexturesImageUnits (_caps e));
  modify (set_maxSimultaneousTextures n) ;;
  modify (fun e => set_nextFreeTextureSlots (_nextFreeTextureSlots e ++ seqZ 0 n) e).

(** [Engine._initGLContext]. *)
Definition _initGLContext : M unit :=
  initLimits ;;
  initInfos ;;
  initExtensions ;;
  initDrawFeatures ;;
  initCompressedFormats ;;
  initShaderPrecision ;;
  initDepthBuffer ;;
  initTextureSlots.

(** [Engine._rebuildEffects]: [for (key in _compiledEffects)] in the
    enumeration order of the keys, then [Effect.ResetCache ()].  The
    effects are those compiled when the loop starts. *)
Definition _rebuildEffects : M unit :=
  effs ← gets _compiledEffects;
  forEach effs (fun kv => external fails reaction (effect_prepareEffect (snd kv))) ;;
  external fails reaction effect_resetCache.

(** [Engine._rebuildInternalTextures]: iterates over a copy of the list,
    "because the rebuild will add proxies". *)
Definition _rebuildInternalTextures : M unit :=
  currentState ← gets _internalTexturesCache;
  forEach currentState (fun t => external fails reaction (texture_rebuild t)).

(** [Engine._rebuildBuffers].  The scenes and the uniform buffers are those
    registered when their loop starts. *)
Definition _rebuildBuffers : M unit :=
  n ← gets (fun e => length (scenes e));
  forEach (seq 0 n) (fun scene =>
    external fails reaction (scene_resetCachedMaterial scene) ;;
    external fails reaction (scene_rebuildGeometries scene) ;;
    external fails reaction (scene_rebuildTextures scene)) ;;
  ubs ← gets _uniformBuffers;
  forEach ubs (fun b => external fails reaction (uniformBuffer_rebuild b)).

(** [Engine._onContextLost]. *)
Definition _onContextLost : M unit :=
  external fails reaction event_preventDefault ;;
  modify (set_contextWasLost true) ;;
  external fails reaction (logger_warn "WebGL context lost.") ;;
  external fails reaction notify_contextLost.

(** The body that [Engine._onContextRestored] hands to [setTimeout (_,
    0)]. *)
Definition _onContextRestored : M unit :=
  _initGLContext ;;
  _rebuildEffects ;;
  _rebuildInternalTextures ;;
  _rebuildBuffers ;;
  wipeCaches true ;;
  external fails reaction (logger_warn "WebGL context successfully restored.") ;;
  external fails reaction notify_contextRestored ;;
  modify (set_contextWasLost false).

End Recovery.

(** [this._activeRenderLoops.splice (index, 1)] at the first index of
    [f]. *)
Fixpoint removeFirst (f : Z) (l : list Z) : list Z :=
  match l with
  | [] => []
  | x :: l' => if x =? f then l' else x :: removeFirst f l'
  end.

(** [Engine.stopRenderLoop (renderFunction)]; [None] is an absent
    argument. *)
Definition stopRenderLoop (renderFunction : option Z) : M unit :=
  match renderFunction with
  | None => modify (set_activeRenderLoops [])
  | Some f => modify (fun e => set_activeRenderLoops (removeFirst f (_activeRenderLoops e)) e)
  end.

(** [Engine.runRenderLoop (renderFunction)]; [Engine.QueueNewFrame] asks
    the host window for a frame, which comes later. *)
Definition runRenderLoop (renderFunction : Z) : M unit :=
  loops ← gets _activeRenderLoops;
  if existsb (Z.eqb renderFunction) loops then ret tt
  else
    modify (set_activeRenderLoops (loops ++ [renderFunction])) ;;
    launched ← gets _renderingQueueLaunched;
    if negb launched then
      modify (set_renderingQueueLaunched true) ;;
      emit queue_new_frame
    else ret tt.

(** ** Auxiliary definitions for the statements *)

(** The engine as its field initialisers leave it, for a given WebGL
    version: empty caches, no canvas, no scene. *)
Definition initialEngine (version : Z) : Engine :=
  {| _webGLVersion := version;
     forcePOTTextures := false;
     maxTextureSize := 4096;
     preventCacheWipeBetweenFrames := false;
     enableUnpackFlipYCached := true;
     _maxSimultaneousTextures := 16;
     disableVertexArrayObjects := false;
     _caps := newEngineCapabilities;
     _glVersion := None;
     _glRenderer := None;
     _glVendor := None;
     _texturesSupported := [];
     _nextFreeTextureSlots := [];
     _activeChannel := 0;
     _currentTextureChannel := -1;
     _boundTexturesCache := ∅;
     _boundUniforms := ∅;
     _unpackFlipYCached := None;
     _currentEffect := None;
     _currentProgram := None;
     _viewportCached := {| vx := JS.ofZ 0; vy := JS.ofZ 0; vz := JS.ofZ 0; vw := JS.ofZ 0 |};
     _currentBoundBuffer := ∅;
     _cachedVertexBuffers := None;
     _cachedIndexBuffer := None;
     _cachedEffectForVertexBuffers := None;
     _cachedVertexArrayObject := None;
     _vaoRecordInProgress := false;
     _uintIndicesCurrentlySet := false;
     _depthCullingState := [];
     _stencilState := [];
     _alphaState := [];
     _drawCalls := {| current := 0 |};
     _renderingCanvas := None;
     scenes := [];
     _compiledEffects := [];
     _internalTexturesCache := [];
     _uniformBuffers := [];
     _contextWasLost := false;
     onResizeObservable_hasObservers := true;
     _activeRenderLoops := [];
     _renderingQueueLaunched := false;
     _currentBufferPointers := ∅;
     _vertexAttribArraysEnabled := [];
     _mustWipeVertexAttributes := false;
     textures := ∅;
     uniformStates := ∅;
     buffers := ∅;
     effects := ∅ |}.

(** [window x k s]: bit [i] of [s] is set exactly when some bit of [x] in
    [i, i+k) is set. *)
Definition window (x k s : Z) : Prop :=
  forall i, 0 <= i ->
    (Z.testbit s i = true <-> exists j, i <= j < i + k /\ Z.testbit x j = true).

Definition is_bindTexture (c : call) : bool :=
  match c with gl_bindTexture _ _ => true | _ => false end.

(** The [gl.bindTexture] calls among a list of calls. *)
Definition bindTextureCalls (l : list call) : list call := List.filter is_bindTexture l.

Definition is_activeTexture (c : call) : bool :=
  match c with gl_activeTexture _ => true | _ => false end.

(** The [gl.activeTexture] calls among a list of calls. *)
Definition activeTextureCalls (l : list call) : list call := List.filter is_activeTexture l.

(** The calls [unbindAllTextures] is seen to make: activating a unit and
    binding [null] to [TEXTURE_2D]. *)
Definition is_unbind2D (c : call) : bool :=
  match c with
  | gl_activeTexture _ => true
  | gl_bindTexture target None => target =? GLenum.TEXTURE_2D
  | _ => false
  end.

Definition is_useProgram (c : call) : bool :=
  match c with gl_useProgram _ => true | _ => false end.

Definition is_stateApply (c : call) : bool :=
  match c with state_apply _ => true | _ => false end.

Definition is_deleteBuffer (c : call) : bool :=
  match c with gl_deleteBuffer _ => true | _ => false end.

(** A sequence of [_releaseBuffer] calls, one per handle of the list, each
    paired with its run. *)
Fixpoint releaseSeq (hs : list Z) (e : Engine) : list (Z * Run bool) * Engine :=
  match hs with
  | [] => ([], e)
  | h :: hs' =>
      let r := _releaseBuffer h e in
      let rest := releaseSeq hs' (final r) in
      ((h, r) :: fst rest, snd rest)
  end.

(** The number of [gl.deleteBuffer] calls issued by the releases of handle
    [b] in such a sequence. *)
Definition deletions (b : Z) (rs : list (Z * Run bool)) : nat :=
  length (List.filter (fun hr => (fst hr =? b) && existsb is_deleteBuffer (calls (snd hr))) rs).

(** The integer part of a number, when it has one. *)
Definition truncated (n : JS.number) : option Z :=
  match n with
  | JS.Finite q => Some (JS.truncQ q)
  | _ => None
  end.

Definition zeroViewport : Viewport4 :=
  {| vx := JS.ofZ 0; vy := JS.ofZ 0; vz := JS.ofZ 0; vw := JS.ofZ 0 |}.

(** Whether all four components of a rectangle are [=== 0]. *)
Definition zeroRect (x y w h : JS.number) : bool :=
  JS.strictEq x (JS.ofZ 0) && JS.strictEq y (JS.ofZ 0)
  && JS.strictEq w (JS.ofZ 0) && JS.strictEq h (JS.ofZ 0).

(** Two textures on the heap of a fresh WebGL 1 engine. *)
Definition engineWithTextures : Engine :=
  set_textures
    (<[1 := {| _associatedChannel := -1; isMultiview := false; _webGLTexture := Some 101;
               _colorTextureArray := None; baseWidth := 0; baseHeight := 0;
               width := 0; height := 0; isReady := false |}]>
     (<[2 := {| _associatedChannel := -1; isMultiview := false; _webGLTexture := Some 102;
               _colorTextureArray := None; baseWidth := 0; baseHeight := 0;
               width := 0; height := 0; isReady := false |}]> ∅))
    (initialEngine 1).

(** An engine in the middle of a frame: texture 1 bound on unit 0, a
    program in use, a viewport set, an index buffer and a vertex array
    object bound. *)
Definition engineInUse : Engine :=
  set_boundTexturesCache (<[0 := Some 1]> ∅)
    (set_currentTextureChannel 0
      (set_currentProgram (Some 3)
        (set_viewportCached
           {| vx := JS.ofZ 0; vy := JS.ofZ 0; vz := JS.ofZ 800; vw := JS.ofZ 600 |}
          (set_cachedIndexBuffer (Some 5)
            (set_cachedVertexArrayObject (Some 9)
              (set_currentBoundBuffer (<[GLenum.ELEMENT_ARRAY_BUFFER := Some 5]> ∅)
                (set_buffers
                   (<[5 := {| references := 1; underlyingResource := 205; is32Bits := false |}]> ∅)
                   engineWithTextures))))))).

(** The collaborator calls of the three rebuild steps of a recovery, in
    the order the code makes them: the effects, the internal textures, the
    buffers. *)
Definition effectSteps (e : Engine) : list call :=
  map (fun kv => effect_prepareEffect (snd kv)) (_compiledEffects e) ++ [effect_resetCache].

Definition textureSteps (e : Engine) : list call :=
  map texture_rebuild (_internalTexturesCache e).

Definition bufferSteps (e : Engine) : list call :=
  flat_map (fun s => [scene_resetCachedMaterial s; scene_rebuildGeometries s;
                      scene_rebuildTextures s])
           (seq 0 (length (scenes e)))
  ++ map uniformBuffer_rebuild (_uniformBuffers e).

(** The two calls that end a recovery. *)
Definition restoredReport : list call :=
  [logger_warn "WebGL context successfully restored."; notify_contextRestored].

(** Collaborators that leave alone the collections a recovery iterates
    over while it iterates over them: the compiled effects, the scenes and
    the uniform buffers.  (The internal textures are iterated over in a
    copy; a collaborator may add to them.) *)
Definition keepsRegistered (reaction : call -> Engine -> Engine) : Prop :=
  forall c e,
    _compiledEffects (reaction c e) = _compiledEffects e /\
    scenes (reaction c e) = scenes e /\
    _uniformBuffers (reaction c e) = _uniformBuffers e.

(** The caches as a full wipe of [e] leaves them in [e']: nothing is
    current, every unit of the texture cache holds [null], the viewport
    cache is the zero rectangle and [null] is what is bound as array
    buffer, as element array buffer and as vertex array object. *)
Definition fullyWiped (e e' : Engine) : Prop :=
  _currentEffect e' = None /\
  _currentProgram e' = None /\
  _viewportCached e' = zeroViewport /\
  _boundTexturesCache e' = (fun _ => None) <$> _boundTexturesCache e /\
  _currentTextureChannel e' = -1 /\
  _unpackFlipYCached e' = None /\
  _cachedVertexBuffers e' = None /\
  _cachedIndexBuffer e' = None /\
  _cachedEffectForVertexBuffers e' = None /\
  _cachedVertexArrayObject e' = None /\
  _currentBoundBuffer e' !! GLenum.ARRAY_BUFFER = Some None /\
  _currentBoundBuffer e' !! GLenum.ELEMENT_ARRAY_BUFFER = Some None.

(** The calls by which a wipe unbinds the vertex array object and the two
    buffers: the vertex array object if one is cached; [null] as array
    buffer and as element array buffer unless the cache already holds
    [null] for the target.  While a vertex array object is being recorded
    both buffers are bound anew whatever the cache holds, and the vertex
    array object is unbound between them. *)
Definition unbindCalls (e : Engine) : list call :=
  let vao := if isSome (_cachedVertexArrayObject e) then [gl_bindVertexArray None] else [] in
  let buffer target :=
    if bool_decide (_currentBoundBuffer e !! target = Some None) then []
    else [gl_bindBuffer target None] in
  if _vaoRecordInProgress e then
    [gl_bindBuffer GLenum.ARRAY_BUFFER None] ++ vao
    ++ [gl_bindBuffer GLenum.ELEMENT_ARRAY_BUFFER None]
  else vao ++ buffer GLenum.ARRAY_BUFFER ++ buffer GLenum.ELEMENT_ARRAY_BUFFER.

(** The calls of a list that are made when the first failing one stops
    the sequence. *)
Fixpoint attempted (fails : call -> bool) (cs : list call) : list call :=
  match cs with
  | [] => []
  | c :: cs' => c :: (if fails c then [] else attempted fails cs')
  end.

(** The engine after those calls: every call made has had its reaction. *)
Fixpoint reacted (fails : call -> bool) (reaction : call -> Engine -> Engine)
    (cs : list call) (e : Engine) : Engine :=
  match cs with
  | [] => e
  | c :: cs' =>
      if fails c then reaction c e else reacted fails reaction cs' (reaction c e)
  end.

Definition is_notifyRestored (c : call) : bool :=
  match c with notify_contextRestored => true | _ => false end.

(** ** Texture loading: the fallback chain of [createTexture]

    Loading is asynchronous in the source: [createTexture] starts a load
    and returns, and the load later calls back with success or failure.
    What a load answers is decided outside the engine; it is an oracle
    here, asked once per attempt, and the chain of attempts is followed to
    its end.  The chain is a recursion on [createTexture] itself, so it
    carries fuel: [None] means the fuel ran out before the chain ended. *)

Module TextureLoad.

Local Open Scope string_scope.

(** [s.lastIndexOf (c)], [None] for [-1]. *)
Fixpoint lastIndexOf (c : ascii) (s : string) : option nat :=
  match s with
  | EmptyString => None
  | String a s' =>
      match lastIndexOf c s' with
      | Some i => Some (S i)
      | None => if Ascii.eqb a c then Some 0%nat else None
      end
  end.

(** [s.substring (n)]. *)
Fixpoint dropString (n : nat) (s : string) : string :=
  match n, s with
  | O, _ => s
  | S n', String _ s' => dropString n' s'
  | S _, EmptyString => EmptyString
  end.

(** [toLowerCase] on the ASCII letters. *)
Definition lowerAscii (a : ascii) : ascii :=
  let n := nat_of_ascii a in
  if ((65 <=? n) && (n <=? 90))%nat then ascii_of_nat (n + 32) else a.

Fixpoint toLowerCase (s : string) : string :=
  match s with
  | EmptyString => EmptyString
  | String a s' => String (lowerAscii a) (toLowerCase s')
  end.

(** [s.indexOf (p) !== -1]. *)
Fixpoint includes (p s : string) : bool :=
  String.prefix p s ||
  match s with
  | EmptyString => false
  | String _ s' => includes p s'
  end.

(** [String (urlArg)]. *)
Definition stringOf (urlArg : option string) : string :=
  match urlArg with
  | Some s => s
  | None => "null"
  end.

(** Truthiness of a nullable string. *)
Definition truthy (s : option string) : bool :=
  match s with
  | Some EmptyString => false
  | Some _ => true
  | None => false
  end.

(** The [buffer] argument of [createTexture]. *)
Inductive Buffer : Type :=
| BufferNull
| BufferString (s : string)
| BufferArrayBuffer
| BufferImageElement
| BufferBlob.

Definition hasBuffer (b : Buffer) : bool :=
  match b with
  | BufferNull => false
  | BufferString s => truthy (Some s)
  | _ => true
  end.

(** An [IInternalTextureLoader]; [loaderId] stands for the identity of the
    loader object, which is what [excludeLoaders.indexOf] compares. *)
Record Loader : Type := {
  loaderId : nat;
  canLoad : string -> option string -> bool -> bool -> bool -> bool;
  transformUrl : string -> option string -> string;
  getFallbackTextureUrl : string -> option string -> option string
}.

(** What a load answers.  An exception is given by its rendering as a
    string, [None] for [undefined]. *)
Inductive FileResult : Type :=
| FileLoaded
| FileError (exception : option string).

Inductive ImageResult : Type :=
| ImageLoaded
| ImageError (message : option string) (exception : option string).

Inductive ImageSource : Type :=
| FromUrl (url : string)
| FromBuffer.

(** The oracle: for the [n]-th [createTexture] call of a chain, the answer
    of [_loadFile], whether [loader.loadData] reports [loadFailed], and the
    answer of [FileTools.LoadImage]. *)
Record Environment : Type := {
  loadFile : nat -> string -> FileResult;
  loadDataFailed : nat -> nat -> bool;
  loadImage : nat -> ImageSource -> ImageResult
}.

Inductive event : Type :=
| ev_loadFile (url : string)
| ev_loadData (loader : nat)
| ev_loadImage (source : ImageSource)
| ev_prepare
| ev_internalError (message : option string) (exception : option string)
| ev_exclude (loader : nat)
| ev_removeObserver
| ev_onError (message : string) (exception : option string)
| ev_throw (error : string).

(** [message || "Unknown error"]. *)
Definition orUnknown (message : option string) : string :=
  match message with
  | Some m => if truthy (Some m) then m else "Unknown error"
  | None => "Unknown error"
  end.

Definition renderException (exception : option string) : string :=
  match exception with
  | Some s => s
  | None => "undefined"
  end.

Section CreateTexture.

(** [Engine._TextureLoaders] and [_textureFormatInUse]. *)
Variable TextureLoaders : list Loader.
Variable textureFormatInUse : option string.

(** [EngineStore.UseFallbackTexture] and [EngineStore.FallbackTexture];
    [EngineStore] is in [./engineStore], not part of the sources at
    hand. *)
Variable UseFallbackTexture : bool.
Variable FallbackTexture : string.

Variable env : Environment.

(** The file extension [createTexture] establishes. *)
Definition extensionOf (url : string) (forcedExtension : option string) : string :=
  if truthy forcedExtension then stringOf forcedExtension
  else match lastIndexOf "." url with
       | Some lastDot => toLowerCase (dropString lastDot url)
       | None => ""
       end.

(** The loader [createTexture] picks: the first one that is not excluded
    and can load. *)
Definition pickLoader (excludeLoaders : list nat) (extension : string)
    (fallback isBase64 : bool) (buffer : Buffer) : option Loader :=
  List.find (fun l =>
          negb (existsb (Nat.eqb (loaderId l)) excludeLoaders)
          && canLoad l extension textureFormatInUse fallback isBase64 (hasBuffer buffer))
       TextureLoaders.

(** [Engine.createTexture], followed along its chain of retries.
    [attempt] counts the calls of the chain; [onLoad] and [onError] say
    whether a callback was given; [fallback] says whether the texture of an
    earlier attempt is passed on.  Of a successful load only the entry into
    [_prepareWebGLTexture] is recorded; the scene's pending-data bookkeeping
    and the fields written on the texture are left out.  With no loader, a
    [data:] URL without [;base64,] and no buffer, [onload] is called on
    [null] and reading [img.width] throws a [TypeError]: the chain ends
    there, with no call of [onInternalError]. *)
Fixpoint createTexture (fuel : nat) (attempt : nat) (urlArg : option string)
    (onLoad onError : bool) (buffer : Buffer) (fallback : bool)
    (forcedExtension : option string) (excludeLoaders : list nat) : option (list event) :=
  match fuel with
  | O => None
  | S fuel' =>
      let url := stringOf urlArg in
      let fromData := String.prefix "data:" url in
      let isBase64 := fromData && includes ";base64," url in
      let extension := extensionOf url forcedExtension in
      let loader := pickLoader excludeLoaders extension fallback isBase64 buffer in
      let url := match loader with
                 | Some l => transformUrl l url textureFormatInUse
                 | None => url
                 end in
      let onLoadObserver := onLoad && negb fallback in
      let onInternalError (message exception : option string) : option (list event) :=
        let last_resort (_ : unit) : option (list event) :=
          (app (if onLoadObserver then [ev_removeObserver] else [])) <$>
          (if UseFallbackTexture
           then createTexture fuel' (S attempt) (Some FallbackTexture) false onError buffer
                  true None []
           else Some (if onError then [ev_onError (orUnknown message) exception] else [])) in
        (cons (ev_internalError message exception)) <$>
        match loader with
        | Some l =>
            if truthy (getFallbackTextureUrl l url textureFormatInUse) then
              (cons (ev_exclude (loaderId l))) <$>
              createTexture fuel' (S attempt) urlArg false onError buffer true None
                (excludeLoaders ++ [loaderId l])
            else last_resort tt
        | None => last_resort tt
        end in
      match loader with
      | Some l =>
          let callback (_ : unit) : option (list event) :=
            (cons (ev_loadData (loaderId l))) <$>
            (if loadDataFailed env attempt (loaderId l)
             then onInternalError (Some "TextureLoader failed to load data") None
             else Some [ev_prepare]) in
          if hasBuffer buffer then callback tt
          else
            (cons (ev_loadFile url)) <$>
            match loadFile env attempt url with
            | FileLoaded => callback tt
            | FileError exception =>
                onInternalError (Some ("Unable to load " ++ renderException exception)) None
            end
      | None =>
          let loadImageFrom (source : ImageSource) : option (list event) :=
            (cons (ev_loadImage source)) <$>
            match loadImage env attempt source with
            | ImageLoaded => Some [ev_prepare]
            | ImageError message exception => onInternalError message exception
            end in
          if negb fromData || isBase64 then
            match buffer with
            | BufferImageElement => Some [ev_prepare]
            | _ => loadImageFrom (FromUrl url)
            end
          else
            match buffer with
            | BufferString _ | BufferArrayBuffer | BufferBlob => loadImageFrom FromBuffer
            | BufferImageElement => Some [ev_prepare]
            | BufferNull => Some [ev_throw "TypeError"]
            end
      end
  end.

End CreateTexture.

(** The [onError] calls, the internal failures and the excluded loaders of
    a chain. *)
Definition onErrorCalls (tr : list event) : list event :=
  List.filter (fun ev => match ev with ev_onError _ _ => true | _ => false end) tr.

Definition failures (tr : list event) : list (option string * option string) :=
  flat_map (fun ev => match ev with ev_internalError m x => [(m, x)] | _ => [] end) tr.

Definition excluded (tr : list event) : list nat :=
  flat_map (fun ev => match ev with ev_exclude l => [l] | _ => [] end) tr.

End TextureLoad.

(** What a finished chain reports: after a successful load nothing; after
    a thrown exception nothing; after a failed chain, the last internal
    failure, to the caller's [onError] if there is one. *)
Definition chainReport (onError : bool) (tr : list TextureLoad.event) : Prop :=
  match last tr with
  | Some TextureLoad.ev_prepare => TextureLoad.onErrorCalls tr = []
  | Some (TextureLoad.ev_throw _) => TextureLoad.onErrorCalls tr = []
  | _ =>
      exists m x,
        last (TextureLoad.failures tr) = Some (m, x) /\
        TextureLoad.onErrorCalls tr =
          (if onError then [TextureLoad.ev_onError (TextureLoad.orUnknown m) x] else [])
  end.

(** Two loaders and an oracle under which every load fails. *)
Definition ktxLoader : TextureLoad.Loader :=
  {| TextureLoad.loaderId := 0;
     TextureLoad.canLoad := fun _ _ _ _ _ => true;
     TextureLoad.transformUrl := fun url _ => url;
     TextureLoad.getFallbackTextureUrl := fun _ _ => Some "alt.png"%string |}.

Definition failingEnvironment : TextureLoad.Environment :=
  {| TextureLoad.loadFile := fun _ _ => TextureLoad.FileError (Some "E0"%string);
     TextureLoad.loadDataFailed := fun _ _ => true;
     TextureLoad.loadImage := fun _ _ =>
       TextureLoad.ImageError (Some "image failed"%string) None |}.

(** The dimension fields of a texture on the heap. *)
Definition dims (ts : gmap Z InternalTexture) (t : Z) : Z * Z * Z * Z :=
  (baseWidth (ts !!! t), baseHeight (ts !!! t), width (ts !!! t), height (ts !!! t)).

(** An operation that always completes normally and leaves an engine on
    which [f] reads what [g] read on the engine it started from; with [g]
    equal to [f], the operation keeps [f]. *)
Definition yields {A B : Type} (f g : Engine -> B) (m : M A) : Prop :=
  forall e, (exists a, outcome (m e) = Normal a) /\ f (final (m e)) = g e.

Abbreviation steady f := (yields f f).

(** The run of a sequence of collaborator calls. *)
Definition extRun (fails : call -> bool) (reaction : call -> Engine -> Engine)
    (cs : list call) (e : Engine) : Run unit :=
  mkRun (if existsb fails cs then Throw "external failure" else Normal tt)
        (reacted fails reaction cs e) (attempted fails cs).

(** A sequence of collaborator calls followed by [X]. *)
Definition thenRun (fails : call -> bool) (reaction : call -> Engine -> Engine)
    (cs : list call) (X : M unit) (e : Engine) : Run unit :=
  if existsb fails cs
  then mkRun (Throw "external failure") (reacted fails reaction cs e) (attempted fails cs)
  else mkRun (outcome (X (reacted fails reaction cs e)))
             (final (X (reacted fails reaction cs e)))
             (cs ++ calls (X (reacted fails reaction cs e))).

(** What follows the rebuild steps in [_onContextRestored]. *)
Definition restoredTail (fails : call -> bool) (reaction : call -> Engine -> Engine) : M unit :=
  bind (wipeCaches true) (fun _ =>
  bind (external fails reaction (logger_warn "WebGL context successfully restored.")) (fun _ =>
  bind (external fails reaction notify_contextRestored) (fun _ =>
  modify (set_contextWasLost false)))).

Definition is_onError (ev : TextureLoad.event) : bool :=
  match ev with TextureLoad.ev_onError _ _ => true | _ => false end.

Definition is_exclude (ev : TextureLoad.event) : bool :=
  match ev with TextureLoad.ev_exclude _ => true | _ => false end.

(** Where a chain can throw: [createTexture] was given no buffer and a
    [data:] URL without [;base64,]; the exception is a [TypeError] and ends
    the chain. *)
Definition thrownOnlyOnNullImage (urlArg : option string) (buffer : TextureLoad.Buffer)
    (tr : list TextureLoad.event) : Prop :=
  forall error,
    In (TextureLoad.ev_throw error) tr ->
    error = "TypeError"%string /\
    last tr = Some (TextureLoad.ev_throw error) /\
    buffer = TextureLoad.BufferNull /\
    String.prefix "data:" (TextureLoad.stringOf urlArg) = true /\
    TextureLoad.includes ";base64," (TextureLoad.stringOf urlArg) = false.

(** A chain, if it ends, throws only there. *)
Definition safe (urlArg : option string) (buffer : TextureLoad.Buffer)
    (r : option (list TextureLoad.event)) : Prop :=
  forall tr, r = Some tr -> thrownOnlyOnNullImage urlArg buffer tr.

(** The invariant of a finished chain. *)
Definition ended (onError : bool) (tr : list TextureLoad.event) : Prop :=
  tr <> [] /\ chainReport onError tr.

(** The number of loaders that are not excluded yet. *)
Definition remaining (TextureLoaders : list TextureLoad.Loader) (excl : list nat) : nat :=
  length (List.filter
            (fun l => negb (existsb (Nat.eqb (TextureLoad.loaderId l)) excl))
            TextureLoaders).

(** A chain that ended, reported as it should, and excluded every loader
    at most once, none of them excluded before. *)
Definition good (excl : list nat) (onError : bool)
    (r : option (list TextureLoad.event)) : Prop :=
  exists tr, r = Some tr /\ ended onError tr /\ NoDup (TextureLoad.excluded tr) /\
    forall i, In i (TextureLoad.excluded tr) -> existsb (Nat.eqb i) excl = false.

(** A WebGL 1 context without extensions: textures up to 4096, sixteen
    texture units, and eight for every other limit. *)
Definition plainContext : Context :=
  {| getParameter := fun pname =>
       if pname =? GLenum.MAX_TEXTURE_SIZE then 4096
       else if pname =? GLenum.MAX_COMBINED_TEXTURE_IMAGE_UNITS then 16
       else 8;
     getParameterString := fun _ => Some "WebGL 1.0"%string;
     getExtension := fun _ => None;
     getQuery := fun _ _ => 0;
     hasGetShaderPrecisionFormat := true;
     getShaderPrecisionFormat := fun _ _ => Some 23;
     framebufferProbe := fun _ =>
       {| pendingErrors := 0; probeTexture := Some 900; probeFramebuffer := Some 901;
          framebufferStatus := GLenum.FRAMEBUFFER_COMPLETE;
          errorAfterAttach := GLenum.NO_ERROR; errorAfterClear := GLenum.NO_ERROR;
          errorAfterRead := GLenum.NO_ERROR; trailingErrors := 0 |} |}.

(** Sixteen distinct texture-type constants. *)
Definition textureTypes : TextureTypes :=
  {| TEXTURETYPE_UNSIGNED_BYTE := 0; TEXTURETYPE_FLOAT := 1; TEXTURETYPE_HALF_FLOAT := 2;
     TEXTURETYPE_BYTE := 3; TEXTURETYPE_SHORT := 4; TEXTURETYPE_UNSIGNED_SHORT := 5;
     TEXTURETYPE_INT := 6; TEXTURETYPE_UNSIGNED_INTEGER := 7;
     TEXTURETYPE_UNSIGNED_SHORT_4_4_4_4 := 8; TEXTURETYPE_UNSIGNED_SHORT_5_5_5_1 := 9;
     TEXTURETYPE_UNSIGNED_SHORT_5_6_5 := 10; TEXTURETYPE_UNSIGNED_INT_2_10_10_10_REV := 11;
     TEXTURETYPE_UNSIGNED_INT_24_8 := 12; TEXTURETYPE_UNSIGNED_INT_10F_11F_11F_REV := 13;
     TEXTURETYPE_UNSIGNED_INT_5_9_9_9_REV := 14;
     TEXTURETYPE_FLOAT_32_UNSIGNED_INT_24_8_REV := 15 |}.

(** Collaborators that use the engine while they rebuild: a rebuilt
    texture is left bound on unit 0 and registers a proxy, every other
    rebuild leaves a program in use; the logger and the observers of the
    restoration change nothing. *)
Definition dirtying (c : call) (e : Engine) : Engine :=
  match c with
  | logger_warn _ | notify_contextRestored => e
  | texture_rebuild t =>
      set_internalTexturesCache (_internalTexturesCache e ++ [t + 100])
        (set_boundTexturesCache (<[0 := Some t]> (_boundTexturesCache e)) e)
  | _ => set_currentProgram (Some 7) e
  end.

(** The engine in the middle of a frame when its context is lost: one
    compiled effect, two internal textures, one scene, one uniform
    buffer. *)
Definition engineLost : Engine :=
  set_contextWasLost true
    (set_compiledEffects [("default"%string, 4)]
      (set_internalTexturesCache [1; 2]
        (set_scenes [{| cameras := [] |}]
          (set_uniformBuffers [6] engineInUse)))).

(** The extensions asked for by [getExtension (n1) || getExtension (n2)
    || ...]: the names up to the first one the context has. *)
Fixpoint askedExtensions (gl : Context) (names : list string) : list string :=
  match names with
  | [] => []
  | name :: names' =>
      name :: (if isSome (getExtension gl name) then [] else askedExtensions gl names')
  end.

(** The engine in the middle of a frame, with a pointer object, not yet
    active, for attribute 0. *)
Definition engineWithPointer : Engine :=
  set_currentBufferPointers
    (<[0 := {| active := false; pointer_index := 0; pointer_size := 0; pointer_type := 0;
               pointer_normalized := false; pointer_stride := 0; pointer_offset := 0;
               pointer_buffer := 0 |}]> ∅)
    engineInUse.

(** An engine on an 800 x 600 canvas with one scene and one camera. *)
Definition engineWithCanvas : Engine :=
  set_renderingCanvas (Some {| canvas_width := 800; canvas_height := 600 |})
    (set_scenes [{| cameras := [{| _currentRenderId := 7 |}] |}] (initialEngine 2)).

(** * Properties *)

(** ** Tactics for running engine operations *)

Ltac case_test :=
  match goal with
  | |- context [if ?c then _ else _] =>
      lazymatch c with
      | context [if _ then _ else _] => fail
      | context [match _ with _ => _ end] => fail
      | _ => destruct c eqn:?
      end
  | |- context [match ?x !! ?k with _ => _ end] => destruct (x !! k) eqn:?
  | |- context [match ?x with Some _ => _ | None => _ end] =>
      lazymatch x with
      | context [if _ then _ else _] => fail
      | context [match _ with _ => _ end] => fail
      | _ => destruct x eqn:?
      end
  end.
Ltac use_known :=
  repeat match goal with
  | H : ?a = ?a |- _ => clear H
  end;
  repeat match goal with
  | H : ?x = true |- context [if ?x then _ else _] => rewrite H
  | H : ?x = false |- context [if ?x then _ else _] => rewrite H
  | H : ?x = true |- context [?x || _] => rewrite H
  | H : ?x = false |- context [?x || _] => rewrite H
  | H : ?x = true |- context [negb ?x] => rewrite H
  | H : ?x = false |- context [negb ?x] => rewrite H
  | H : ?x = Some ?v |- context [match ?x with Some _ => _ | None => _ end] => rewrite H
  | H : ?x = None |- context [match ?x with Some _ => _ | None => _ end] => rewrite H
  end.
Ltac run_simpl :=
  cbn; rewrite ?lookup_total_insert_eq, ?andb_false_r, ?andb_true_r, ?orb_false_r, ?orb_true_r;
  cbn; use_known; cbn.
Ltac run_cases := run_simpl; repeat (case_test; run_simpl).
Ltac decide_hyps :=
  repeat match goal with
  | H : bool_decide _ = true |- _ => apply bool_decide_eq_true_1 in H
  | H : bool_decide _ = false |- _ => apply bool_decide_eq_false_1 in H
  | H : negb _ = true |- _ => apply negb_true_iff in H
  | H : negb _ = false |- _ => apply negb_false_iff in H
  | H : _ || false = _ |- _ => rewrite orb_false_r in H
  | H : _ && true = _ |- _ => rewrite andb_true_r in H
  | H : _ && false = _ |- _ => rewrite andb_false_r in H
  | H : _ || _ = false |- _ => apply orb_false_iff in H; destruct H
  | H : false || _ = _ |- _ => rewrite orb_false_l in H
  | H : true || _ = _ |- _ => rewrite orb_true_l in H
  | H : _ || true = _ |- _ => rewrite orb_true_r in H
  end.

(** ** Powers of two *)

Section PotFacts.
Import JS POT.

Lemma toInt32_small z : - 2^31 <= z < 2^31 -> toInt32 z = z.
Proof.
  intros H. unfold toInt32. rewrite Z.mod_small; lia.
Qed.

Lemma lor_below a b n :
  0 <= n -> 0 <= a < 2^n -> 0 <= b < 2^n -> 0 <= Z.lor a b < 2^n.
Proof.
  intros Hn Ha Hb. split.
  - apply Z.lor_nonneg. lia.
  - destruct (Z.eq_dec (Z.lor a b) 0) as [->|Hz]; [lia|].
    assert (0 < Z.lor a b) by (assert (0 <= Z.lor a b) by (apply Z.lor_nonneg; lia); lia).
    apply Z.log2_lt_pow2; [lia|].
    rewrite Z.log2_lor by lia.
    assert (Hn0 : 0 < n).
    { destruct (Z.eq_dec n 0) as [->|]; [|lia].
      change (2 ^ 0) with 1 in *.
      assert (a = 0) as -> by lia. assert (b = 0) as -> by lia.
      exfalso. apply Hz. reflexivity. }
    assert (La : Z.log2 a < n).
    { destruct (Z.eq_dec a 0) as [->|]; [simpl; lia|apply Z.log2_lt_pow2; lia]. }
    assert (Lb : Z.log2 b < n).
    { destruct (Z.eq_dec b 0) as [->|]; [simpl; lia|apply Z.log2_lt_pow2; lia]. }
    lia.
Qed.

(** One smearing step on a non-negative 31-bit value is [Z.lor] with a
    plain shift. *)
Lemma smear_step_eq s k :
  0 <= k < 32 -> 0 <= s < 2^31 ->
  bitor s (sar s k) = Z.lor s (Z.shiftr s k) /\ 0 <= Z.lor s (Z.shiftr s k) < 2^31.
Proof.
  intros Hk Hs.
  assert (Hsh : 0 <= Z.shiftr s k < 2^31).
  { rewrite Z.shiftr_div_pow2 by lia. split.
    - apply Z.div_pos; [lia | apply Z.pow_pos_nonneg; lia].
    - apply Z.le_lt_trans with s; [|lia].
      apply Z.div_le_upper_bound; [apply Z.pow_pos_nonneg; lia|].
      assert (0 < 2^k) by (apply Z.pow_pos_nonneg; lia). nia. }
  unfold bitor, sar. rewrite (Z.mod_small k 32) by lia.
  rewrite (toInt32_small s) by lia.
  rewrite (toInt32_small (Z.shiftr s k)) by lia.
  split; [reflexivity|]. apply lor_below; lia.
Qed.

Lemma window_init x : window x 1 x.
Proof.
  intros i Hi. split.
  - intros H. exists i. split; [lia|exact H].
  - intros (j & Hj & Hb). replace i with j by lia. exact Hb.
Qed.

Lemma window_double x k s :
  0 <= k -> window x k s -> window x (2 * k) (Z.lor s (Z.shiftr s k)).
Proof.
  intros Hk W i Hi. rewrite Z.lor_spec, Z.shiftr_spec by lia.
  rewrite orb_true_iff, (W i Hi), (W (i + k)) by lia. split.
  - intros [(j & Hj & Hb)|(j & Hj & Hb)]; exists j; (split; [lia|exact Hb]).
  - intros (j & Hj & Hb). destruct (Z_lt_le_dec j (i + k)).
    + left. exists j. split; [lia|exact Hb].
    + right. exists j. split; [lia|exact Hb].
Qed.

Lemma smear_window x :
  0 <= x < 2^31 -> window x 32 (smear x) /\ 0 <= smear x < 2^31.
Proof.
  intros Hx. unfold smear.
  destruct (smear_step_eq x 1 ltac:(lia) ltac:(lia)) as [E1 R1]. rewrite E1.
  pose proof (window_double x 1 x ltac:(lia) (window_init x)) as W1.
  set (s1 := Z.lor x (Z.shiftr x 1)) in *.
  destruct (smear_step_eq s1 2 ltac:(lia) ltac:(lia)) as [E2 R2]. rewrite E2.
  pose proof (window_double x 2 s1 ltac:(lia) W1) as W2.
  set (s2 := Z.lor s1 (Z.shiftr s1 2)) in *.
  destruct (smear_step_eq s2 4 ltac:(lia) ltac:(lia)) as [E3 R3]. rewrite E3.
  pose proof (window_double x 4 s2 ltac:(lia) W2) as W3.
  set (s3 := Z.lor s2 (Z.shiftr s2 4)) in *.
  destruct (smear_step_eq s3 8 ltac:(lia) ltac:(lia)) as [E4 R4]. rewrite E4.
  pose proof (window_double x 8 s3 ltac:(lia) W3) as W4.
  set (s4 := Z.lor s3 (Z.shiftr s3 8)) in *.
  destruct (smear_step_eq s4 16 ltac:(lia) ltac:(lia)) as [E5 R5]. rewrite E5.
  pose proof (window_double x 16 s4 ltac:(lia) W4) as W5.
  split; [exact W5|exact R5].
Qed.

Lemma smear_ones x : 0 < x < 2^31 -> smear x = Z.ones (Z.log2 x + 1).
Proof.
  intros Hx. destruct (smear_window x ltac:(lia)) as [W R].
  pose proof (Z.log2_nonneg x) as Hn.
  assert (Hlt : Z.log2 x < 31) by (apply Z.log2_lt_pow2; lia).
  apply Z.bits_inj'. intros i Hi.
  destruct (Z_lt_le_dec i (Z.log2 x + 1)) as [Hlo|Hhi].
  - rewrite Z.ones_spec_low by lia. apply W; [lia|].
    exists (Z.log2 x). split; [lia|]. apply Z.bit_log2. lia.
  - rewrite Z.ones_spec_high by lia.
    destruct (Z.testbit (smear x) i) eqn:E; [|reflexivity].
    apply W in E; [|lia]. destruct E as (j & Hj & Hb).
    rewrite Z.bits_above_log2 in Hb by lia. discriminate.
Qed.

Lemma smear_0 : smear 0 = 0.
Proof. reflexivity. Qed.

Lemma FloorPOT_smear x : FloorPOT x = smear x - sar (smear x) 1.
Proof. unfold FloorPOT, smear. cbv zeta. reflexivity. Qed.

Lemma CeilingPOT_smear x : CeilingPOT x = smear (x - 1) + 1.
Proof. unfold CeilingPOT, smear. cbv zeta. reflexivity. Qed.

Lemma pow2_pos n : 0 <= n -> 0 < 2 ^ n.
Proof. intros. apply Z.pow_pos_nonneg; lia. Qed.

Lemma FloorPOT_pow2 x : 0 < x < 2^31 -> FloorPOT x = 2 ^ Z.log2 x.
Proof.
  intros Hx. rewrite FloorPOT_smear, smear_ones by exact Hx.
  pose proof (Z.log2_nonneg x) as Hn.
  assert (Hlt : Z.log2 x < 31) by (apply Z.log2_lt_pow2; lia).
  generalize dependent (Z.log2 x). intros n Hn Hlt.
  pose proof (pow2_pos n Hn) as Hp.
  assert (Hp31 : 2 ^ (n + 1) <= 2 ^ 31) by (apply Z.pow_le_mono_r; lia).
  assert (E : 2 ^ (n + 1) = 2 * 2 ^ n) by (rewrite Z.pow_add_r by lia; lia).
  rewrite Z.ones_equiv, E in *. unfold Z.pred.
  unfold sar. rewrite (Z.mod_small 1 32) by lia.
  rewrite toInt32_small by lia.
  rewrite Z.shiftr_div_pow2 by lia. rewrite Z.pow_1_r.
  replace (2 * 2 ^ n + -1) with (1 + (2 ^ n - 1) * 2) by lia.
  rewrite Z.div_add by lia. rewrite (Z.div_small 1 2) by lia. lia.
Qed.

Lemma CeilingPOT_pow2 x : 0 < x <= 2^31 -> CeilingPOT x = 2 ^ Z.log2_up x.
Proof.
  intros Hx. rewrite CeilingPOT_smear.
  destruct (Z.eq_dec x 1) as [->|Hne]; [reflexivity|].
  rewrite smear_ones by lia.
  rewrite Z.ones_equiv.
  rewrite (Z.log2_up_eqn x) by lia.
  unfold Z.succ, Z.pred. replace (x + -1) with (x - 1) by lia. lia.
Qed.

Lemma pow2_le_floor x k : 0 < x -> 0 <= k -> 2 ^ k <= x -> 2 ^ k <= 2 ^ Z.log2 x.
Proof.
  intros Hx Hk H. apply Z.pow_le_mono_r; [lia|]. apply Z.log2_le_pow2; lia.
Qed.

Lemma pow2_ge_ceiling x k : 0 < x -> 0 <= k -> x <= 2 ^ k -> 2 ^ Z.log2_up x <= 2 ^ k.
Proof.
  intros Hx Hk H. apply Z.pow_le_mono_r; [lia|]. apply Z.log2_up_le_pow2; lia.
Qed.

Lemma floor_le x : 0 < x -> 2 ^ Z.log2 x <= x.
Proof. intros Hx. apply Z.log2_spec. exact Hx. Qed.

Lemma ceiling_ge x : 0 < x -> x <= 2 ^ Z.log2_up x.
Proof.
  intros Hx. destruct (Z.eq_dec x 1) as [->|]; [cbv; congruence|].
  apply Z.log2_up_spec. lia.
Qed.

(** [NearestPOT] returns a power of two at minimal distance from [x], and
    of two powers at that distance the higher one. *)
Lemma NearestPOT_nearest x :
  0 < x < 2^31 ->
  exists k, 0 <= k /\ NearestPOT x = 2 ^ k /\
    (forall j, 0 <= j -> Z.abs (2 ^ k - x) <= Z.abs (2 ^ j - x)) /\
    (forall j, 0 <= j -> Z.abs (2 ^ j - x) = Z.abs (2 ^ k - x) -> 2 ^ j <= 2 ^ k).
Proof.
  intros Hx. unfold NearestPOT.
  rewrite FloorPOT_pow2, CeilingPOT_pow2 by lia.
  pose proof (floor_le x ltac:(lia)) as Hf.
  pose proof (ceiling_ge x ltac:(lia)) as Hc.
  cbv zeta. destruct (Z.ltb_spec (x - 2 ^ Z.log2 x) (2 ^ Z.log2_up x - x)) as [Hlt|Hge].
  - exists (Z.log2 x). split; [apply Z.log2_nonneg|]. split; [reflexivity|].
    split; intros j Hj; destruct (Z_le_gt_dec (2 ^ j) x) as [Hle|Hgt].
    + pose proof (pow2_le_floor x j ltac:(lia) Hj Hle). lia.
    + pose proof (pow2_ge_ceiling x j ltac:(lia) Hj ltac:(lia)). lia.
    + pose proof (pow2_le_floor x j ltac:(lia) Hj Hle). lia.
    + pose proof (pow2_ge_ceiling x j ltac:(lia) Hj ltac:(lia)). lia.
  - exists (Z.log2_up x). split; [apply Z.log2_up_nonneg|]. split; [reflexivity|].
    split; intros j Hj; destruct (Z_le_gt_dec (2 ^ j) x) as [Hle|Hgt].
    + pose proof (pow2_le_floor x j ltac:(lia) Hj Hle). lia.
    + pose proof (pow2_ge_ceiling x j ltac:(lia) Hj ltac:(lia)). lia.
    + pose proof (pow2_le_floor x j ltac:(lia) Hj Hle). lia.
    + pose proof (pow2_ge_ceiling x j ltac:(lia) Hj ltac:(lia)). lia.
Qed.

End PotFacts.

(** ** Binding a texture *)

Section BindTextureFacts.

Local Arguments nativeTexture : simpl never.

Lemma nativeTexture_associatedChannel ts t c T :
  nativeTexture (<[t := with_associatedChannel c (ts !!! t)]> ts) T = nativeTexture ts T.
Proof.
  destruct T as [t'|]; [|reflexivity]. unfold nativeTexture.
  destruct (decide (t = t')) as [->|Hne].
  - rewrite lookup_total_insert_eq. reflexivity.
  - rewrite lookup_total_insert_ne by done. reflexivity.
Qed.

Lemma nativeTexture_associatedChannel2 ts t c c' T :
  nativeTexture
    (<[t := with_associatedChannel c (with_associatedChannel c' (ts !!! t))]>
       (<[t := with_associatedChannel c' (ts !!! t)]> ts)) T = nativeTexture ts T.
Proof.
  rewrite insert_insert_eq.
  change (with_associatedChannel c (with_associatedChannel c' (ts !!! t)))
    with (with_associatedChannel c (ts !!! t)).
  apply nativeTexture_associatedChannel.
Qed.

Lemma isMultiview_with c t : isMultiview (with_associatedChannel c t) = isMultiview t.
Proof. reflexivity. Qed.

Lemma bindTexture_spec u T e :
  let r := _bindTexture (Some u) T e in
  _boundTexturesCache (final r) !! u = Some T /\
  bindTextureCalls (calls r) =
    (if bool_decide (_boundTexturesCache e !! u = Some T) then []
     else [gl_bindTexture GLenum.TEXTURE_2D (nativeTexture (textures e) T)]) /\
  (forall T', nativeTexture (textures (final r)) T' = nativeTexture (textures e) T').
Proof.
  unfold _bindTexture, _bindTextureDirectly, _activateCurrentTexture,
    _bindSamplerUniformToChannel.
  pose proof (nativeTexture_associatedChannel (textures e)) as HN.
  cbv zeta.
  destruct (bool_decide (_boundTexturesCache e !! u = Some T)) eqn:Hc;
    destruct T as [t|]; run_cases; decide_hyps; try discriminate; try congruence.
  all: rewrite ?HN, ?lookup_insert_eq.
  all: split; [done|split; [done|]]; intros;
    rewrite ?nativeTexture_associatedChannel2, ?HN; done.
Qed.

(** C1. After [_bindTexture (u, T)] the cache of unit [u] holds [T]; an
    immediately following [_bindTexture (u, T)] issues no [gl.bindTexture]
    call, and a following [_bindTexture (u, T2)] with [T2] different from
    [T] issues exactly one, for the native texture of [T2]. *)
Theorem bindTexture_idempotent (u : Z) (T T2 : option Z) (e : Engine) :
  T2 <> T ->
  let r1 := _bindTexture (Some u) T e in
  let r2 := _bindTexture (Some u) T (final r1) in
  let r3 := _bindTexture (Some u) T2 (final r2) in
  _boundTexturesCache (final r1) !! u = Some T /\
  bindTextureCalls (calls r2) = [] /\
  bindTextureCalls (calls r3) =
    [gl_bindTexture GLenum.TEXTURE_2D (nativeTexture (textures e) T2)].
Proof.
  intros Hne r1 r2 r3.
  destruct (bindTexture_spec u T e) as (H1 & _ & N1).
  destruct (bindTexture_spec u T (final r1)) as (H2 & C2 & N2).
  destruct (bindTexture_spec u T2 (final r2)) as (_ & C3 & _).
  fold r1 in H1, N1. fold r1 r2 in H2, C2, N2. fold r1 r2 r3 in C3.
  split; [exact H1|]. split.
  - rewrite C2. rewrite bool_decide_eq_true_2 by exact H1. reflexivity.
  - rewrite C3. rewrite bool_decide_eq_false_2 by (rewrite H2; congruence).
    rewrite N2, N1. reflexivity.
Qed.

(** Witness of C1: textures 1 and 2 on unit 0 of a fresh engine. *)
Lemma bindTexture_idempotent_witness :
  Some 2 <> Some 1 /\
  bindTextureCalls
    (calls (_bindTexture (Some 0) (Some 2)
              (final (_bindTexture (Some 0) (Some 1)
                        (final (_bindTexture (Some 0) (Some 1) engineWithTextures)))))) =
    [gl_bindTexture GLenum.TEXTURE_2D (Some 102)].
Proof.
  split; [discriminate|].
  apply (bindTexture_idempotent 0 (Some 1) (Some 2) engineWithTextures). discriminate.
Defined.

End BindTextureFacts.

(** ** Buffer bindings *)

Section BufferBindingRuns.

Lemma bindBuffer_run buffer target e :
  bindBuffer buffer target e =
    if _vaoRecordInProgress e
       || negb (bool_decide (_currentBoundBuffer e !! target = Some buffer))
    then mkRun (Normal tt)
           (set_currentBoundBuffer (<[target := buffer]> (_currentBoundBuffer e)) e)
           [gl_bindBuffer target
              (match buffer with
               | Some b => Some (underlyingResource (buffers e !!! b))
               | None => None
               end)]
    else mkRun (Normal tt) e [].
Proof.
  unfold bindBuffer. cbn.
  destruct (_vaoRecordInProgress e || negb (bool_decide (_currentBoundBuffer e !! target = Some buffer)));
    reflexivity.
Qed.

Lemma unbindVertexArrayObject_run e :
  _unbindVertexArrayObject e =
    match _cachedVertexArrayObject e with
    | None => mkRun (Normal tt) e []
    | Some _ => mkRun (Normal tt) (set_cachedVertexArrayObject None e) [gl_bindVertexArray None]
    end.
Proof.
  unfold _unbindVertexArrayObject. cbn.
  destruct (_cachedVertexArrayObject e); reflexivity.
Qed.

End BufferBindingRuns.

Ltac run_step :=
  first [ rewrite unbindVertexArrayObject_run | rewrite bindBuffer_run ].

Ltac run_all := run_simpl; repeat (first [run_step | case_test]; run_simpl).

(** ** Wiping the caches *)

Section WipeFacts.

Local Arguments _unbindVertexArrayObject : simpl never.
Local Arguments bindBuffer : simpl never.

Lemma wipeCaches_full_state e :
  let e' := final (wipeCaches true e) in
  _currentEffect e' = None /\
  _currentProgram e' = None /\
  _viewportCached e' = zeroViewport /\
  _boundTexturesCache e' = (fun _ => None) <$> _boundTexturesCache e /\
  _currentTextureChannel e' = -1 /\
  _unpackFlipYCached e' = None /\
  _cachedVertexBuffers e' = None /\
  _cachedIndexBuffer e' = None /\
  _cachedEffectForVertexBuffers e' = None /\
  _cachedVertexArrayObject e' = None /\
  _currentBoundBuffer e' !! GLenum.ARRAY_BUFFER = Some None /\
  _currentBoundBuffer e' !! GLenum.ELEMENT_ARRAY_BUFFER = Some None /\
  textures e' = textures e /\
  buffers e' = buffers e /\
  _vaoRecordInProgress e' = _vaoRecordInProgress e /\
  enableUnpackFlipYCached e' = enableUnpackFlipYCached e.
Proof.
  unfold wipeCaches, resetTextureCache, setDepthFunctionToLessOrEqual,
    _resetVertexBufferBinding, bindArrayBuffer, bindIndexBuffer.
  cbv zeta. run_all; decide_hyps; try discriminate.
  all: repeat split; try done.
  all: try (rewrite ?lookup_insert_eq; done).
  all: try (rewrite lookup_insert_ne by done; rewrite ?lookup_insert_eq; done).
Qed.

Lemma wipeCaches_normal b e : outcome (wipeCaches b e) = Normal tt.
Proof.
  unfold wipeCaches, resetTextureCache, setDepthFunctionToLessOrEqual,
    _resetVertexBufferBinding, bindArrayBuffer, bindIndexBuffer.
  destruct b; run_all; reflexivity.
Qed.

Lemma wipeCaches_fullyWiped e : fullyWiped e (final (wipeCaches true e)).
Proof.
  destruct (wipeCaches_full_state e)
    as (H1 & H2 & H3 & H4 & H5 & H6 & H7 & H8 & H9 & H10 & H11 & H12 & _).
  unfold fullyWiped. tauto.
Qed.

(** The calls of a wipe, light or full. *)
Lemma wipeCaches_calls b e :
  calls (wipeCaches b e) =
    if preventCacheWipeBetweenFrames e && negb b then [] else unbindCalls e.
Proof.
  unfold wipeCaches, resetTextureCache, setDepthFunctionToLessOrEqual,
    _resetVertexBufferBinding, bindArrayBuffer, bindIndexBuffer, unbindCalls, isSome.
  cbv zeta.
  destruct b, (preventCacheWipeBetweenFrames e) eqn:Hp; cbn; rewrite ?Hp; cbn;
    try reflexivity.
  all: destruct (_vaoRecordInProgress e) eqn:Hr; cbn; rewrite ?Hr; cbn.
  all: repeat (rewrite ?unbindVertexArrayObject_run, ?bindBuffer_run; cbn; rewrite ?Hr; cbn).
  all: destruct (_cachedVertexArrayObject e) eqn:Hv; cbn; rewrite ?Hv; cbn.
  all: repeat (rewrite ?unbindVertexArrayObject_run, ?bindBuffer_run; cbn; rewrite ?Hr, ?Hv; cbn).
  all: try reflexivity.
  all: destruct (bool_decide (_currentBoundBuffer e !! GLenum.ARRAY_BUFFER = Some None)) eqn:Ha;
    cbn; rewrite ?Hr, ?Hv; cbn;
    repeat (rewrite ?unbindVertexArrayObject_run, ?bindBuffer_run; cbn; rewrite ?Hr, ?Hv; cbn);
    rewrite ?lookup_insert_ne by done;
    destruct (bool_decide (_currentBoundBuffer e !! GLenum.ELEMENT_ARRAY_BUFFER = Some None));
    reflexivity.
Qed.

(** C6, as amended. A light wipe leaves the per-unit texture bindings, the
    active texture unit, the current program, the depth, stencil and alpha
    states and the unpack-flip-Y cache unchanged.  When
    [preventCacheWipeBetweenFrames] is set it changes nothing and issues no
    call.  Otherwise it resets the current effect and the viewport cache and
    also the vertex-buffer, index-buffer, effect-for-vertex-buffers and
    vertex-array-object caches, and on the context it makes exactly the
    calls of [unbindCalls]: it unbinds the vertex array object if one is
    cached, and binds [null] as array buffer and as element array buffer
    unless the cache already holds [null] there (always, while a vertex
    array object is being recorded); afterwards the cache holds [null] for
    both targets. *)
Theorem wipeCaches_light (e : Engine) :
  let r := wipeCaches false e in
  let e' := final r in
  _boundTexturesCache e' = _boundTexturesCache e /\
  _currentTextureChannel e' = _currentTextureChannel e /\
  _activeChannel e' = _activeChannel e /\
  _currentProgram e' = _currentProgram e /\
  _depthCullingState e' = _depthCullingState e /\
  _stencilState e' = _stencilState e /\
  _alphaState e' = _alphaState e /\
  _unpackFlipYCached e' = _unpackFlipYCached e /\
  if preventCacheWipeBetweenFrames e then r = mkRun (Normal tt) e []
  else
    outcome r = Normal tt /\
    calls r = unbindCalls e /\
    _currentEffect e' = None /\
    _viewportCached e' = zeroViewport /\
    _cachedVertexBuffers e' = None /\
    _cachedIndexBuffer e' = None /\
    _cachedEffectForVertexBuffers e' = None /\
    _cachedVertexArrayObject e' = None /\
    _currentBoundBuffer e' !! GLenum.ARRAY_BUFFER = Some None /\
    _currentBoundBuffer e' !! GLenum.ELEMENT_ARRAY_BUFFER = Some None.
Proof.
  unfold wipeCaches, _resetVertexBufferBinding, bindArrayBuffer, bindIndexBuffer.
  pose proof (wipeCaches_calls false e) as Hcalls.
  unfold wipeCaches, _resetVertexBufferBinding, bindArrayBuffer, bindIndexBuffer in Hcalls |- *.
  cbv zeta in Hcalls |- *. destruct (preventCacheWipeBetweenFrames e) eqn:Hp.
  - cbn. rewrite Hp. cbn. repeat split; reflexivity.
  - cbn [andb] in Hcalls. revert Hcalls.
    run_all; intros Hcalls; decide_hyps; try discriminate; try congruence.
    all: repeat split; try done.
    all: try (rewrite ?lookup_insert_eq; done).
    all: try (rewrite lookup_insert_ne by done; rewrite ?lookup_insert_eq; done).
Qed.

Lemma setProgram_uncached e p :
  _currentProgram e = None -> calls (setProgram p e) = [gl_useProgram p].
Proof. intros H. unfold setProgram. cbn. rewrite H. reflexivity. Qed.

Lemma viewport_after_zero e x y w h :
  _viewportCached e = zeroViewport ->
  calls (_viewport x y w h e) = if zeroRect x y w h then [] else [gl_viewport x y w h].
Proof.
  intros H. unfold _viewport, zeroRect. cbn. rewrite H. cbn.
  destruct (JS.strictEq x (JS.ofZ 0)), (JS.strictEq y (JS.ofZ 0)),
    (JS.strictEq w (JS.ofZ 0)), (JS.strictEq h (JS.ofZ 0)); reflexivity.
Qed.

Lemma unpackFlipY_uncached e v :
  _unpackFlipYCached e = None ->
  calls (_unpackFlipY v e) = [gl_pixelStorei GLenum.UNPACK_FLIP_Y_WEBGL (if v then 1 else 0)].
Proof.
  intros H. unfold _unpackFlipY. cbn. rewrite H.
  rewrite bool_decide_eq_false_2 by congruence. cbn.
  destruct (enableUnpackFlipYCached e); reflexivity.
Qed.

Lemma bindArrayBuffer_unbound e b :
  _cachedVertexArrayObject e = None ->
  _currentBoundBuffer e !! GLenum.ARRAY_BUFFER = Some None ->
  calls (bindArrayBuffer (Some b) e) =
    [gl_bindBuffer GLenum.ARRAY_BUFFER (Some (underlyingResource (buffers e !!! b)))].
Proof.
  intros Hv Hb. unfold bindArrayBuffer. cbn.
  destruct (_vaoRecordInProgress e) eqn:Hr; cbn.
  - rewrite bindBuffer_run, Hr. reflexivity.
  - rewrite unbindVertexArrayObject_run, Hv. cbn.
    rewrite bindBuffer_run, Hr, Hb. reflexivity.
Qed.

Lemma bindIndexBufferWithCache_unbound e b :
  _cachedIndexBuffer e = None ->
  _cachedVertexArrayObject e = None ->
  _currentBoundBuffer e !! GLenum.ELEMENT_ARRAY_BUFFER = Some None ->
  calls (_bindIndexBufferWithCache (Some b) e) =
    [gl_bindBuffer GLenum.ELEMENT_ARRAY_BUFFER (Some (underlyingResource (buffers e !!! b)))].
Proof.
  intros Hi Hv Hb. unfold _bindIndexBufferWithCache, bindIndexBuffer. cbn.
  rewrite Hi. rewrite bool_decide_eq_false_2 by congruence. cbn.
  destruct (_vaoRecordInProgress e) eqn:Hr; cbn.
  - rewrite bindBuffer_run. cbn. rewrite Hr. reflexivity.
  - rewrite unbindVertexArrayObject_run. cbn. rewrite Hv. cbn.
    rewrite bindBuffer_run. cbn. rewrite Hr, Hb. reflexivity.
Qed.

Lemma wipeCaches_full_kept e :
  let e' := final (wipeCaches true e) in
  effects e' = effects e /\
  _stencilState e' = _stencilState e ++ [op_reset] /\
  _alphaState e' = _alphaState e ++ [op_reset] /\
  _depthCullingState e' =
    _depthCullingState e ++ [op_reset; op_set_depthFunc GLenum.LEQUAL].
Proof.
  unfold wipeCaches, resetTextureCache, setDepthFunctionToLessOrEqual,
    _resetVertexBufferBinding, bindArrayBuffer, bindIndexBuffer.
  cbv zeta. run_all; rewrite <- ?app_assoc; repeat split; reflexivity.
Qed.

Lemma enableEffect_uncached fails reaction eff e :
  _currentEffect e = None ->
  _currentProgram e = None ->
  List.filter is_useProgram (calls (enableEffect fails reaction (Some eff) e)) =
    [gl_useProgram (program (effects e !!! eff))].
Proof.
  intros He Hp. unfold enableEffect, bindSamplers, setProgram, external. cbn.
  rewrite He. rewrite bool_decide_eq_false_2 by congruence. cbn.
  rewrite Hp. rewrite bool_decide_eq_false_2 by congruence. cbn.
  repeat (match goal with
          | |- context [if ?c then _ else _] => destruct c
          end; cbn); reflexivity.
Qed.

Section ActiveUnit.

Local Arguments nativeTexture : simpl never.
Local Arguments Z.eqb : simpl never.

Lemma bindTexture_activates u t e :
  _currentTextureChannel e = -1 ->
  _boundTexturesCache e !! u <> Some (Some t) ->
  activeTextureCalls (calls (_bindTexture (Some u) (Some t) e)) =
    if u =? -1 then [] else [gl_activeTexture (GLenum.TEXTURE0 + u)].
Proof.
  intros Hc Hb.
  unfold _bindTexture, _bindTextureDirectly, _activateCurrentTexture,
    _bindSamplerUniformToChannel.
  cbv zeta. cbn. rewrite ?lookup_total_insert_eq. cbn.
  rewrite bool_decide_eq_false_2 by exact Hb. cbn.
  rewrite Hc, (Z.eqb_sym (-1) u).
  destruct (u =? -1); run_cases; reflexivity.
Qed.

End ActiveUnit.

Lemma bindBuffersDirectly_uncached vb ib decl stride eff e :
  _cachedVertexBuffers e = None ->
  bindBuffersDirectly vb ib decl stride eff e =
    bind (rebindBuffersDirectly vb decl stride eff)
         (fun _ => _bindIndexBufferWithCache ib) e.
Proof.
  intros H. unfold bindBuffersDirectly.
  generalize (rebindBuffersDirectly vb decl stride eff) (_bindIndexBufferWithCache ib).
  intros R I. cbn [bind gets]. rewrite H.
  rewrite bool_decide_eq_false_2 by congruence. cbn [negb orb].
  destruct (R e) as [[[]|err] e1 c1]; [destruct (I e1)|]; reflexivity.
Qed.



(** C6, counterexample: a light wipe of an engine with an index buffer and
    a vertex array object bound clears both caches and unbinds both on the
    context. *)
Lemma wipeCaches_light_counterexample :
  _cachedIndexBuffer engineInUse = Some 5 /\
  _cachedIndexBuffer (final (wipeCaches false engineInUse)) = None /\
  _cachedVertexArrayObject engineInUse = Some 9 /\
  _cachedVertexArrayObject (final (wipeCaches false engineInUse)) = None /\
  _currentBoundBuffer engineInUse !! GLenum.ELEMENT_ARRAY_BUFFER = Some (Some 5) /\
  _currentBoundBuffer (final (wipeCaches false engineInUse)) !! GLenum.ELEMENT_ARRAY_BUFFER
    = Some None /\
  calls (wipeCaches false engineInUse) =
    [gl_bindVertexArray None; gl_bindBuffer GLenum.ARRAY_BUFFER None;
     gl_bindBuffer GLenum.ELEMENT_ARRAY_BUFFER None].
Proof. repeat split; vm_compute; reflexivity. Qed.

End WipeFacts.

(** ** Releasing buffers *)

Section BufferFacts.

Local Arguments _releaseBuffer : simpl never.

Lemma releaseBuffer_run b e :
  _releaseBuffer b e =
    let n := references (buffers e !!! b) - 1 in
    let e1 := set_buffers (<[b := with_references n (buffers e !!! b)]> (buffers e)) e in
    if n =? 0
    then mkRun (Normal true) e1 [gl_deleteBuffer (underlyingResource (buffers e !!! b))]
    else mkRun (Normal false) e1 [].
Proof.
  unfold _releaseBuffer. cbn. rewrite lookup_total_insert_eq. cbn.
  destruct (references (buffers e !!! b) - 1 =? 0); reflexivity.
Qed.

Lemma releaseBuffer_references b h e :
  references (buffers (final (_releaseBuffer h e)) !!! b) =
    if bool_decide (h = b) then references (buffers e !!! b) - 1
    else references (buffers e !!! b).
Proof.
  rewrite releaseBuffer_run. cbv zeta.
  destruct (references (buffers e !!! h) - 1 =? 0); cbn;
    case_bool_decide; subst;
    rewrite ?lookup_total_insert_eq, ?lookup_total_insert_ne by done; reflexivity.
Qed.

Lemma releaseBuffer_resource b h e :
  underlyingResource (buffers (final (_releaseBuffer h e)) !!! b) =
    underlyingResource (buffers e !!! b).
Proof.
  rewrite releaseBuffer_run. cbv zeta.
  destruct (references (buffers e !!! h) - 1 =? 0); cbn;
    (destruct (decide (h = b)) as [->|];
     [rewrite lookup_total_insert_eq | rewrite lookup_total_insert_ne by done]; reflexivity).
Qed.

(** C5. For a buffer whose reference count is [N = n + 1], [N] releases in
    a row delete the native buffer exactly once, on the [N]-th release: the
    first [n] releases return [false] and issue no call, the last returns
    [true] and issues the one [gl.deleteBuffer] call. *)
Theorem releaseBuffer_refcount (b : Z) (n : nat) (e : Engine) :
  references (buffers e !!! b) = Z.of_nat (S n) ->
  let rs := fst (releaseSeq (replicate (S n) b) e) in
  map (fun hr => outcome (snd hr)) rs = replicate n (Normal false) ++ [Normal true] /\
  map (fun hr => calls (snd hr)) rs =
    replicate n [] ++ [[gl_deleteBuffer (underlyingResource (buffers e !!! b))]].
Proof.
  revert e. induction n as [|n IH]; intros e Href.
  - cbn. rewrite releaseBuffer_run. cbv zeta. rewrite Href. cbn. split; reflexivity.
  - change (replicate (S (S n)) b) with (b :: replicate (S n) b).
    cbn [releaseSeq fst snd map]. cbv zeta.
    specialize (IH (final (_releaseBuffer b e))).
    rewrite releaseBuffer_references, bool_decide_eq_true_2 in IH by reflexivity.
    rewrite releaseBuffer_resource in IH.
    destruct IH as [IH1 IH2]; [lia|].
    cbn [fst map]. rewrite IH1, IH2.
    rewrite releaseBuffer_run. cbv zeta. rewrite Href.
    replace (Z.of_nat (S (S n)) - 1 =? 0) with false by (symmetry; apply Z.eqb_neq; lia).
    split; reflexivity.
Qed.

Lemma deletions_cons b h r rs :
  deletions b ((h, r) :: rs) =
    ((if (h =? b)%Z && existsb is_deleteBuffer (calls r) then 1 else 0) + deletions b rs)%nat.
Proof.
  unfold deletions. cbn. destruct ((h =? b) && existsb is_deleteBuffer (calls r)); reflexivity.
Qed.

Lemma releaseBuffer_deletes h e :
  existsb is_deleteBuffer (calls (_releaseBuffer h e)) =
    (references (buffers e !!! h) - 1 =? 0).
Proof.
  rewrite releaseBuffer_run. cbv zeta.
  destruct (references (buffers e !!! h) - 1 =? 0); reflexivity.
Qed.

Lemma released_stays_released b hs e :
  references (buffers e !!! b) <= 0 ->
  deletions b (fst (releaseSeq hs e)) = 0%nat /\
  references (buffers (snd (releaseSeq hs e)) !!! b) =
    references (buffers e !!! b) - Z.of_nat (count_occ Z.eq_dec hs b).
Proof.
  revert e. induction hs as [|h hs IH]; intros e Href.
  - cbn. split; [reflexivity|lia].
  - cbn [releaseSeq fst snd]. cbv zeta. rewrite deletions_cons, releaseBuffer_deletes.
    specialize (IH (final (_releaseBuffer h e))).
    rewrite releaseBuffer_references in IH.
    cbn [count_occ]. destruct (Z.eq_dec h b) as [->|Hne].
    + rewrite bool_decide_eq_true_2 in IH by reflexivity.
      destruct IH as [IH1 IH2]; [lia|]. rewrite IH1, IH2.
      replace (references (buffers e !!! b) - 1 =? 0) with false
        by (symmetry; apply Z.eqb_neq; lia).
      rewrite andb_false_r. split; [reflexivity|lia].
    + rewrite bool_decide_eq_false_2 in IH by exact Hne.
      destruct IH as [IH1 IH2]; [lia|]. rewrite IH1, IH2.
      replace (h =? b) with false by (symmetry; apply Z.eqb_neq; exact Hne).
      split; [reflexivity|lia].
Qed.

Lemma deletions_at_most_once b hs e :
  (deletions b (fst (releaseSeq hs e)) <= 1)%nat.
Proof.
  revert e. induction hs as [|h hs IH]; intros e.
  - cbn. lia.
  - cbn [releaseSeq fst snd]. cbv zeta. rewrite deletions_cons, releaseBuffer_deletes.
    destruct (Z.eqb_spec h b) as [->|Hne]; cbn [andb].
    + destruct (Z.eqb_spec (references (buffers e !!! b) - 1) 0) as [Hz|Hnz].
      * destruct (released_stays_released b hs (final (_releaseBuffer b e))) as [H0 _].
        { rewrite releaseBuffer_references, bool_decide_eq_true_2 by reflexivity. lia. }
        rewrite H0. lia.
      * specialize (IH (final (_releaseBuffer b e))). lia.
    + specialize (IH (final (_releaseBuffer h e))). lia.
Qed.

(** C10. In any sequence of release calls, on any handles, the releases
    of one buffer issue [gl.deleteBuffer] at most once; and for a buffer
    whose count is already zero or below, no release deletes it and the
    count only goes further down. *)
Theorem releaseBuffer_at_most_once (b : Z) (hs : list Z) (e : Engine) :
  (deletions b (fst (releaseSeq hs e)) <= 1)%nat /\
  (references (buffers e !!! b) <= 0 ->
   deletions b (fst (releaseSeq hs e)) = 0%nat /\
   references (buffers (snd (releaseSeq hs e)) !!! b) =
     references (buffers e !!! b) - Z.of_nat (count_occ Z.eq_dec hs b)).
Proof.
  split; [apply deletions_at_most_once | apply released_stays_released].
Qed.

(** Witness of C5: the buffer of [engineInUse], count 1. *)
Lemma releaseBuffer_refcount_witness :
  references (buffers engineInUse !!! 5) = Z.of_nat 1 /\
  map (fun hr => calls (snd hr)) (fst (releaseSeq (replicate 1 5) engineInUse)) =
    replicate 0 [] ++ [[gl_deleteBuffer (underlyingResource (buffers engineInUse !!! 5))]].
Proof.
  split; [reflexivity|].
  apply (releaseBuffer_refcount 5 0 engineInUse). reflexivity.
Defined.

(** Witness of C10: three more releases after the count reached zero. *)
Lemma releaseBuffer_at_most_once_witness :
  references (buffers (final (_releaseBuffer 5 engineInUse)) !!! 5) <= 0 /\
  deletions 5 (fst (releaseSeq [5; 5; 5] (final (_releaseBuffer 5 engineInUse)))) = 0%nat.
Proof.
  assert (H : references (buffers (final (_releaseBuffer 5 engineInUse)) !!! 5) <= 0)
    by (vm_compute; discriminate).
  split; [exact H|].
  apply (releaseBuffer_at_most_once 5 [5; 5; 5] (final (_releaseBuffer 5 engineInUse))).
  exact H.
Defined.

End BufferFacts.

(** ** Drawing and resizing *)

Section DrawResizeFacts.

(** *** Draw calls *)

(** C8. Every [drawElementsType] call completes normally, applies each of
    the three state objects exactly once (one [applyStates]), and adds
    exactly 1 to the draw-call counter, whatever [instancesCount] is. *)
Theorem drawElementsType_once (K : FillModes) (fillMode indexStart indexCount : Z)
    (instancesCount : option Z) (e : Engine) :
  let r := drawElementsType K fillMode indexStart indexCount instancesCount e in
  outcome r = Normal tt /\
  List.filter is_stateApply (calls r) =
    [state_apply DepthCulling; state_apply Stencil; state_apply Alpha] /\
  _depthCullingState (final r) = _depthCullingState e ++ [op_apply] /\
  _stencilState (final r) = _stencilState e ++ [op_apply] /\
  _alphaState (final r) = _alphaState e ++ [op_apply] /\
  current (_drawCalls (final r)) = current (_drawCalls e) + 1.
Proof.
  unfold drawElementsType, applyStates. cbn.
  destruct (truthyCount instancesCount); cbn; repeat split; reflexivity.
Qed.

(** *** Canvas size *)

Lemma numberToInt32_truncated n z :
  truncated n = Some z -> - 2^31 <= z < 2^31 -> JS.numberToInt32 n = z.
Proof.
  destruct n as [q| | |]; cbn; try discriminate.
  intros [= <-] Hr. unfold JS.toInt32. rewrite Z.mod_small; lia.
Qed.

Lemma setSize_same e c w h :
  _renderingCanvas e = Some c ->
  JS.numberToInt32 w = canvas_width c ->
  JS.numberToInt32 h = canvas_height c ->
  setSize w h e = mkRun (Normal tt) e [].
Proof.
  intros Hc Hw Hh. unfold setSize. cbn. rewrite Hc, Hw, Hh, !Z.eqb_refl. reflexivity.
Qed.

(** C9. When the integer parts of [width] and [height] are the current
    dimensions of the canvas, [setSize] changes nothing in the engine (canvas,
    scenes and cameras included) and issues no call; and the second of two
    [setSize] calls with the same arguments is always such a no-op. *)
Theorem setSize_unchanged (e : Engine) (c : Canvas) (w h : JS.number) :
  _renderingCanvas e = Some c ->
  0 <= canvas_width c < 2^31 ->
  0 <= canvas_height c < 2^31 ->
  truncated w = Some (canvas_width c) ->
  truncated h = Some (canvas_height c) ->
  setSize w h e = mkRun (Normal tt) e [] /\
  (forall e0 w0 h0,
     setSize w0 h0 (final (setSize w0 h0 e0)) =
       mkRun (Normal tt) (final (setSize w0 h0 e0)) []).
Proof.
  intros Hc Rw Rh Tw Th. split.
  - apply (setSize_same e c); [exact Hc| |];
      apply numberToInt32_truncated; (assumption || lia).
  - intros e0 w0 h0. destruct (_renderingCanvas e0) as [c0|] eqn:E0.
    + destruct ((canvas_width c0 =? JS.numberToInt32 w0)
                && (canvas_height c0 =? JS.numberToInt32 h0)) eqn:Eq.
      * assert (S : setSize w0 h0 e0 = mkRun (Normal tt) e0 []).
        { unfold setSize. cbn. rewrite E0, Eq. reflexivity. }
        rewrite S. cbn [final]. exact S.
      * assert (S : _renderingCanvas (final (setSize w0 h0 e0)) =
                    Some {| canvas_width := JS.numberToInt32 w0;
                            canvas_height := JS.numberToInt32 h0 |}).
        { unfold setSize. cbn. rewrite E0, Eq. cbn.
          destruct (onResizeObservable_hasObservers e0); reflexivity. }
        apply (setSize_same _ _ _ _ S); reflexivity.
    + assert (S : setSize w0 h0 e0 = mkRun (Normal tt) e0 []).
      { unfold setSize. cbn. rewrite E0. reflexivity. }
      rewrite S. cbn [final]. exact S.
Qed.

(** Witness of C9: 800.5 x 600 on an 800 x 600 canvas. *)
Lemma setSize_unchanged_witness :
  _renderingCanvas engineWithCanvas = Some {| canvas_width := 800; canvas_height := 600 |} /\
  0 <= 800 < 2^31 /\
  0 <= 600 < 2^31 /\
  truncated (JS.Finite (1601 # 2)) = Some 800 /\
  truncated (JS.Finite (600 # 1)) = Some 600 /\
  setSize (JS.Finite (1601 # 2)) (JS.Finite (600 # 1)) engineWithCanvas
    = mkRun (Normal tt) engineWithCanvas [].
Proof.
  assert (H1 : _renderingCanvas engineWithCanvas
               = Some {| canvas_width := 800; canvas_height := 600 |}) by reflexivity.
  assert (H2 : 0 <= 800 < 2^31) by lia.
  assert (H3 : 0 <= 600 < 2^31) by lia.
  assert (H4 : truncated (JS.Finite (1601 # 2)) = Some 800) by reflexivity.
  assert (H5 : truncated (JS.Finite (600 # 1)) = Some 600) by reflexivity.
  split; [exact H1|]. split; [exact H2|]. split; [exact H3|]. split; [exact H4|].
  split; [exact H5|].
  apply (setSize_unchanged engineWithCanvas {| canvas_width := 800; canvas_height := 600 |}
           (JS.Finite (1601 # 2)) (JS.Finite (600 # 1)) H1 H2 H3 H4 H5).
Defined.

End DrawResizeFacts.

(** ** Preparing textures *)

Section TextureFacts.

(** *** Texture dimensions *)

Lemma dims_insert_associatedChannel ts t t' c :
  dims (<[t' := with_associatedChannel c (ts !!! t')]> ts) t = dims ts t.
Proof.
  unfold dims. destruct (decide (t' = t)) as [->|Hne].
  - rewrite lookup_total_insert_eq. reflexivity.
  - rewrite lookup_total_insert_ne by done. reflexivity.
Qed.

Lemma bindTextureDirectly_dims target texture fdu force e t :
  dims (textures (final (_bindTextureDirectly target texture fdu force e))) t
  = dims (textures e) t.
Proof.
  unfold _bindTextureDirectly, _activateCurrentTexture, _bindSamplerUniformToChannel.
  cbv zeta. destruct texture as [t'|], fdu, force; run_cases;
    rewrite ?dims_insert_associatedChannel; reflexivity.
Qed.

Lemma bindTextureDirectly_caps target texture fdu force e :
  let e' := final (_bindTextureDirectly target texture fdu force e) in
  maxTextureSize e' = maxTextureSize e /\
  _webGLVersion e' = _webGLVersion e /\
  forcePOTTextures e' = forcePOTTextures e.
Proof.
  unfold _bindTextureDirectly, _activateCurrentTexture, _bindSamplerUniformToChannel.
  cbv zeta. destruct texture as [t'|], fdu, force; run_cases; repeat split; reflexivity.
Qed.

Lemma unpackFlipY_textures v e : textures (final (_unpackFlipY v e)) = textures e.
Proof. unfold _unpackFlipY. run_cases; reflexivity. Qed.

Section PrepareFacts.

Variables SCALEMODE_FLOOR SCALEMODE_NEAREST : Z.
Hypothesis modes_differ : SCALEMODE_FLOOR <> SCALEMODE_NEAREST.

Lemma GetExponentOfTwo_nearest value max :
  POT.GetExponentOfTwo SCALEMODE_FLOOR SCALEMODE_NEAREST value max
  = Z.min (POT.NearestPOT value) max.
Proof.
  unfold POT.GetExponentOfTwo, POT.GetExponentOfTwo_mode.
  rewrite (proj2 (Z.eqb_neq _ _)) by congruence.
  rewrite Z.eqb_refl. reflexivity.
Qed.

Lemma potDimension_nearest e d :
  needPOTTextures e = true ->
  potDimension SCALEMODE_FLOOR SCALEMODE_NEAREST e d
  = Z.min (maxTextureSize e) (POT.NearestPOT d).
Proof.
  intros H. unfold potDimension. rewrite H, GetExponentOfTwo_nearest. lia.
Qed.

End PrepareFacts.

Lemma bindTextureDirectly_update_normal target texture force e :
  exists b, outcome (_bindTextureDirectly target texture true force e) = Normal b.
Proof.
  unfold _bindTextureDirectly, _activateCurrentTexture, _bindSamplerUniformToChannel.
  cbv zeta. destruct texture as [t'|], force; run_cases; eauto.
Qed.

Lemma bindTextureDirectly_null_normal target e :
  exists b, outcome (_bindTextureDirectly target None false false e) = Normal b.
Proof.
  unfold _bindTextureDirectly, _activateCurrentTexture, _bindSamplerUniformToChannel.
  cbv zeta. run_cases; eauto.
Qed.

Lemma unpackFlipY_normal v e : outcome (_unpackFlipY v e) = Normal tt.
Proof. unfold _unpackFlipY. run_cases; reflexivity. Qed.

Lemma dims_insert_prepared ts t bw bh w h :
  dims (<[t := with_prepared bw bh w h (ts !!! t)]> ts) t = (bw, bh, w, h).
Proof. unfold dims. rewrite lookup_total_insert_eq. reflexivity. Qed.

Local Arguments _bindTextureDirectly : simpl never.
Local Arguments _unpackFlipY : simpl never.

Lemma prepareWebGLTextureContinuation_dims texture mag min noMipmap isCompressed e t :
  dims (textures (final (_prepareWebGLTextureContinuation texture mag min noMipmap
                           isCompressed e))) t = dims (textures e) t.
Proof.
  unfold _prepareWebGLTextureContinuation.
  pose proof (bindTextureDirectly_dims GLenum.TEXTURE_2D None false false e t) as D.
  destruct (bindTextureDirectly_null_normal GLenum.TEXTURE_2D e) as [b N].
  destruct (negb noMipmap && negb isCompressed); cbn;
    destruct (_bindTextureDirectly GLenum.TEXTURE_2D None false false e) as [o e1 c1];
    cbn in *; subst o; cbn; exact D.
Qed.

Local Arguments _prepareWebGLTextureContinuation : simpl never.

Lemma prepareWebGLTexture_dims FLOOR NEAREST (e : Engine) (t w h : Z)
    (invertY : option bool) (noMipmap isCompressed : bool)
    (processFunction : Z -> Z -> M bool) (mag min : Z) :
  is_Some (_webGLTexture (textures e !!! t)) ->
  (forall a b e1, dims (textures (final (processFunction a b e1))) t = dims (textures e1) t) ->
  dims (textures (final (_prepareWebGLTexture FLOOR NEAREST t w h invertY noMipmap
                           isCompressed processFunction mag min e))) t
  = (w, h, potDimension FLOOR NEAREST e w, potDimension FLOOR NEAREST e h).
Proof.
  intros [g Hg] Hpf. unfold _prepareWebGLTexture. cbn. rewrite Hg. cbn.
  destruct (bindTextureDirectly_update_normal GLenum.TEXTURE_2D (Some t) false e) as [b N].
  destruct (_bindTextureDirectly GLenum.TEXTURE_2D (Some t) true false e) as [o e1 c1].
  cbn in N. subst o. cbn.
  pose proof (unpackFlipY_normal (match invertY with Some b0 => b0 | None => true end) e1) as N2.
  destruct (_unpackFlipY (match invertY with Some b0 => b0 | None => true end) e1)
    as [o2 e2 c2].
  cbn in N2. subst o2. cbn.
  match goal with
  | |- context [processFunction ?a ?b ?s] =>
      pose proof (Hpf a b s) as D; destruct (processFunction a b s) as [[d|err] e3 c3]
  end; cbn in *.
  - destruct d; cbn.
    + rewrite D. apply dims_insert_prepared.
    + pose proof (prepareWebGLTextureContinuation_dims t mag min noMipmap isCompressed e3 t) as D2.
      destruct (_prepareWebGLTextureContinuation t mag min noMipmap isCompressed e3)
        as [o4 e4 c4]. cbn in *. rewrite D2, D. apply dims_insert_prepared.
  - rewrite D. apply dims_insert_prepared.
Qed.

(** C7, as amended. On a context that needs power-of-two textures,
    [_prepareWebGLTexture] gives the texture, in each dimension, the power of
    two nearest to the input, capped at the maximum texture size: no power
    of two is closer to the input, and a power of two that is as close is
    not higher (on a tie the higher one is taken), so the result may lie
    below the input. *)
Theorem prepareWebGLTexture_nearest_pot (FLOOR NEAREST : Z) (e : Engine) (t w h : Z)
    (invertY : option bool) (noMipmap isCompressed : bool)
    (processFunction : Z -> Z -> M bool) (mag min : Z) :
  FLOOR <> NEAREST ->
  needPOTTextures e = true ->
  0 < w < 2^31 ->
  0 < h < 2^31 ->
  is_Some (_webGLTexture (textures e !!! t)) ->
  (forall a b e1, dims (textures (final (processFunction a b e1))) t = dims (textures e1) t) ->
  let e' := final (_prepareWebGLTexture FLOOR NEAREST t w h invertY noMipmap isCompressed
                     processFunction mag min e) in
  width (textures e' !!! t) = Z.min (maxTextureSize e) (POT.NearestPOT w) /\
  height (textures e' !!! t) = Z.min (maxTextureSize e) (POT.NearestPOT h) /\
  (exists k, 0 <= k /\ POT.NearestPOT w = 2 ^ k /\
     (forall j, 0 <= j -> Z.abs (2 ^ k - w) <= Z.abs (2 ^ j - w)) /\
     (forall j, 0 <= j -> Z.abs (2 ^ j - w) = Z.abs (2 ^ k - w) -> 2 ^ j <= 2 ^ k)) /\
  (exists k, 0 <= k /\ POT.NearestPOT h = 2 ^ k /\
     (forall j, 0 <= j -> Z.abs (2 ^ k - h) <= Z.abs (2 ^ j - h)) /\
     (forall j, 0 <= j -> Z.abs (2 ^ j - h) = Z.abs (2 ^ k - h) -> 2 ^ j <= 2 ^ k)).
Proof.
  intros Hm Hn Hw Hh Ht Hpf e'.
  pose proof (prepareWebGLTexture_dims FLOOR NEAREST e t w h invertY noMipmap isCompressed
                processFunction mag min Ht Hpf) as D.
  fold e' in D. unfold dims in D.
  rewrite !(potDimension_nearest FLOOR NEAREST Hm) in D by exact Hn.
  injection D as _ _ Dw Dh.
  split; [exact Dw|]. split; [exact Dh|].
  split; apply NearestPOT_nearest; assumption.
Qed.

(** C7, counterexample: with a maximum texture size of 4096, a 257 x 257
    input is prepared as 256 x 256, below the input. *)
Lemma prepareWebGLTexture_counterexample :
  let e' := final (_prepareWebGLTexture 1 2 1 257 257 None false false
                     (fun _ _ => ret false) 9729 9987 engineWithTextures) in
  needPOTTextures engineWithTextures = true /\
  maxTextureSize engineWithTextures = 4096 /\
  width (textures e' !!! 1) = 256 /\
  height (textures e' !!! 1) = 256.
Proof. repeat split; vm_compute; reflexivity. Qed.

(** Witness of C7, as amended. *)
Lemma prepareWebGLTexture_nearest_pot_witness :
  (1 <> 2) /\
  needPOTTextures engineWithTextures = true /\
  0 < 257 < 2^31 /\
  is_Some (_webGLTexture (textures engineWithTextures !!! 1)) /\
  (forall (a b : Z) e1, dims (textures (final ((fun _ _ => ret false) a b e1))) 1
                        = dims (textures e1) 1) /\
  width (textures (final (_prepareWebGLTexture 1 2 1 257 257 None false false
                            (fun _ _ => ret false) 9729 9987 engineWithTextures)) !!! 1)
  = Z.min (maxTextureSize engineWithTextures) (POT.NearestPOT 257).
Proof.
  assert (H1 : (1 : Z) <> 2) by discriminate.
  assert (H2 : needPOTTextures engineWithTextures = true) by reflexivity.
  assert (H3 : 0 < 257 < 2^31) by lia.
  assert (H4 : is_Some (_webGLTexture (textures engineWithTextures !!! 1)))
    by (vm_compute; eauto).
  assert (H5 : forall (a b : Z) e1,
             dims (textures (final ((fun _ _ => ret false) a b e1))) 1 = dims (textures e1) 1)
    by (intros; reflexivity).
  split; [exact H1|]. split; [exact H2|]. split; [exact H3|]. split; [exact H4|].
  split; [exact H5|].
  apply (prepareWebGLTexture_nearest_pot 1 2 engineWithTextures 1 257 257 None false false
           (fun _ _ => ret false) 9729 9987 H1 H2 H3 H3 H4 H5).
Defined.

End TextureFacts.

(** ** Recovery from a lost context *)

Section RecoveryProofs.

(** *** Operations that always complete *)

Lemma yields_bind {A B C : Type} (f g h : Engine -> C) (m : M A) (k : A -> M B) :
  yields g h m -> (forall a, yields f g (k a)) -> yields f h (bind m k).
Proof.
  intros Hm Hk e. destruct (Hm e) as [[a Ha] Hg]. unfold bind.
  destruct (m e) as [o e1 c1]. cbn in Ha, Hg. subst o.
  destruct (Hk a e1) as [[b Hb] Hf].
  destruct (k a e1) as [o2 e2 c2]. cbn in Hb, Hf |- *. subst o2.
  split; [eauto|]. congruence.
Qed.

Lemma steady_bind {A B C : Type} (f : Engine -> C) (m : M A) (k : A -> M B) :
  steady f m -> (forall a, steady f (k a)) -> steady f (bind m k).
Proof. apply yields_bind. Qed.

Lemma steady_ret {A C : Type} (f : Engine -> C) (a : A) : steady f (ret a).
Proof. intros e. split; [exists a|]; reflexivity. Qed.

Lemma steady_emit {C : Type} (f : Engine -> C) c : steady f (emit c).
Proof. intros e. split; [exists tt|]; reflexivity. Qed.

Lemma steady_gets {A C : Type} (f : Engine -> C) (g : Engine -> A) : steady f (gets g).
Proof. intros e. split; [exists (g e)|]; reflexivity. Qed.

Lemma steady_modify {C : Type} (f : Engine -> C) (g : Engine -> Engine) :
  (forall e, f (g e) = f e) -> steady f (modify g).
Proof. intros H e. split; [exists tt; reflexivity|apply H]. Qed.

Lemma steady_forEach {A C : Type} (f : Engine -> C) (l : list A) (body : A -> M unit) :
  (forall x, steady f (body x)) -> steady f (forEach l body).
Proof.
  intros H. induction l as [|x l IH]; [apply steady_ret|].
  cbn [forEach]. apply steady_bind; [apply H|intros _; exact IH].
Qed.

Lemma steady_map {A B C : Type} (f : Engine -> B) (h : B -> C) (m : M A) :
  steady f m -> steady (fun e => h (f e)) m.
Proof. intros H e. destruct (H e) as [N E]. split; [exact N|]. cbv beta. rewrite E. reflexivity. Qed.

(** The run of an operation that completes, followed by another. *)
Lemma bind_total {A B : Type} (m : M A) (k : A -> M B) e a :
  outcome (m e) = Normal a ->
  bind m k e =
    mkRun (outcome (k a (final (m e)))) (final (k a (final (m e))))
          (calls (m e) ++ calls (k a (final (m e)))).
Proof.
  intros H. unfold bind. destruct (m e) as [o e1 c1]. cbn in H |- *. subst o.
  destruct (k a e1); reflexivity.
Qed.

(** One step of a proof that an operation keeps an observation: the
    structure of the operation is followed, a written field is checked at
    the leaves. *)
Ltac steady_step :=
  lazymatch goal with
  | |- steady _ (bind _ _) => apply steady_bind; [|intros ?]
  | |- steady _ (ret _) => apply steady_ret
  | |- steady _ (emit _) => apply steady_emit
  | |- steady _ (gets _) => apply steady_gets
  | |- steady _ (modify _) =>
      apply steady_modify; intros ?; cbv beta;
      first [reflexivity
            | match goal with H : forall _ _, _ = _ |- _ => apply H end]
  | |- steady _ (forEach _ _) => apply steady_forEach; intros ?
  | |- steady _ (if ?c then _ else _) => destruct c
  | |- steady _ (match ?x with Some _ => _ | None => _ end) => destruct x
  end.

Ltac steady_all := repeat steady_step.

Section ContextFacts.

Variable gl : Context.
Variable K : TextureTypes.
Variable sizedFormat : Z -> Z.

Section Kept.

Context {C : Type} (f : Engine -> C).
Hypothesis Hcaps :
  forall g e,
    (forall c, maxCombinedTexturesImageUnits (g c) = maxCombinedTexturesImageUnits c) ->
    f (set_caps (g (_caps e)) e) = f e.
Hypothesis Hversion : forall v e, f (set_glVersion v e) = f e.
Hypothesis Hrenderer : forall v e, f (set_glRenderer v e) = f e.
Hypothesis Hvendor : forall v e, f (set_glVendor v e) = f e.
Hypothesis Hsupported : forall v e, f (set_texturesSupported v e) = f e.

Lemma queryParameter_steady pname : steady f (queryParameter gl pname).
Proof. unfold queryParameter. steady_all. Qed.

Lemma queryString_steady pname : steady f (queryString gl pname).
Proof. unfold queryString. steady_all. Qed.

Lemma queryExtension_steady name : steady f (queryExtension gl name).
Proof. unfold queryExtension. steady_all. Qed.

Lemma firstExtension_steady names : steady f (firstExtension gl names).
Proof.
  induction names as [|name names IH]; cbn [firstExtension]; [apply steady_ret|].
  apply steady_bind; [apply queryExtension_steady|]. intros [x|]; [apply steady_ret|exact IH].
Qed.

Lemma versionOrExtension_steady name : steady f (versionOrExtension gl name).
Proof.
  unfold versionOrExtension. steady_step; [steady_all|]. steady_step; [steady_all|].
  steady_step; [apply queryExtension_steady|steady_all].
Qed.

Lemma setCap_steady g :
  (forall c, maxCombinedTexturesImageUnits (g c) = maxCombinedTexturesImageUnits c) ->
  steady f (setCap g).
Proof. intros Hg. unfold setCap. apply steady_modify. intros e. apply Hcaps, Hg. Qed.

Lemma drainErrors_steady n : steady f (drainErrors n).
Proof. unfold drainErrors. steady_all. Qed.

Lemma canRenderToFramebuffer_steady type :
  steady f (_canRenderToFramebuffer gl K sizedFormat type).
Proof.
  unfold _canRenderToFramebuffer. cbv zeta.
  repeat first [apply drainErrors_steady | steady_step].
Qed.

Lemma canRenderToFloatFramebuffer_steady : steady f (_canRenderToFloatFramebuffer gl K sizedFormat).
Proof.
  unfold _canRenderToFloatFramebuffer.
  repeat first [apply canRenderToFramebuffer_steady | steady_step].
Qed.

Lemma canRenderToHalfFloatFramebuffer_steady :
  steady f (_canRenderToHalfFloatFramebuffer gl K sizedFormat).
Proof.
  unfold _canRenderToHalfFloatFramebuffer.
  repeat first [apply canRenderToFramebuffer_steady | steady_step].
Qed.

Ltac steady_init :=
  repeat first
    [ apply queryParameter_steady | apply queryString_steady | apply queryExtension_steady
    | apply firstExtension_steady | apply versionOrExtension_steady
    | apply setCap_steady; intros ?; reflexivity
    | apply canRenderToFloatFramebuffer_steady | apply canRenderToHalfFloatFramebuffer_steady
    | steady_step ].

Lemma initInfos_steady : steady f (initInfos gl).
Proof. unfold initInfos. steady_init. Qed.

Lemma initExtensions_steady : steady f (initExtensions gl K sizedFormat).
Proof. unfold initExtensions. steady_init. Qed.

Lemma initDrawFeatures_steady : steady f (initDrawFeatures gl).
Proof. unfold initDrawFeatures. steady_init. Qed.

Lemma initCompressedFormats_steady : steady f initCompressedFormats.
Proof. unfold initCompressedFormats. cbv zeta. steady_init. Qed.

Lemma initShaderPrecision_steady : steady f (initShaderPrecision gl).
Proof.
  unfold initShaderPrecision. destruct (hasGetShaderPrecisionFormat gl); [|apply steady_ret].
  steady_step; [steady_all|]. steady_step; [steady_all|].
  destruct (getShaderPrecisionFormat gl GLenum.VERTEX_SHADER GLenum.HIGH_FLOAT);
    [destruct (getShaderPrecisionFormat gl GLenum.FRAGMENT_SHADER GLenum.HIGH_FLOAT)|];
    first [apply setCap_steady; intros ?; reflexivity | apply steady_ret].
Qed.

(** The blocks of [_initGLContext] between the limits and the depth
    buffer keep [f], whatever follows them. *)
Lemma initFeatures_then (f' : Engine -> C) (X : M unit) :
  yields f' f X ->
  yields f' f
    (bind (initInfos gl) (fun _ =>
     bind (initExtensions gl K sizedFormat) (fun _ =>
     bind (initDrawFeatures gl) (fun _ =>
     bind initCompressedFormats (fun _ =>
     bind (initShaderPrecision gl) (fun _ => X)))))).
Proof.
  intros HX.
  apply (yields_bind f' f f); [apply initInfos_steady|intros _].
  apply (yields_bind f' f f); [apply initExtensions_steady|intros _].
  apply (yields_bind f' f f); [apply initDrawFeatures_steady|intros _].
  apply (yields_bind f' f f); [apply initCompressedFormats_steady|intros _].
  apply (yields_bind f' f f); [apply initShaderPrecision_steady|intros _].
  exact HX.
Qed.

End Kept.

Lemma initLimits_steady {C : Type} (f : Engine -> C) :
  (forall c e, f (set_caps c e) = f e) ->
  (forall v e, f (set_maxTextureSize v e) = f e) ->
  steady f (initLimits gl).
Proof.
  intros H1 H2. unfold initLimits, queryParameter, setCap. steady_all.
Qed.

(** Step 1 of a recovery completes, re-reads the maximum texture size
    and the number of texture units from the context, and sets the depth
    test, the depth function and the depth mask. *)
Lemma initGLContext_maxTextureSize :
  yields maxTextureSize (fun _ => getParameter gl GLenum.MAX_TEXTURE_SIZE)
    (_initGLContext gl K sizedFormat).
Proof.
  unfold _initGLContext.
  apply (yields_bind _ maxTextureSize).
  - intros e. split; [exists tt|]; reflexivity.
  - intros _. apply initFeatures_then; try (intros; reflexivity).
    unfold initDepthBuffer, setDepthBuffer, setDepthFunctionToLessOrEqual, setDepthWrite,
      initTextureSlots.
    steady_all.
Qed.

Lemma initGLContext_maxSimultaneousTextures :
  yields _maxSimultaneousTextures
    (fun _ => getParameter gl GLenum.MAX_COMBINED_TEXTURE_IMAGE_UNITS)
    (_initGLContext gl K sizedFormat).
Proof.
  unfold _initGLContext.
  apply (yields_bind _ (fun e => maxCombinedTexturesImageUnits (_caps e))).
  - intros e. split; [exists tt|]; reflexivity.
  - intros _. apply initFeatures_then; try (intros; reflexivity).
    + intros g e Hg. cbn. apply Hg.
    + intros e. split; [exists tt|]; reflexivity.
Qed.

Lemma initGLContext_depth :
  yields _depthCullingState
    (fun e => _depthCullingState e
              ++ [op_set_depthTest true; op_set_depthFunc GLenum.LEQUAL; op_set_depthMask true])
    (_initGLContext gl K sizedFormat).
Proof.
  unfold _initGLContext.
  apply (yields_bind _ (fun e => _depthCullingState e
              ++ [op_set_depthTest true; op_set_depthFunc GLenum.LEQUAL; op_set_depthMask true])).
  - apply (initLimits_steady (fun e => _depthCullingState e ++ _)); intros; reflexivity.
  - intros _. apply initFeatures_then; try (intros; reflexivity).
    intros e. split; [exists tt; reflexivity|]. cbn. rewrite <- !app_assoc. reflexivity.
Qed.

(** It leaves alone whatever it does not write. *)
Lemma initGLContext_steady {C : Type} (f : Engine -> C) :
  (forall c e, f (set_caps c e) = f e) ->
  (forall v e, f (set_maxTextureSize v e) = f e) ->
  (forall v e, f (set_glVersion v e) = f e) ->
  (forall v e, f (set_glRenderer v e) = f e) ->
  (forall v e, f (set_glVendor v e) = f e) ->
  (forall v e, f (set_texturesSupported v e) = f e) ->
  (forall v e, f (set_depthCullingState v e) = f e) ->
  (forall v e, f (set_maxSimultaneousTextures v e) = f e) ->
  (forall v e, f (set_nextFreeTextureSlots v e) = f e) ->
  steady f (_initGLContext gl K sizedFormat).
Proof.
  intros H1 H2 H3 H4 H5 H6 H7 H8 H9. unfold _initGLContext.
  apply steady_bind; [apply initLimits_steady; assumption|intros _].
  apply initFeatures_then; try assumption.
  - intros g e _. apply H1.
  - unfold initDepthBuffer, setDepthBuffer, setDepthFunctionToLessOrEqual, setDepthWrite,
      initTextureSlots.
    repeat first
      [ apply steady_bind; [|intros ?]
      | apply steady_gets
      | apply steady_modify; intros ?; cbv beta; first [apply H7 | apply H8 | apply H9] ].
Qed.

Lemma initGLContext_normal e : outcome (_initGLContext gl K sizedFormat e) = Normal tt.
Proof.
  destruct (initGLContext_maxTextureSize e) as [[[] H] _]. exact H.
Qed.

End ContextFacts.

(** *** Calls into collaborators *)

Section RecoveryFacts.

Variable fails : call -> bool.
Variable reaction : call -> Engine -> Engine.

Lemma external_run c e : external fails reaction c e = extRun fails reaction [c] e.
Proof. unfold extRun, external. cbn. destruct (fails c); reflexivity. Qed.

Lemma attempted_app cs1 cs2 :
  attempted fails (cs1 ++ cs2) =
    attempted fails cs1 ++ (if existsb fails cs1 then [] else attempted fails cs2).
Proof.
  induction cs1 as [|c cs1 IH]; [reflexivity|].
  cbn. destruct (fails c); cbn; [reflexivity|]. rewrite IH. reflexivity.
Qed.

Lemma reacted_app cs1 cs2 e :
  reacted fails reaction (cs1 ++ cs2) e =
    if existsb fails cs1 then reacted fails reaction cs1 e
    else reacted fails reaction cs2 (reacted fails reaction cs1 e).
Proof.
  revert e. induction cs1 as [|c cs1 IH]; intros e; [reflexivity|].
  cbn. destruct (fails c); cbn; [reflexivity|]. apply IH.
Qed.

Lemma attempted_all cs : existsb fails cs = false -> attempted fails cs = cs.
Proof.
  induction cs as [|c cs IH]; [reflexivity|].
  cbn. destruct (fails c); cbn; [discriminate|]. intros H. rewrite IH by exact H. reflexivity.
Qed.

(** Two sequences in a row are one sequence. *)
Lemma bind_extRun (m : M unit) (k : unit -> M unit) cs1 cs2 e :
  m e = extRun fails reaction cs1 e ->
  (forall u e1, k u e1 = extRun fails reaction cs2 e1) ->
  bind m k e = extRun fails reaction (cs1 ++ cs2) e.
Proof.
  intros Hm Hk. unfold extRun in *. cbn. rewrite Hm.
  rewrite existsb_app, attempted_app, reacted_app.
  destruct (existsb fails cs1); cbn.
  - rewrite app_nil_r. reflexivity.
  - rewrite Hk. reflexivity.
Qed.

Lemma forEach_extRun {A : Type} (body : A -> M unit) (f : A -> list call) (l : list A) e :
  (forall x e1, body x e1 = extRun fails reaction (f x) e1) ->
  forEach l body e = extRun fails reaction (flat_map f l) e.
Proof.
  intros H. revert e. induction l as [|x l IH]; intros e; [reflexivity|].
  cbn [forEach flat_map]. apply bind_extRun; [apply H | intros _ e1; apply IH].
Qed.

Lemma flat_map_singleton {A B : Type} (f : A -> B) (l : list A) :
  flat_map (fun x => [f x]) l = map f l.
Proof. induction l as [|x l IH]; [reflexivity|]. cbn. rewrite IH. reflexivity. Qed.

Lemma rebuildEffects_run e :
  _rebuildEffects fails reaction e = extRun fails reaction (effectSteps e) e.
Proof.
  unfold _rebuildEffects, effectSteps. cbn [bind gets].
  match goal with
  | |- match ?X with _ => _ end = _ =>
      assert (E : X = extRun fails reaction
                        (map (fun kv => effect_prepareEffect (snd kv)) (_compiledEffects e)
                         ++ [effect_resetCache]) e)
  end.
  { apply bind_extRun.
    - rewrite <- flat_map_singleton. apply forEach_extRun. intros x e1. apply external_run.
    - intros _ e1. apply external_run. }
  rewrite E. reflexivity.
Qed.

Lemma rebuildInternalTextures_run e :
  _rebuildInternalTextures fails reaction e = extRun fails reaction (textureSteps e) e.
Proof.
  unfold _rebuildInternalTextures, textureSteps. cbn [bind gets].
  rewrite <- flat_map_singleton.
  rewrite (forEach_extRun _ (fun t => [texture_rebuild t]))
    by (intros x e1; apply external_run).
  reflexivity.
Qed.

Hypothesis keeps : keepsRegistered reaction.

Lemma reacted_keeps cs e :
  _compiledEffects (reacted fails reaction cs e) = _compiledEffects e /\
  scenes (reacted fails reaction cs e) = scenes e /\
  _uniformBuffers (reacted fails reaction cs e) = _uniformBuffers e.
Proof.
  revert e. induction cs as [|c cs IH]; intros e; [repeat split|].
  cbn. destruct (keeps c e) as (K1 & K2 & K3). destruct (fails c).
  - repeat split; assumption.
  - destruct (IH (reaction c e)) as (I1 & I2 & I3).
    repeat split; congruence.
Qed.

Lemma effectSteps_reacted cs e :
  effectSteps (reacted fails reaction cs e) = effectSteps e.
Proof. unfold effectSteps. destruct (reacted_keeps cs e) as (-> & _ & _). reflexivity. Qed.

Lemma bufferSteps_reacted cs e :
  bufferSteps (reacted fails reaction cs e) = bufferSteps e.
Proof.
  unfold bufferSteps. destruct (reacted_keeps cs e) as (_ & -> & ->). reflexivity.
Qed.

Lemma rebuildBuffers_run e :
  _rebuildBuffers fails reaction e = extRun fails reaction (bufferSteps e) e.
Proof.
  unfold _rebuildBuffers, bufferSteps. cbn [bind gets].
  set (sceneCalls := flat_map (fun s => [scene_resetCachedMaterial s; scene_rebuildGeometries s;
                                          scene_rebuildTextures s])
                              (seq 0 (length (scenes e)))).
  assert (E : forEach (seq 0 (length (scenes e)))
                (fun scene =>
                   bind (external fails reaction (scene_resetCachedMaterial scene)) (fun _ =>
                   bind (external fails reaction (scene_rebuildGeometries scene)) (fun _ =>
                   external fails reaction (scene_rebuildTextures scene)))) e
              = extRun fails reaction sceneCalls e).
  { apply forEach_extRun. intros s e1.
    apply (bind_extRun _ _ [_] [_; _]); [apply external_run|intros _ e2].
    apply (bind_extRun _ _ [_] [_]); [apply external_run|intros _ e3; apply external_run]. }
  rewrite E. unfold extRun. rewrite existsb_app, attempted_app, reacted_app.
  destruct (existsb fails sceneCalls) eqn:F; cbn.
  - rewrite app_nil_r. reflexivity.
  - destruct (reacted_keeps sceneCalls e) as (_ & _ & ->).
    rewrite <- flat_map_singleton.
    rewrite (forEach_extRun _ (fun b => [uniformBuffer_rebuild b]))
      by (intros x e1; apply external_run).
    unfold extRun. reflexivity.
Qed.

(** A sequence of collaborator calls followed by something else. *)
Lemma bind_thenRun (m X : M unit) cs e :
  m e = extRun fails reaction cs e -> bind m (fun _ => X) e = thenRun fails reaction cs X e.
Proof.
  intros Hm. unfold thenRun, extRun in *. cbn. rewrite Hm.
  destruct (existsb fails cs) eqn:F; cbn; [reflexivity|].
  rewrite attempted_all by exact F.
  destruct (X (reacted fails reaction cs e)); reflexivity.
Qed.

Lemma thenRun_thenRun (X Y : M unit) (g : Engine -> list call) cs e :
  (forall e1, X e1 = thenRun fails reaction (g e1) Y e1) ->
  thenRun fails reaction cs X e =
    thenRun fails reaction (cs ++ g (reacted fails reaction cs e)) Y e.
Proof.
  intros HX. unfold thenRun.
  rewrite existsb_app, attempted_app, reacted_app.
  destruct (existsb fails cs) eqn:F; cbn [orb].
  - rewrite app_nil_r. reflexivity.
  - rewrite HX. unfold thenRun.
    destruct (existsb fails (g (reacted fails reaction cs e))) eqn:G; cbn [outcome final calls].
    + rewrite (attempted_all cs) by exact F. reflexivity.
    + rewrite app_assoc. reflexivity.
Qed.

Lemma restoredTail_run e :
  restoredTail fails reaction e =
    let wipe := wipeCaches true e in
    mkRun (if existsb fails restoredReport then Throw "external failure" else Normal tt)
          (if existsb fails restoredReport
           then reacted fails reaction restoredReport (final wipe)
           else set_contextWasLost false (reacted fails reaction restoredReport (final wipe)))
          (calls wipe ++ attempted fails restoredReport).
Proof.
  cbv zeta. unfold restoredTail.
  rewrite (bind_total _ _ e tt (wipeCaches_normal true e)).
  generalize (final (wipeCaches true e)) (calls (wipeCaches true e)). intros ew cw.
  unfold external, restoredReport. cbn.
  destruct (fails (logger_warn "WebGL context successfully restored.")); cbn;
    [reflexivity|].
  destruct (fails notify_contextRestored); reflexivity.
Qed.

End RecoveryFacts.

(** *** The order of a recovery *)

Section RecoveryOrder.

Variable fails : call -> bool.
Variable reaction : call -> Engine -> Engine.
Variable gl : Context.
Variable K : TextureTypes.
Variable sizedFormat : Z -> Z.
Hypothesis keeps : keepsRegistered reaction.

Lemma initGLContext_registered e :
  let e1 := final (_initGLContext gl K sizedFormat e) in
  effectSteps e1 = effectSteps e /\ bufferSteps e1 = bufferSteps e.
Proof.
  cbv zeta.
  destruct (initGLContext_steady gl K sizedFormat
              (fun e => (_compiledEffects e, scenes e, _uniformBuffers e))
              ltac:(reflexivity) ltac:(reflexivity) ltac:(reflexivity) ltac:(reflexivity)
              ltac:(reflexivity) ltac:(reflexivity) ltac:(reflexivity) ltac:(reflexivity)
              ltac:(reflexivity) e) as [_ H].
  injection H as H1 H2 H3. unfold effectSteps, bufferSteps. rewrite H1, H2, H3.
  split; reflexivity.
Qed.

Lemma onContextRestored_run e :
  _onContextRestored fails reaction gl K sizedFormat e =
    let init := _initGLContext gl K sizedFormat e in
    let steps :=
      effectSteps e
      ++ textureSteps (reacted fails reaction (effectSteps e) (final init))
      ++ bufferSteps e in
    let R := thenRun fails reaction steps (restoredTail fails reaction) (final init) in
    mkRun (outcome R) (final R) (calls init ++ calls R).
Proof.
  cbv zeta. unfold _onContextRestored.
  rewrite (bind_total _ _ e tt (initGLContext_normal gl K sizedFormat e)).
  destruct (initGLContext_registered e) as [E1 E2].
  set (e1 := final (_initGLContext gl K sizedFormat e)) in *.
  change (bind (wipeCaches true) _) with (restoredTail fails reaction).
  rewrite (bind_thenRun fails reaction _ _ _ e1 (rebuildEffects_run fails reaction e1)).
  rewrite (thenRun_thenRun fails reaction _
             (bind (_rebuildBuffers fails reaction) (fun _ => restoredTail fails reaction))
             textureSteps)
    by (intros e2; apply bind_thenRun, rebuildInternalTextures_run).
  rewrite (thenRun_thenRun fails reaction _ (restoredTail fails reaction) bufferSteps)
    by (intros e2; apply bind_thenRun, rebuildBuffers_run; exact keeps).
  rewrite (bufferSteps_reacted fails reaction keeps), E1, E2, <- app_assoc.
  reflexivity.
Qed.

End RecoveryOrder.

Local Arguments wipeCaches : simpl never.
Local Arguments effectSteps : simpl never.
Local Arguments textureSteps : simpl never.
Local Arguments bufferSteps : simpl never.
Local Arguments restoredReport : simpl never.
Local Arguments reacted : simpl never.
Local Arguments attempted : simpl never.



End RecoveryProofs.

(** ** Loading textures *)

Section FallbackChain.

Import TextureLoad.

(** *** The fallback chain of [createTexture] *)

Lemma last_cons_nonempty {A : Type} (a : A) (l : list A) : l <> [] -> last (a :: l) = last l.
Proof. destruct l; [congruence|reflexivity]. Qed.

Lemma ended_cons onError a tr :
  is_onError a = false -> ended onError tr -> ended onError (a :: tr).
Proof.
  intros Ha [Hne Hrep]. split; [discriminate|].
  unfold chainReport in *. rewrite last_cons_nonempty by exact Hne.
  assert (Ho : onErrorCalls (a :: tr) = onErrorCalls tr).
  { unfold onErrorCalls. cbn. destruct a; try reflexivity; discriminate. }
  rewrite Ho.
  assert (Hf : forall m x, last (failures tr) = Some (m, x) ->
                           last (failures (a :: tr)) = Some (m, x)).
  { intros m x H. unfold failures in *. cbn [flat_map].
    destruct (flat_map _ tr) as [|p l] eqn:E; [discriminate|].
    rewrite last_app. rewrite H. reflexivity. }
  destruct (last tr) as [[]|]; try exact Hrep;
    destruct Hrep as (m & x & H1 & H2); exists m, x; (split; [apply Hf, H1|exact H2]).
Qed.

Lemma ended_prepare onError : ended onError [ev_prepare].
Proof. split; [discriminate|reflexivity]. Qed.

Lemma ended_throw onError error : ended onError [ev_throw error].
Proof. split; [discriminate|reflexivity]. Qed.

Lemma ended_last_resort (onLoadObserver onError : bool) m x :
  ended onError
    (ev_internalError m x ::
     (if onLoadObserver then [ev_removeObserver] else [])
     ++ (if onError then [ev_onError (orUnknown m) x] else [])).
Proof.
  split; [discriminate|].
  unfold chainReport. destruct onLoadObserver, onError; cbn; exists m, x; split; reflexivity.
Qed.

Lemma excluded_cons a tr :
  excluded (a :: tr) = (match a with ev_exclude l => [l] | _ => [] end) ++ excluded tr.
Proof. reflexivity. Qed.

Section Chain.

Variable TextureLoaders : list Loader.
Variable textureFormatInUse : option string.
Variable FallbackTexture : string.
Variable env : Environment.

Lemma filter_length_lt {A : Type} (P P' : A -> bool) (l : list A) (x : A) :
  (forall y, P' y = true -> P y = true) ->
  In x l -> P x = true -> P' x = false ->
  (length (List.filter P' l) < length (List.filter P l))%nat.
Proof.
  intros Himp Hin HP HP'.
  assert (Hle : forall l0, (length (List.filter P' l0) <= length (List.filter P l0))%nat).
  { induction l0 as [|y l0 IH]; [cbn; lia|]. cbn.
    destruct (P' y) eqn:E; [rewrite (Himp y E); cbn; lia|].
    destruct (P y); cbn; lia. }
  induction l as [|y l IH]; [contradiction|].
  cbn. destruct Hin as [->|Hin].
  - rewrite HP, HP'. cbn. specialize (Hle l). lia.
  - specialize (IH Hin). destruct (P' y) eqn:E; [rewrite (Himp y E); cbn; lia|].
    destruct (P y); cbn; lia.
Qed.

Lemma existsb_app_single i excl j :
  existsb (Nat.eqb i) (excl ++ [j]) = existsb (Nat.eqb i) excl || Nat.eqb i j.
Proof. rewrite existsb_app. cbn. rewrite orb_false_r. reflexivity. Qed.

Lemma remaining_decreases excl l :
  In l TextureLoaders ->
  existsb (Nat.eqb (loaderId l)) excl = false ->
  (remaining TextureLoaders (excl ++ [loaderId l]) < remaining TextureLoaders excl)%nat.
Proof.
  intros Hin Hex. unfold remaining.
  apply (filter_length_lt _ _ _ l); [|exact Hin| |].
  - intros y. rewrite existsb_app_single, negb_orb. intros H.
    apply andb_true_iff in H. tauto.
  - rewrite Hex. reflexivity.
  - rewrite existsb_app_single, Nat.eqb_refl, orb_true_r. reflexivity.
Qed.

Lemma pickLoader_some excl ext fb b64 buf l :
  pickLoader TextureLoaders textureFormatInUse excl ext fb b64 buf = Some l ->
  In l TextureLoaders /\ existsb (Nat.eqb (loaderId l)) excl = false.
Proof.
  unfold pickLoader. intros H. apply find_some in H. destruct H as [Hin H].
  apply andb_true_iff in H. destruct H as [H _]. apply negb_true_iff in H. tauto.
Qed.

Lemma remaining_le excl : (remaining TextureLoaders excl <= length TextureLoaders)%nat.
Proof. unfold remaining. apply filter_length_le. Qed.

Lemma good_cons excl onError a r :
  is_onError a = false -> is_exclude a = false ->
  good excl onError r -> good excl onError (cons a <$> r).
Proof.
  intros Ha Hx (tr & -> & He & Hn & Hd). exists (a :: tr).
  split; [reflexivity|]. split; [apply ended_cons; assumption|].
  rewrite excluded_cons. destruct a; try discriminate; cbn; split; assumption.
Qed.

Lemma good_prepare excl onError : good excl onError (Some [ev_prepare]).
Proof.
  exists [ev_prepare]. split; [reflexivity|]. split; [apply ended_prepare|].
  split; [constructor|]. intros i [].
Qed.

Lemma good_throw excl onError error : good excl onError (Some [ev_throw error]).
Proof.
  exists [ev_throw error]. split; [reflexivity|]. split; [apply ended_throw|].
  split; [constructor|]. intros i [].
Qed.

Lemma good_last_resort excl (onLoadObserver onError : bool) m x :
  good excl onError
    (cons (ev_internalError m x) <$>
       (app (if onLoadObserver then [ev_removeObserver] else []) <$>
          Some (if onError then [ev_onError (orUnknown m) x] else []))).
Proof.
  eexists. split; [reflexivity|]. split; [apply ended_last_resort|].
  destruct onLoadObserver, onError; cbn; (split; [constructor|intros i []]).
Qed.

Lemma good_exclude excl onError m x id r :
  existsb (Nat.eqb id) excl = false ->
  good (excl ++ [id]) onError r ->
  good excl onError (cons (ev_internalError m x) <$> (cons (ev_exclude id) <$> r)).
Proof.
  intros Hid (tr & -> & He & Hn & Hd). eexists. split; [reflexivity|].
  split; [apply ended_cons; [reflexivity|]; apply ended_cons; [reflexivity|exact He]|].
  cbn [excluded flat_map app]. fold (excluded tr). split.
  - constructor; [|exact Hn]. intros Hin. apply list_elem_of_In in Hin.
    specialize (Hd id Hin).
    rewrite existsb_app_single, Nat.eqb_refl, orb_true_r in Hd. discriminate.
  - intros i [<-|Hin]; [exact Hid|]. specialize (Hd i Hin).
    rewrite existsb_app_single in Hd. apply orb_false_iff in Hd. tauto.
Qed.

Lemma chain_ends (fuel : nat) :
  forall attempt urlArg onLoad onError buffer fallback forcedExtension excl,
    (remaining TextureLoaders excl < fuel)%nat ->
    good excl onError
      (createTexture TextureLoaders textureFormatInUse false FallbackTexture env fuel attempt
         urlArg onLoad onError buffer fallback forcedExtension excl).
Proof.
  induction fuel as [|fuel IH]; intros attempt urlArg onLoad onError buffer fallback
    forcedExtension excl Hfuel; [lia|].
  cbn [createTexture]. cbv zeta.
  destruct (pickLoader TextureLoaders textureFormatInUse excl _ fallback _ buffer)
    as [l|] eqn:Hpick.
  - destruct (pickLoader_some _ _ _ _ _ _ Hpick) as [Hin Hex].
    pose proof (remaining_decreases excl l Hin Hex) as Hdec.
    assert (Herr : forall m x,
      good excl onError
        (cons (ev_internalError m x) <$>
           (if truthy (getFallbackTextureUrl l
                         (transformUrl l (stringOf urlArg) textureFormatInUse)
                         textureFormatInUse)
            then cons (ev_exclude (loaderId l)) <$>
                 createTexture TextureLoaders textureFormatInUse false FallbackTexture env
                   fuel (S attempt) urlArg false onError buffer true None
                   (excl ++ [loaderId l])
            else app (if onLoad && negb fallback then [ev_removeObserver] else []) <$>
                 Some (if onError then [ev_onError (orUnknown m) x] else [])))).
    { intros m x. destruct (truthy _).
      - apply good_exclude; [exact Hex|]. apply IH. lia.
      - apply good_last_resort. }
    destruct (hasBuffer buffer).
    + apply good_cons; [reflexivity|reflexivity|].
      destruct (loadDataFailed env attempt (loaderId l)); [apply Herr|apply good_prepare].
    + apply good_cons; [reflexivity|reflexivity|].
      destruct (loadFile env attempt _) as [|exc].
      * apply good_cons; [reflexivity|reflexivity|].
        destruct (loadDataFailed env attempt (loaderId l)); [apply Herr|apply good_prepare].
      * apply Herr.
  - assert (Himg : forall source,
      good excl onError
        (cons (ev_loadImage source) <$>
           match loadImage env attempt source with
           | ImageLoaded => Some [ev_prepare]
           | ImageError message exception =>
               cons (ev_internalError message exception) <$>
                 (app (if onLoad && negb fallback then [ev_removeObserver] else []) <$>
                    Some (if onError then [ev_onError (orUnknown message) exception] else []))
           end)).
    { intros source. apply good_cons; [reflexivity|reflexivity|].
      destruct (loadImage env attempt source); [apply good_prepare|apply good_last_resort]. }
    destruct (negb _ || _); destruct buffer;
      first [apply Himg | apply good_prepare | apply good_throw].
Qed.

Lemma safe_cons urlArg buffer a r :
  (forall error, a <> ev_throw error) ->
  safe urlArg buffer r -> safe urlArg buffer (cons a <$> r).
Proof.
  intros Ha Hr tr E. destruct r as [tr'|]; [|discriminate]. cbn in E.
  injection E as <-. intros error [Hin|Hin]; [exfalso; exact (Ha error Hin)|].
  destruct (Hr tr' eq_refl error Hin) as (H1 & H2 & H3).
  split; [exact H1|]. split; [|exact H3].
  rewrite last_cons_nonempty; [exact H2|]. intros ->. destruct Hin.
Qed.

Lemma safe_no_throw urlArg buffer tr :
  (forall error, ~ In (ev_throw error) tr) -> safe urlArg buffer (Some tr).
Proof. intros H tr' E. injection E as <-. intros error Hin. destruct (H error Hin). Qed.

Lemma safe_last_resort urlArg buffer (onLoadObserver onError : bool) m x :
  safe urlArg buffer
    (cons (ev_internalError m x) <$>
       (app (if onLoadObserver then [ev_removeObserver] else []) <$>
          Some (if onError then [ev_onError (orUnknown m) x] else []))).
Proof.
  apply safe_no_throw. intros error.
  destruct onLoadObserver, onError; cbn; intuition discriminate.
Qed.

Lemma safe_prepare urlArg buffer : safe urlArg buffer (Some [ev_prepare]).
Proof. apply safe_no_throw. intros error. cbn. intuition discriminate. Qed.

Lemma chain_throws (fuel : nat) :
  forall attempt urlArg onLoad onError buffer fallback forcedExtension excl,
    safe urlArg buffer
      (createTexture TextureLoaders textureFormatInUse false FallbackTexture env fuel attempt
         urlArg onLoad onError buffer fallback forcedExtension excl).
Proof.
  induction fuel as [|fuel IH]; intros attempt urlArg onLoad onError buffer fallback
    forcedExtension excl; [intros tr E; discriminate|].
  cbn [createTexture]. cbv zeta.
  destruct (pickLoader TextureLoaders textureFormatInUse excl _ fallback _ buffer)
    as [l|] eqn:Hpick.
  - assert (Herr : forall m x,
      safe urlArg buffer
        (cons (ev_internalError m x) <$>
           (if truthy (getFallbackTextureUrl l
                         (transformUrl l (stringOf urlArg) textureFormatInUse)
                         textureFormatInUse)
            then cons (ev_exclude (loaderId l)) <$>
                 createTexture TextureLoaders textureFormatInUse false FallbackTexture env
                   fuel (S attempt) urlArg false onError buffer true None
                   (excl ++ [loaderId l])
            else app (if onLoad && negb fallback then [ev_removeObserver] else []) <$>
                 Some (if onError then [ev_onError (orUnknown m) x] else [])))).
    { intros m x. destruct (truthy _).
      - apply safe_cons; [discriminate|]. apply safe_cons; [discriminate|]. apply IH.
      - apply safe_last_resort. }
    destruct (hasBuffer buffer).
    + apply safe_cons; [discriminate|].
      destruct (loadDataFailed env attempt (loaderId l)); [apply Herr|apply safe_prepare].
    + apply safe_cons; [discriminate|].
      destruct (loadFile env attempt _) as [|exc].
      * apply safe_cons; [discriminate|].
        destruct (loadDataFailed env attempt (loaderId l)); [apply Herr|apply safe_prepare].
      * apply Herr.
  - assert (Himg : forall source,
      safe urlArg buffer
        (cons (ev_loadImage source) <$>
           match loadImage env attempt source with
           | ImageLoaded => Some [ev_prepare]
           | ImageError message exception =>
               cons (ev_internalError message exception) <$>
                 (app (if onLoad && negb fallback then [ev_removeObserver] else []) <$>
                    Some (if onError then [ev_onError (orUnknown message) exception] else []))
           end)).
    { intros source. apply safe_cons; [discriminate|].
      destruct (loadImage env attempt source); [apply safe_prepare|apply safe_last_resort]. }
    destruct (String.prefix "data:" (stringOf urlArg)) eqn:Hdata;
      destruct (includes ";base64," (stringOf urlArg)) eqn:Hb64; cbn [negb orb andb];
      destruct buffer; try apply Himg; try apply safe_prepare.
    intros tr E. injection E as <-. intros error [Hin|[]]. injection Hin as <-.
    repeat split; assumption.
Qed.

End Chain.

(** C4, as amended. With the process-wide fallback texture disabled, the
    chain of [createTexture] always ends within one attempt per loader plus
    one, and the fallback of a loader is used at most once.  A chain that
    ends in a load reports nothing.  A chain whose last attempt fails calls
    [onError] (if given) exactly once, with the message of that last failed
    attempt, or "Unknown error" when that message is empty.  The one other
    end is a [TypeError] thrown by [createTexture] itself, when it is given
    no buffer and a [data:] URL without [;base64,] and no loader takes it:
    then [onError] is not called at all. *)
Theorem createTexture_fallback_chain (TextureLoaders : list Loader)
    (textureFormatInUse : option string) (FallbackTexture : string) (env : Environment)
    (attempt : nat) (urlArg : option string) (onLoad onError : bool) (buffer : Buffer)
    (fallback : bool) (forcedExtension : option string) (excludeLoaders : list nat) :
  exists tr,
    createTexture TextureLoaders textureFormatInUse false FallbackTexture env
      (S (length TextureLoaders)) attempt urlArg onLoad onError buffer fallback
      forcedExtension excludeLoaders = Some tr /\
    chainReport onError tr /\
    NoDup (excluded tr) /\
    thrownOnlyOnNullImage urlArg buffer tr.
Proof.
  destruct (chain_ends TextureLoaders textureFormatInUse FallbackTexture env
              (S (length TextureLoaders)) attempt urlArg onLoad onError buffer fallback
              forcedExtension excludeLoaders) as (tr & E & [_ Hrep] & Hn & _).
  - pose proof (remaining_le TextureLoaders excludeLoaders). lia.
  - exists tr. split; [exact E|]. split; [exact Hrep|]. split; [exact Hn|].
    exact (chain_throws TextureLoaders textureFormatInUse FallbackTexture env _ _ _ _ _ _ _ _ _
             tr E).
Qed.

(** C4, counterexample: the load through the loader fails with "Unable to
    load E0", the retry without it fails with "image failed", and [onError]
    receives the message of the retry; with the process-wide fallback
    enabled and failing, a thousand attempts do not end the chain; and the
    retry of a [data:] URL given without a buffer throws, so that [onError]
    is never called. *)
Lemma createTexture_counterexample :
  createTexture [ktxLoader] None false "" failingEnvironment 2 0 (Some "tex.ktx"%string)
    true true BufferNull false None []
  = Some [ev_loadFile "tex.ktx";
          ev_internalError (Some "Unable to load E0"%string) None;
          ev_exclude 0;
          ev_loadImage (FromUrl "tex.ktx");
          ev_internalError (Some "image failed"%string) None;
          ev_onError "image failed" None] /\
  createTexture [] None true "fallback.png" failingEnvironment 1000 0 (Some "tex.png"%string)
    true true BufferNull false None []
  = None /\
  createTexture [ktxLoader] None false "" failingEnvironment 2 0 (Some "data:tex.ktx"%string)
    true true BufferNull false None []
  = Some [ev_loadFile "data:tex.ktx";
          ev_internalError (Some "Unable to load E0"%string) None;
          ev_exclude 0;
          ev_throw "TypeError"].
Proof. repeat split; vm_compute; reflexivity. Qed.

End FallbackChain.

(** ** Further properties of the code *)

Section PotExtras.



(** X2. For every [x] in (0, 2^31), [FloorPOT x] is the greatest power of
    two that is at most [x]. *)
Theorem FloorPOT_greatest (x : Z) :
  0 < x < 2^31 ->
  exists k, 0 <= k /\ POT.FloorPOT x = 2 ^ k /\ 2 ^ k <= x /\
    forall j, 0 <= j -> 2 ^ j <= x -> 2 ^ j <= 2 ^ k.
Proof.
  intros Hx. exists (Z.log2 x).
  split; [apply Z.log2_nonneg|]. split; [apply FloorPOT_pow2; exact Hx|].
  split; [apply floor_le; lia|].
  intros j Hj Hle. apply pow2_le_floor; (lia || assumption).
Qed.

(** Witness of X2. *)
Lemma FloorPOT_greatest_witness :
  0 < 257 < 2^31 /\
  exists k, 0 <= k /\ POT.FloorPOT 257 = 2 ^ k /\ 2 ^ k <= 257 /\
    forall j, 0 <= j -> 2 ^ j <= 257 -> 2 ^ j <= 2 ^ k.
Proof.
  assert (H : 0 < 257 < 2^31) by lia.
  split; [exact H|]. apply (FloorPOT_greatest 257 H).
Defined.

(** X3. A power of two below 2^31 is left as it is by [CeilingPOT],
    [FloorPOT] and [NearestPOT]. *)
Theorem pot_fixed_point (k : Z) :
  0 <= k < 31 ->
  POT.CeilingPOT (2 ^ k) = 2 ^ k /\ POT.FloorPOT (2 ^ k) = 2 ^ k /\
  POT.NearestPOT (2 ^ k) = 2 ^ k.
Proof.
  intros Hk.
  assert (Hp : 0 < 2 ^ k) by (apply pow2_pos; lia).
  assert (Hlt : 2 ^ k < 2 ^ 31) by (apply Z.pow_lt_mono_r; lia).
  assert (Hc : POT.CeilingPOT (2 ^ k) = 2 ^ k).
  { rewrite CeilingPOT_pow2 by lia. rewrite Z.log2_up_pow2 by lia. reflexivity. }
  assert (Hf : POT.FloorPOT (2 ^ k) = 2 ^ k).
  { rewrite FloorPOT_pow2 by lia. rewrite Z.log2_pow2 by lia. reflexivity. }
  split; [exact Hc|]. split; [exact Hf|].
  unfold POT.NearestPOT. cbv zeta. rewrite Hc, Hf.
  destruct (2 ^ k - 2 ^ k <? 2 ^ k - 2 ^ k); reflexivity.
Qed.

(** Witness of X3. *)
Lemma pot_fixed_point_witness :
  0 <= 8 < 31 /\ POT.NearestPOT (2 ^ 8) = 2 ^ 8.
Proof.
  assert (H : 0 <= 8 < 31) by lia.
  split; [exact H|]. apply (pot_fixed_point 8 H).
Defined.

End PotExtras.

Section CacheExtras.

Local Arguments _unbindVertexArrayObject : simpl never.
Local Arguments bindBuffer : simpl never.

Lemma strictEq_self_of_eq x c : JS.strictEq x c = true -> JS.strictEq x x = true.
Proof.
  destruct x as [p| | |], c as [q| | |]; cbn; try discriminate; try reflexivity.
  intros _. apply Qeq_bool_iff. reflexivity.
Qed.

(** X4. Two [_viewport] calls in a row with the same rectangle: the second
    is forwarded to the context only when a component is [NaN] (which is
    never equal to the cached value); otherwise it issues no call. *)
Theorem viewport_repeated (x y w h : JS.number) (e : Engine) :
  calls (_viewport x y w h (final (_viewport x y w h e))) =
    if JS.strictEq x x && JS.strictEq y y && JS.strictEq w w && JS.strictEq h h
    then [] else [gl_viewport x y w h].
Proof.
  unfold _viewport. cbn.
  destruct (JS.strictEq x (vx (_viewportCached e))) eqn:Ex;
  destruct (JS.strictEq y (vy (_viewportCached e))) eqn:Ey;
  destruct (JS.strictEq w (vz (_viewportCached e))) eqn:Ew;
  destruct (JS.strictEq h (vw (_viewportCached e))) eqn:Eh; cbn;
  rewrite ?Ex, ?Ey, ?Ew, ?Eh; cbn;
  try (rewrite (strictEq_self_of_eq _ _ Ex));
  try (rewrite (strictEq_self_of_eq _ _ Ey));
  try (rewrite (strictEq_self_of_eq _ _ Ew));
  try (rewrite (strictEq_self_of_eq _ _ Eh)); cbn;
  try reflexivity;
  destruct (JS.strictEq x x), (JS.strictEq y y), (JS.strictEq w w), (JS.strictEq h h);
  reflexivity.
Qed.

(** X5. After [setProgram p] the cached program is [p], and an immediate
    second [setProgram p] issues no [gl.useProgram]. *)
Theorem setProgram_repeated (p : Z) (e : Engine) :
  _currentProgram (final (setProgram p e)) = Some p /\
  calls (setProgram p (final (setProgram p e))) = [].
Proof.
  unfold setProgram. cbn.
  destruct (bool_decide (_currentProgram e = Some p)) eqn:E; cbn.
  - apply bool_decide_eq_true_1 in E. split; [exact E|].
    rewrite bool_decide_eq_true_2 by exact E. reflexivity.
  - split; [reflexivity|]. rewrite bool_decide_eq_true_2 by reflexivity. reflexivity.
Qed.

(** X6. Binding the same vertex buffer twice in a row: outside the
    recording of a vertex array object the second bind issues no call;
    during a recording it is forwarded again. *)
Theorem bindArrayBuffer_repeated (b : option Z) (e : Engine) :
  calls (bindArrayBuffer b (final (bindArrayBuffer b e))) =
    if _vaoRecordInProgress e
    then [gl_bindBuffer GLenum.ARRAY_BUFFER
            (match b with
             | Some h => Some (underlyingResource (buffers e !!! h))
             | None => None
             end)]
    else [].
Proof.
  unfold bindArrayBuffer. cbn.
  destruct (_vaoRecordInProgress e) eqn:Hr; cbn.
  - rewrite bindBuffer_run. cbn. rewrite Hr. cbn. rewrite Hr. cbn.
    rewrite bindBuffer_run. cbn. rewrite Hr. reflexivity.
  - rewrite unbindVertexArrayObject_run.
    destruct (_cachedVertexArrayObject e) eqn:Hv; cbn;
      rewrite bindBuffer_run; cbn; rewrite Hr; cbn;
      destruct (bool_decide (_currentBoundBuffer e !! GLenum.ARRAY_BUFFER = Some b)) eqn:Hb;
      cbn; rewrite ?Hr; cbn;
      rewrite unbindVertexArrayObject_run; cbn; rewrite ?Hv; cbn;
      rewrite bindBuffer_run; cbn; rewrite ?Hr; cbn;
      rewrite ?lookup_insert_eq, ?Hb; cbn;
      rewrite ?bool_decide_eq_true_2 by reflexivity; reflexivity.
Qed.

(** X7. Binding the same index buffer through the cache twice in a row:
    the second bind issues no call, also for [null]. *)
Theorem bindIndexBufferWithCache_repeated (ib : option Z) (e : Engine) :
  calls (_bindIndexBufferWithCache ib (final (_bindIndexBufferWithCache ib e))) = [].
Proof.
  destruct ib as [b|]; [|reflexivity].
  assert (H : _cachedIndexBuffer (final (_bindIndexBufferWithCache (Some b) e)) = Some b).
  { unfold _bindIndexBufferWithCache, bindIndexBuffer. cbn.
    destruct (bool_decide (_cachedIndexBuffer e = Some b)) eqn:E; cbn.
    - apply bool_decide_eq_true_1 in E. exact E.
    - destruct (_vaoRecordInProgress e); cbn.
      + rewrite bindBuffer_run. cbn. destruct (_ || _); reflexivity.
      + rewrite unbindVertexArrayObject_run. cbn.
        destruct (_cachedVertexArrayObject e); cbn; rewrite bindBuffer_run; cbn;
          destruct (_ || _); reflexivity. }
  assert (Hit : forall e1, _cachedIndexBuffer e1 = Some b ->
                           calls (_bindIndexBufferWithCache (Some b) e1) = []).
  { intros e1 H1. unfold _bindIndexBufferWithCache. cbn. rewrite H1.
    rewrite bool_decide_eq_true_2 by reflexivity. reflexivity. }
  apply Hit, H.
Qed.

(** X8. Two [_unpackFlipY] calls in a row with the same value: with the
    flip-Y cache enabled the second issues no call; with it disabled the
    second is forwarded exactly as the first was. *)
Theorem unpackFlipY_repeated (v : bool) (e : Engine) :
  calls (_unpackFlipY v (final (_unpackFlipY v e))) =
    if enableUnpackFlipYCached e then [] else calls (_unpackFlipY v e).
Proof.
  unfold _unpackFlipY. cbn.
  destruct (bool_decide (_unpackFlipYCached e = Some v)) eqn:E; cbn.
  - rewrite E. cbn. destruct (enableUnpackFlipYCached e); reflexivity.
  - destruct (enableUnpackFlipYCached e) eqn:En; cbn.
    + rewrite bool_decide_eq_true_2 by reflexivity. reflexivity.
    + rewrite E. cbn. rewrite En. reflexivity.
Qed.

(** X9. Binding a vertex array object other than the cached one issues
    one [gl.bindVertexArray], forgets the cached vertex buffers and the
    cached index buffer and asks for the vertex attributes to be wiped; the
    next index buffer bound through the cache, whichever it is, unbinds the
    vertex array object again before anything else (outside a
    recording). *)
Theorem bindVertexArrayObject_invalidates (v : Z) (ib : option Z) (b : Z) (e : Engine) :
  _cachedVertexArrayObject e <> Some v ->
  _vaoRecordInProgress e = false ->
  let r := bindVertexArrayObject v ib e in
  calls r = [gl_bindVertexArray (Some v)] /\
  _cachedVertexBuffers (final r) = None /\
  _cachedIndexBuffer (final r) = None /\
  _mustWipeVertexAttributes (final r) = true /\
  exists rest,
    calls (_bindIndexBufferWithCache (Some b) (final r)) = gl_bindVertexArray None :: rest /\
    _cachedVertexArrayObject (final (_bindIndexBufferWithCache (Some b) (final r))) = None.
Proof.
  intros Hv Hr. unfold bindVertexArrayObject. cbn.
  rewrite bool_decide_eq_false_2 by exact Hv. cbn.
  split; [reflexivity|]. split; [reflexivity|]. split; [reflexivity|].
  split; [reflexivity|].
  unfold _bindIndexBufferWithCache, bindIndexBuffer. cbn.
  rewrite bool_decide_eq_false_2 by discriminate. cbn. rewrite Hr. cbn.
  rewrite unbindVertexArrayObject_run. cbn.
  rewrite bindBuffer_run. cbn. rewrite Hr. cbn.
  destruct (negb _); cbn; eexists; split; reflexivity.
Qed.

(** Witness of X9. *)
Lemma bindVertexArrayObject_invalidates_witness :
  _cachedVertexArrayObject engineInUse <> Some 10 /\
  _vaoRecordInProgress engineInUse = false /\
  calls (bindVertexArrayObject 10 (Some 5) engineInUse) = [gl_bindVertexArray (Some 10)].
Proof.
  assert (H1 : _cachedVertexArrayObject engineInUse <> Some 10) by (vm_compute; discriminate).
  assert (H2 : _vaoRecordInProgress engineInUse = false) by reflexivity.
  split; [exact H1|]. split; [exact H2|].
  apply (bindVertexArrayObject_invalidates 10 (Some 5) 5 engineInUse H1 H2).
Defined.

End CacheExtras.

Section TextureExtras.

Lemma bindNull_hit target e :
  _boundTexturesCache e !! _activeChannel e = Some None ->
  _bindTextureDirectly target None false false e = mkRun (Normal false) e [].
Proof.
  intros H. unfold _bindTextureDirectly. cbn. rewrite H.
  rewrite bool_decide_eq_true_2 by reflexivity. reflexivity.
Qed.

Lemma bindNull_spec target e :
  let r := _bindTextureDirectly target None false false e in
  outcome r = Normal false /\
  _boundTexturesCache (final r) !! _activeChannel e = Some None /\
  (forall u, _boundTexturesCache e !! u = Some None ->
             _boundTexturesCache (final r) !! u = Some None) /\
  _activeChannel (final r) = _activeChannel e /\
  (forall c, In c (calls r) -> c = gl_activeTexture (GLenum.TEXTURE0 + _activeChannel e)
                               \/ c = gl_bindTexture target None).
Proof.
  unfold _bindTextureDirectly, _activateCurrentTexture. cbv zeta. run_cases; decide_hyps.
  all: repeat split; try done; try (apply lookup_insert_eq).
  all: try (intros u Hu; destruct (decide (_activeChannel e = u)) as [<-|Hne];
            [apply lookup_insert_eq|rewrite lookup_insert_ne by done; exact Hu]).
  all: intros c Hc; cbn in Hc; intuition.
Qed.

Local Arguments _bindTextureDirectly : simpl never.

Lemma unbindChannel_spec v ch e :
  let r := unbindChannel v ch e in
  outcome r = Normal tt /\
  _boundTexturesCache (final r) !! ch = Some None /\
  (forall u, _boundTexturesCache e !! u = Some None ->
             _boundTexturesCache (final r) !! u = Some None) /\
  forallb is_unbind2D (calls r) = true.
Proof.
  unfold unbindChannel. cbn.
  destruct (bindNull_spec GLenum.TEXTURE_2D (set_activeChannel ch e))
    as (Ho & Hc & Hm & Ha & Hcalls).
  cbn in Hc, Hm, Ha, Hcalls.
  destruct (_bindTextureDirectly GLenum.TEXTURE_2D None false false (set_activeChannel ch e))
    as [o e1 c1]. cbn in Ho, Hc, Hm, Ha, Hcalls. subst o. cbn.
  rewrite (bindNull_hit GLenum.TEXTURE_CUBE_MAP e1) by (rewrite Ha; exact Hc). cbn.
  assert (Hok : forallb is_unbind2D c1 = true).
  { apply forallb_forall. intros c Hin. destruct (Hcalls c Hin) as [->| ->]; reflexivity. }
  destruct (1 <? v); cbn.
  - rewrite (bindNull_hit GLenum.TEXTURE_3D e1) by (rewrite Ha; exact Hc). cbn.
    rewrite !app_nil_r. repeat split; assumption.
  - rewrite !app_nil_r. repeat split; assumption.
Qed.

Local Arguments unbindChannel : simpl never.

Lemma unbindChannels_spec v chs e :
  let r := forEach chs (unbindChannel v) e in
  outcome r = Normal tt /\
  (forall u, In u chs -> _boundTexturesCache (final r) !! u = Some None) /\
  (forall u, _boundTexturesCache e !! u = Some None ->
             _boundTexturesCache (final r) !! u = Some None) /\
  forallb is_unbind2D (calls r) = true.
Proof.
  revert e. induction chs as [|ch chs IH]; intros e.
  - cbn. repeat split; try done.
  - cbn [forEach]. cbn.
    destruct (unbindChannel_spec v ch e) as (Ho & Hc & Hm & Hok).
    destruct (unbindChannel v ch e) as [o e1 c1]. cbn in Ho, Hc, Hm, Hok. subst o.
    destruct (IH e1) as (Ho2 & Hc2 & Hm2 & Hok2).
    destruct (forEach chs (unbindChannel v) e1) as [o2 e2 c2].
    cbn in Ho2, Hc2, Hm2, Hok2. subst o2. cbn.
    split; [reflexivity|]. split; [|split].
    + intros u [<-|Hin]; [apply Hm2, Hc|apply Hc2, Hin].
    + intros u Hu. apply Hm2, Hm, Hu.
    + rewrite forallb_app, Hok, Hok2. reflexivity.
Qed.

(** X10. [unbindAllTextures] completes normally and leaves [null] cached
    on every unit below [_maxSimultaneousTextures]; the only calls it makes
    are [gl.activeTexture] and [gl.bindTexture (TEXTURE_2D, null)]: the
    unbinds of [TEXTURE_CUBE_MAP] and [TEXTURE_3D] are always suppressed by
    the cache entry that the [TEXTURE_2D] unbind has just written. *)
Theorem unbindAllTextures_only_2D (e : Engine) :
  let r := unbindAllTextures e in
  outcome r = Normal tt /\
  (forall u, 0 <= u < _maxSimultaneousTextures e ->
             _boundTexturesCache (final r) !! u = Some None) /\
  forallb is_unbind2D (calls r) = true.
Proof.
  unfold unbindAllTextures. cbn.
  destruct (unbindChannels_spec (_webGLVersion e) (seqZ 0 (_maxSimultaneousTextures e)) e)
    as (Ho & Hc & _ & Hok).
  destruct (forEach _ _ e) as [o e1 c1]. cbn in *.
  split; [exact Ho|]. split; [|exact Hok].
  intros u Hu. apply Hc. apply list_elem_of_In. apply elem_of_seqZ. lia.
Qed.

End TextureExtras.

Section BindingExtras.

Local Arguments nativeTexture : simpl never.
Local Arguments Z.eqb : simpl never.

(** X11. After [resetTextureCache], the first texture bound on a unit
    makes that unit the active one on the context before it binds: the
    calls start with [gl.activeTexture] for the unit, then
    [gl.bindTexture]. *)
Theorem resetTextureCache_reactivates (u t : Z) (e : Engine) :
  u <> -1 ->
  exists rest,
    calls (_bindTexture (Some u) (Some t) (final (resetTextureCache e))) =
      gl_activeTexture (GLenum.TEXTURE0 + u)
      :: gl_bindTexture GLenum.TEXTURE_2D (nativeTexture (textures e) (Some t))
      :: rest.
Proof.
  intros Hu.
  pose proof (nativeTexture_associatedChannel (textures e)) as HN.
  unfold _bindTexture, _bindTextureDirectly, _activateCurrentTexture,
    _bindSamplerUniformToChannel, resetTextureCache.
  assert (Hneq : (-1 =? u) = false) by (apply Z.eqb_neq; lia).
  cbv zeta. run_simpl.
  rewrite lookup_fmap.
  assert (Hc : bool_decide ((fun _ : option Z => None) <$> _boundTexturesCache e !! u
                            = Some (Some t)) = false).
  { apply bool_decide_eq_false_2. destruct (_boundTexturesCache e !! u); cbn; congruence. }
  rewrite Hc. cbn. rewrite Hneq. cbn.
  run_cases; rewrite ?HN; eexists; reflexivity.
Qed.

(** Witness of X11. *)
Lemma resetTextureCache_reactivates_witness :
  0 <> -1 /\
  exists rest,
    calls (_bindTexture (Some 0) (Some 1) (final (resetTextureCache engineInUse))) =
      gl_activeTexture (GLenum.TEXTURE0 + 0)
      :: gl_bindTexture GLenum.TEXTURE_2D (nativeTexture (textures engineInUse) (Some 1))
      :: rest.
Proof.
  assert (H : 0 <> -1) by discriminate.
  split; [exact H|]. apply (resetTextureCache_reactivates 0 1 engineInUse H).
Defined.

(** X12. With the force flag, [_bindTextureDirectly] issues exactly one
    [gl.bindTexture], for the given target and texture, whatever the cache
    holds. *)
Theorem bindTextureDirectly_forced (target : Z) (texture : option Z)
    (forTextureDataUpdate : bool) (e : Engine) :
  bindTextureCalls (calls (_bindTextureDirectly target texture forTextureDataUpdate true e))
  = [gl_bindTexture target (nativeTexture (textures e) texture)].
Proof.
  unfold _bindTextureDirectly, _activateCurrentTexture, _bindSamplerUniformToChannel.
  cbv zeta. destruct texture as [t|], forTextureDataUpdate; run_cases; reflexivity.
Qed.



End BindingExtras.

Section EffectExtras.

Lemma recordSamplerUniforms_lookup us : forall index bu k,
  recordSamplerUniforms index us bu !! k =
    match (if bool_decide (index <= k) then us !! Z.to_nat (k - index) else None) with
    | Some (Some uniform) => Some uniform
    | _ => bu !! k
    end.
Proof.
  induction us as [|o us IH]; intros index bu k.
  - cbn. case_bool_decide; reflexivity.
  - cbn [recordSamplerUniforms]. destruct o as [uniform|]; rewrite IH.
    + case_bool_decide as H1; case_bool_decide as H2; try lia.
      * replace (Z.to_nat (k - index)) with (S (Z.to_nat (k - (index + 1)))) by lia.
        cbn. destruct (us !! Z.to_nat (k - (index + 1))) as [[?|]|]; try reflexivity;
          rewrite lookup_insert_ne by lia; reflexivity.
      * assert (k = index) as -> by lia. rewrite Z.sub_diag. cbn.
        apply lookup_insert_eq.
      * rewrite lookup_insert_ne by lia. reflexivity.
    + case_bool_decide as H1; case_bool_decide as H2; try lia.
      * replace (Z.to_nat (k - index)) with (S (Z.to_nat (k - (index + 1)))) by lia.
        reflexivity.
      * assert (k = index) as -> by lia. rewrite Z.sub_diag. reflexivity.
      * reflexivity.
Qed.

(** X14. [bindSamplers] makes the program of the effect current, forgets
    the current effect, and records, under the index of each sampler that
    has a uniform, that uniform; the entries of the other indices are kept. *)
Theorem bindSamplers_records (effect : Z) (e : Engine) :
  let r := bindSamplers effect e in
  let us := samplerUniforms (effects e !!! effect) in
  outcome r = Normal tt /\
  _currentProgram (final r) = Some (program (effects e !!! effect)) /\
  _currentEffect (final r) = None /\
  forall i : nat,
    _boundUniforms (final r) !! Z.of_nat i =
      match us !! i with
      | Some (Some uniform) => Some uniform
      | _ => _boundUniforms e !! Z.of_nat i
      end.
Proof.
  unfold bindSamplers, setProgram. cbn.
  destruct (bool_decide (_currentProgram e = Some (program (effects e !!! effect)))) eqn:E;
    cbn.
  - apply bool_decide_eq_true_1 in E.
    split; [reflexivity|]. split; [exact E|]. split; [reflexivity|].
    intros i. rewrite recordSamplerUniforms_lookup.
    rewrite bool_decide_eq_true_2 by lia. rewrite Z.sub_0_r, Nat2Z.id. reflexivity.
  - split; [reflexivity|]. split; [reflexivity|]. split; [reflexivity|].
    intros i. rewrite recordSamplerUniforms_lookup.
    rewrite bool_decide_eq_true_2 by lia. rewrite Z.sub_0_r, Nat2Z.id. reflexivity.
Qed.

Local Arguments bindSamplers : simpl never.

Lemma bindSamplers_normal effect e :
  outcome (bindSamplers effect e) = Normal tt /\
  effects (final (bindSamplers effect e)) = effects e.
Proof.
  unfold bindSamplers, setProgram. cbn. destruct (bool_decide _); cbn; split; reflexivity.
Qed.

(** X15. [enableEffect] on the effect that is already current does
    nothing, and so does [enableEffect (null)].  When the callbacks of the
    effect leave the current effect alone and do not throw, the second of
    two [enableEffect] calls with the same effect changes nothing and makes
    no call. *)
Theorem enableEffect_repeated (fails : call -> bool) (reaction : call -> Engine -> Engine)
    (effect : Z) (e : Engine) :
  (forall c e0, _currentEffect (reaction c e0) = _currentEffect e0) ->
  (forall c, fails c = false) ->
  let e1 := final (enableEffect fails reaction (Some effect) e) in
  enableEffect fails reaction None e = mkRun (Normal tt) e [] /\
  _currentEffect e1 = Some effect /\
  enableEffect fails reaction (Some effect) e1 = mkRun (Normal tt) e1 [].
Proof.
  intros Hkeep Hok e1. split; [reflexivity|].
  assert (Hit : forall e0, _currentEffect e0 = Some effect ->
                           enableEffect fails reaction (Some effect) e0
                           = mkRun (Normal tt) e0 []).
  { intros e0 H0. unfold enableEffect. cbn. rewrite H0.
    rewrite bool_decide_eq_true_2 by reflexivity. reflexivity. }
  assert (H1 : _currentEffect e1 = Some effect).
  { subst e1. unfold enableEffect, external. cbn.
    destruct (bool_decide (_currentEffect e = Some effect)) eqn:E; cbn.
    - apply bool_decide_eq_true_1 in E. exact E.
    - destruct (bindSamplers_normal effect e) as [Hn He].
      destruct (bindSamplers effect e) as [o e2 c2]. cbn in Hn, He. subst o. cbn.
      rewrite !Hok.
      repeat (match goal with
              | |- context [if ?c then _ else _] => destruct c
              end; cbn); rewrite ?Hkeep; reflexivity. }
  split; [exact H1|apply Hit, H1].
Qed.

(** Witness of X15. *)
Lemma enableEffect_repeated_witness :
  (forall c e0, _currentEffect (dirtying c e0) = _currentEffect e0) /\
  (forall c : call, (fun _ => false) c = false) /\
  _currentEffect (final (enableEffect (fun _ => false) dirtying (Some 4) engineInUse))
  = Some 4.
Proof.
  assert (H1 : forall c e0, _currentEffect (dirtying c e0) = _currentEffect e0)
    by (intros c e0; destruct c; reflexivity).
  assert (H2 : forall c : call, (fun _ => false) c = false) by reflexivity.
  split; [exact H1|]. split; [exact H2|].
  apply (enableEffect_repeated (fun _ => false) dirtying 4 engineInUse H1 H2).
Defined.

End EffectExtras.

Section FrameLoopExtras.

Lemma existsb_eqb_In f l : existsb (Z.eqb f) l = true <-> In f l.
Proof.
  rewrite existsb_exists. split.
  - intros (x & Hin & Hx). apply Z.eqb_eq in Hx. subst. exact Hin.
  - intros Hin. exists f. split; [exact Hin|apply Z.eqb_refl].
Qed.

Lemma removeFirst_app_fresh f l : ~ In f l -> removeFirst f (l ++ [f]) = l.
Proof.
  induction l as [|x l IH]; intros Hn.
  - cbn. rewrite Z.eqb_refl. reflexivity.
  - cbn. destruct (Z.eqb_spec x f) as [->|Hne].
    + exfalso. apply Hn. left. reflexivity.
    + rewrite IH; [reflexivity|]. intros Hin. apply Hn. right. exact Hin.
Qed.

(** X16. [runRenderLoop] registers a function once: afterwards the
    function is in the list, a list without repetition stays without
    repetition, and a second [runRenderLoop] with the same function changes
    nothing and queues no frame. *)
Theorem runRenderLoop_once (f : Z) (e : Engine) :
  let e1 := final (runRenderLoop f e) in
  In f (_activeRenderLoops e1) /\
  (List.NoDup (_activeRenderLoops e) -> List.NoDup (_activeRenderLoops e1)) /\
  runRenderLoop f e1 = mkRun (Normal tt) e1 [].
Proof.
  assert (Hit : forall e0, In f (_activeRenderLoops e0) ->
                           runRenderLoop f e0 = mkRun (Normal tt) e0 []).
  { intros e0 H0. unfold runRenderLoop. cbn.
    rewrite (proj2 (existsb_eqb_In f _) H0). reflexivity. }
  assert (Hin : In f (_activeRenderLoops (final (runRenderLoop f e)))).
  { unfold runRenderLoop. cbn.
    destruct (existsb (Z.eqb f) (_activeRenderLoops e)) eqn:E; cbn.
    - apply existsb_eqb_In, E.
    - destruct (_renderingQueueLaunched e); cbn; apply in_or_app; right; left; reflexivity. }
  cbv zeta. split; [exact Hin|]. split; [|apply Hit, Hin].
  intros Hnd. unfold runRenderLoop. cbn.
  destruct (existsb (Z.eqb f) (_activeRenderLoops e)) eqn:E; cbn; [exact Hnd|].
  assert (Hnin : ~ In f (_activeRenderLoops e)).
  { intros H. apply existsb_eqb_In in H. congruence. }
  assert (Hnd' : List.NoDup (_activeRenderLoops e ++ [f])).
  { apply NoDup_ListNoDup. apply NoDup_app. split; [apply NoDup_ListNoDup, Hnd|].
    split; [|apply NoDup_singleton].
    intros x Hx Hx'. apply list_elem_of_In in Hx. apply list_elem_of_singleton in Hx'.
    subst. contradiction. }
  destruct (_renderingQueueLaunched e); cbn; exact Hnd'.
Qed.

(** X17. Stopping a render function right after registering it, when it
    was not registered before, gives back the list of render functions as
    it was. *)
Theorem stopRenderLoop_after_run (f : Z) (e : Engine) :
  ~ In f (_activeRenderLoops e) ->
  _activeRenderLoops (final (stopRenderLoop (Some f) (final (runRenderLoop f e))))
  = _activeRenderLoops e.
Proof.
  intros Hn. unfold stopRenderLoop, runRenderLoop. cbn.
  assert (E : existsb (Z.eqb f) (_activeRenderLoops e) = false).
  { destruct (existsb (Z.eqb f) (_activeRenderLoops e)) eqn:E; [|reflexivity].
    apply existsb_eqb_In in E. contradiction. }
  rewrite E. cbn. destruct (_renderingQueueLaunched e); cbn; apply removeFirst_app_fresh, Hn.
Qed.

(** Witness of X17. *)
Lemma stopRenderLoop_after_run_witness :
  ~ In 4 (_activeRenderLoops (final (runRenderLoop 3 engineWithCanvas))) /\
  _activeRenderLoops
    (final (stopRenderLoop (Some 4)
              (final (runRenderLoop 4 (final (runRenderLoop 3 engineWithCanvas))))))
  = _activeRenderLoops (final (runRenderLoop 3 engineWithCanvas)).
Proof.
  assert (H : ~ In 4 (_activeRenderLoops (final (runRenderLoop 3 engineWithCanvas)))).
  { vm_compute. intros [H|[]]. discriminate. }
  split; [exact H|].
  apply (stopRenderLoop_after_run 4 (final (runRenderLoop 3 engineWithCanvas)) H).
Defined.

End FrameLoopExtras.

Section WipeExtras.

(** X18. A full wipe right after a full wipe finds nothing to unbind:
    outside the recording of a vertex array object it makes no call at
    all; during a recording it binds [null] to both buffer targets
    again. *)
Theorem wipeCaches_twice (e : Engine) :
  calls (wipeCaches true (final (wipeCaches true e))) =
    if _vaoRecordInProgress e
    then [gl_bindBuffer GLenum.ARRAY_BUFFER None; gl_bindBuffer GLenum.ELEMENT_ARRAY_BUFFER None]
    else [].
Proof.
  rewrite wipeCaches_calls, andb_false_r.
  destruct (wipeCaches_full_state e)
    as (_ & _ & _ & _ & _ & _ & _ & _ & _ & Hvao & Harr & Helt & _ & _ & Hrec & _).
  unfold unbindCalls. rewrite Hvao, Harr, Helt, Hrec.
  rewrite !bool_decide_eq_true_2 by reflexivity.
  destruct (_vaoRecordInProgress e); reflexivity.
Qed.

End WipeExtras.

Section LoadExtras.

Import TextureLoad.



End LoadExtras.

Section ContextExtras.

Variable gl : Context.
Variable K : TextureTypes.
Variable sizedFormat : Z -> Z.

(** X20. [_initGLContext] appends the texture units to the list of free
    slots without emptying it first: after a second initialisation, as in
    a recovery, every unit is listed twice. *)
Theorem initGLContext_appends_slots (e : Engine) :
  let units := seqZ 0 (getParameter gl GLenum.MAX_COMBINED_TEXTURE_IMAGE_UNITS) in
  let e1 := final (_initGLContext gl K sizedFormat e) in
  let e2 := final (_initGLContext gl K sizedFormat e1) in
  _nextFreeTextureSlots e1 = _nextFreeTextureSlots e ++ units /\
  _nextFreeTextureSlots e2 = _nextFreeTextureSlots e ++ units ++ units.
Proof.
  assert (H : yields _nextFreeTextureSlots
                (fun e0 => _nextFreeTextureSlots e0
                           ++ seqZ 0 (getParameter gl GLenum.MAX_COMBINED_TEXTURE_IMAGE_UNITS))
                (_initGLContext gl K sizedFormat)).
  { unfold _initGLContext.
    apply (yields_bind _ (fun e0 => _nextFreeTextureSlots e0
                                    ++ seqZ 0 (maxCombinedTexturesImageUnits (_caps e0)))).
    - intros e0. split; [exists tt|]; reflexivity.
    - intros _. apply initFeatures_then; try (intros; reflexivity).
      + intros g e0 Hg. cbn. rewrite Hg. reflexivity.
      + intros e0. split; [exists tt|]; reflexivity. }
  cbv zeta. destruct (H e) as [_ H1]. split; [exact H1|].
  destruct (H (final (_initGLContext gl K sizedFormat e))) as [_ H2].
  rewrite H2, H1, <- app_assoc. reflexivity.
Qed.

Lemma drainErrors_run n e :
  drainErrors n e = mkRun (Normal tt) e (replicate (S n) gl_getError).
Proof.
  unfold drainErrors. induction (S n) as [|k IH]; [reflexivity|].
  cbn [replicate forEach]. cbn. rewrite IH. reflexivity.
Qed.

Local Arguments drainErrors : simpl never.

(** X21. The framebuffer probe leaves the engine as it found it and always
    cleans up after itself, whether it succeeds or not: after the error
    flags are drained and the probe texture and framebuffer set up, each
    stage (status, clear, read) is entered only if the one before passed,
    and then the probe texture and the probe framebuffer are deleted and
    the framebuffer unbound; only a failed probe drains the error flags
    again.  The probe answers [true] exactly when the framebuffer is
    complete and none of its three error queries reports an error. *)
Theorem canRenderToFramebuffer_cleans_up (type : Z) (e : Engine) :
  let probe := framebufferProbe gl type in
  let r := _canRenderToFramebuffer gl K sizedFormat type e in
  let complete := framebufferStatus probe =? GLenum.FRAMEBUFFER_COMPLETE in
  let attached := complete && (errorAfterAttach probe =? GLenum.NO_ERROR) in
  let cleared := attached && (errorAfterClear probe =? GLenum.NO_ERROR) in
  let successful := cleared && (errorAfterRead probe =? GLenum.NO_ERROR) in
  outcome r = Normal successful /\
  final r = e /\
  calls r =
    replicate (S (pendingErrors probe)) gl_getError
    ++ [gl_createTexture;
        gl_bindTexture GLenum.TEXTURE_2D (probeTexture probe);
        gl_texImage2D GLenum.TEXTURE_2D 0
          (_getRGBABufferInternalSizedFormat sizedFormat (_webGLVersion e) type)
          1 1 0 GLenum.RGBA (_getWebGLTextureType K (_webGLVersion e) type);
        gl_texParameteri GLenum.TEXTURE_2D GLenum.TEXTURE_MIN_FILTER GLenum.NEAREST;
        gl_texParameteri GLenum.TEXTURE_2D GLenum.TEXTURE_MAG_FILTER GLenum.NEAREST;
        gl_createFramebuffer;
        gl_bindFramebuffer GLenum.FRAMEBUFFER (probeFramebuffer probe);
        gl_framebufferTexture2D GLenum.FRAMEBUFFER GLenum.COLOR_ATTACHMENT0 GLenum.TEXTURE_2D
          (probeTexture probe) 0;
        gl_checkFramebufferStatus GLenum.FRAMEBUFFER]
    ++ (if complete then [gl_getError] else [])
    ++ (if attached then [gl_clear GLenum.COLOR_BUFFER_BIT; gl_getError] else [])
    ++ (if cleared
        then [gl_bindFramebuffer GLenum.FRAMEBUFFER None;
              gl_readPixels 0 0 1 1 GLenum.RGBA GLenum.UNSIGNED_BYTE; gl_getError]
        else [])
    ++ [gl_deleteTexture (probeTexture probe); gl_deleteFramebuffer (probeFramebuffer probe);
        gl_bindFramebuffer GLenum.FRAMEBUFFER None]
    ++ (if successful then [] else replicate (S (trailingErrors probe)) gl_getError).
Proof.
  cbv zeta. unfold _canRenderToFramebuffer. cbv zeta.
  cbn. rewrite !drainErrors_run. cbn.
  destruct (framebufferStatus (framebufferProbe gl type) =? GLenum.FRAMEBUFFER_COMPLETE);
    cbn; [destruct (errorAfterAttach (framebufferProbe gl type) =? GLenum.NO_ERROR); cbn;
          [destruct (errorAfterClear (framebufferProbe gl type) =? GLenum.NO_ERROR); cbn;
           [destruct (errorAfterRead (framebufferProbe gl type) =? GLenum.NO_ERROR); cbn|]|]|];
    rewrite ?drainErrors_run; cbn;
    (split; [reflexivity|]); (split; [reflexivity|]);
    rewrite ?app_nil_r, <- ?app_assoc; reflexivity.
Qed.

End ContextExtras.

Section AttributeExtras.

Local Arguments _unbindVertexArrayObject : simpl never.
Local Arguments bindBuffer : simpl never.

Lemma bindArrayBuffer_kept b e :
  let r := bindArrayBuffer b e in
  outcome r = Normal tt /\
  _currentBufferPointers (final r) = _currentBufferPointers e /\
  _vaoRecordInProgress (final r) = _vaoRecordInProgress e.
Proof.
  unfold bindArrayBuffer. cbn.
  destruct (_vaoRecordInProgress e) eqn:Hr; cbn.
  - rewrite bindBuffer_run. cbn. rewrite Hr. cbn. repeat split; assumption.
  - rewrite unbindVertexArrayObject_run.
    destruct (_cachedVertexArrayObject e); cbn; rewrite bindBuffer_run; cbn;
      destruct (_ || _); cbn; repeat split; assumption.
Qed.

Local Arguments bindArrayBuffer : simpl never.

(** X22. Pointing an attribute at a buffer twice in a row with the same
    arguments: outside the recording of a vertex array object the second
    call finds the pointer unchanged and makes no call. *)
Theorem vertexAttribPointer_repeated (buffer indx size type : Z) (normalized : bool)
    (stride offset : Z) (e : Engine) :
  is_Some (_currentBufferPointers e !! indx) ->
  _vaoRecordInProgress e = false ->
  let r := _vertexAttribPointer buffer indx size type normalized stride offset e in
  outcome r = Normal tt /\
  calls (_vertexAttribPointer buffer indx size type normalized stride offset (final r)) = [].
Proof.
  intros [p Hp] Hr. cbv zeta.
  assert (Hit : forall e0 q,
            _currentBufferPointers e0 !! indx = Some q ->
            active q = true -> pointer_buffer q = buffer -> pointer_size q = size ->
            pointer_type q = type -> pointer_normalized q = normalized ->
            pointer_stride q = stride -> pointer_offset q = offset ->
            _vaoRecordInProgress e0 = false ->
            calls (_vertexAttribPointer buffer indx size type normalized stride offset e0) = []).
  { intros e0 q Hq Ha Hb Hs Ht Hn Hst Ho Hr0. unfold _vertexAttribPointer. cbn.
    rewrite Hq. cbn. rewrite Ha, Hb, Hs, Ht, Hn, Hst, Ho, !Z.eqb_refl, eqb_reflx, Hr0.
    reflexivity. }
  set (q := {| active := true;
               pointer_index := if active p then pointer_index p else indx;
               pointer_size := size; pointer_type := type;
               pointer_normalized := normalized; pointer_stride := stride;
               pointer_offset := offset; pointer_buffer := buffer |}).
  assert (Hfirst :
    let r := _vertexAttribPointer buffer indx size type normalized stride offset e in
    outcome r = Normal tt /\
    _currentBufferPointers (final r) !! indx = Some q /\
    _vaoRecordInProgress (final r) = false).
  { unfold _vertexAttribPointer. cbn. rewrite Hp. cbn. rewrite Hr.
    rewrite orb_false_r.
    match goal with
    | |- context [if ?c then _ else _] => destruct c
    end; cbn.
    - match goal with
      | |- context [bindArrayBuffer ?b ?s] =>
          destruct (bindArrayBuffer_kept b s) as (N & P & R);
          destruct (bindArrayBuffer b s) as [o e1 c1]
      end.
      cbn in N, P, R. subst o. cbn. split; [reflexivity|]. split.
      + rewrite P. apply lookup_insert_eq.
      + rewrite R. exact Hr.
    - split; [reflexivity|]. split; [apply lookup_insert_eq|exact Hr]. }
  cbv zeta in Hfirst. destruct Hfirst as (N & P & R).
  split; [exact N|]. apply (Hit _ q P); try reflexivity. exact R.
Qed.

(** Witness of X22: three floats of buffer 5 for attribute 0. *)
Lemma vertexAttribPointer_repeated_witness :
  is_Some (_currentBufferPointers engineWithPointer !! 0) /\
  _vaoRecordInProgress engineWithPointer = false /\
  calls (_vertexAttribPointer 5 0 3 GLenum.FLOAT false 12 0
           (final (_vertexAttribPointer 5 0 3 GLenum.FLOAT false 12 0 engineWithPointer)))
  = [].
Proof.
  assert (H1 : is_Some (_currentBufferPointers engineWithPointer !! 0))
    by (vm_compute; eauto).
  assert (H2 : _vaoRecordInProgress engineWithPointer = false) by reflexivity.
  split; [exact H1|]. split; [exact H2|].
  apply (vertexAttribPointer_repeated 5 0 3 GLenum.FLOAT false 12 0 engineWithPointer H1 H2).
Defined.

End AttributeExtras.

Section SizeExtras.

(** X23. When the integer part of [width] or of [height] differs from the
    canvas, [setSize] gives the canvas the truncated dimensions, resets the
    render id of every camera of every scene, and notifies the resize
    observers, once, if there are any. *)
Theorem setSize_changed (e : Engine) (c : Canvas) (w h : JS.number) :
  _renderingCanvas e = Some c ->
  (canvas_width c <> JS.numberToInt32 w \/ canvas_height c <> JS.numberToInt32 h) ->
  let r := setSize w h e in
  outcome r = Normal tt /\
  _renderingCanvas (final r)
    = Some {| canvas_width := JS.numberToInt32 w; canvas_height := JS.numberToInt32 h |} /\
  scenes (final r) = map resetRenderIds (scenes e) /\
  (forall s cam, In s (scenes (final r)) -> In cam (cameras s) -> _currentRenderId cam = 0) /\
  calls r = if onResizeObservable_hasObservers e then [notify_resize] else [].
Proof.
  intros Hc Hd. unfold setSize. cbn. rewrite Hc.
  assert (E : (canvas_width c =? JS.numberToInt32 w)
              && (canvas_height c =? JS.numberToInt32 h) = false).
  { apply andb_false_iff. destruct Hd as [Hd|Hd]; [left|right]; apply Z.eqb_neq; exact Hd. }
  rewrite E. cbn.
  assert (Hids : forall s cam, In s (map resetRenderIds (scenes e)) -> In cam (cameras s) ->
                               _currentRenderId cam = 0).
  { intros s cam Hs Hcam. apply in_map_iff in Hs. destruct Hs as (s0 & <- & _).
    cbn in Hcam. apply in_map_iff in Hcam. destruct Hcam as (c0 & <- & _). reflexivity. }
  destruct (onResizeObservable_hasObservers e); cbn; repeat split; try reflexivity; exact Hids.
Qed.

(** Witness of X23: an 800 x 600 canvas resized to 1024 x 768. *)
Lemma setSize_changed_witness :
  _renderingCanvas engineWithCanvas = Some {| canvas_width := 800; canvas_height := 600 |} /\
  (800 <> JS.numberToInt32 (JS.ofZ 1024) \/ 600 <> JS.numberToInt32 (JS.ofZ 768)) /\
  calls (setSize (JS.ofZ 1024) (JS.ofZ 768) engineWithCanvas) = [notify_resize].
Proof.
  assert (H1 : _renderingCanvas engineWithCanvas
               = Some {| canvas_width := 800; canvas_height := 600 |}) by reflexivity.
  assert (H2 : canvas_width {| canvas_width := 800; canvas_height := 600 |}
                 <> JS.numberToInt32 (JS.ofZ 1024)
               \/ canvas_height {| canvas_width := 800; canvas_height := 600 |}
                 <> JS.numberToInt32 (JS.ofZ 768))
    by (left; vm_compute; discriminate).
  split; [exact H1|]. split; [exact H2|].
  apply (setSize_changed engineWithCanvas {| canvas_width := 800; canvas_height := 600 |}
           (JS.ofZ 1024) (JS.ofZ 768) H1 H2).
Defined.

End SizeExtras.

Section ReleaseExtras.

(** X24. Releasing a buffer touches no other buffer: the record of every
    other handle is left as it was, and no binding cache is changed, so a
    deleted buffer may stay cached as bound. *)
Theorem releaseBuffer_frame (b : Z) (e : Engine) :
  let r := _releaseBuffer b e in
  (forall b', b' <> b -> buffers (final r) !! b' = buffers e !! b') /\
  _currentBoundBuffer (final r) = _currentBoundBuffer e /\
  _cachedIndexBuffer (final r) = _cachedIndexBuffer e /\
  _cachedVertexBuffers (final r) = _cachedVertexBuffers e.
Proof.
  cbv zeta. rewrite releaseBuffer_run. cbv zeta.
  destruct (references (buffers e !!! b) - 1 =? 0); cbn;
    (split; [intros b' Hb'; apply lookup_insert_ne; congruence|repeat split]).
Qed.

End ReleaseExtras.

Section DirectBindingExtras.

(** X25. When the cache holds the vertex buffer and the effect,
    [bindBuffersDirectly] leaves the vertex attributes alone: it does what
    binding the index buffer through the cache does, nothing more. *)
Theorem bindBuffersDirectly_cached (vb : Z) (ib : option Z) (decl : list Z)
    (stride eff : Z) (e : Engine) :
  _cachedVertexBuffers e = Some vb ->
  _cachedEffectForVertexBuffers e = Some eff ->
  bindBuffersDirectly vb ib decl stride eff e = _bindIndexBufferWithCache ib e.
Proof.
  intros Hv He. unfold bindBuffersDirectly.
  generalize (rebindBuffersDirectly vb decl stride eff) (_bindIndexBufferWithCache ib).
  intros R I. cbn [bind gets]. rewrite Hv, He.
  rewrite !bool_decide_eq_true_2 by reflexivity. cbn [negb orb ret].
  destruct (I e); reflexivity.
Qed.

(** Witness of X25: the second of two identical binds. *)
Lemma bindBuffersDirectly_cached_witness :
  _cachedVertexBuffers (final (bindBuffersDirectly 5 (Some 5) [] 0 4 engineInUse)) = Some 5 /\
  _cachedEffectForVertexBuffers (final (bindBuffersDirectly 5 (Some 5) [] 0 4 engineInUse))
    = Some 4 /\
  calls (bindBuffersDirectly 5 (Some 5) [] 0 4
           (final (bindBuffersDirectly 5 (Some 5) [] 0 4 engineInUse))) = [].
Proof.
  assert (H1 : _cachedVertexBuffers (final (bindBuffersDirectly 5 (Some 5) [] 0 4 engineInUse))
               = Some 5) by (vm_compute; reflexivity).
  assert (H2 : _cachedEffectForVertexBuffers
                 (final (bindBuffersDirectly 5 (Some 5) [] 0 4 engineInUse)) = Some 4)
    by (vm_compute; reflexivity).
  split; [exact H1|]. split; [exact H2|].
  rewrite (bindBuffersDirectly_cached 5 (Some 5) [] 0 4 _ H1 H2).
  vm_compute. reflexivity.
Defined.

End DirectBindingExtras.

Section ExtensionExtras.

Variable gl : Context.

(** X26. A chain [getExtension (n1) || getExtension (n2) || ...] asks the
    context for the names in order and stops at the first extension the
    context has; it answers that extension, or [null] when the context has
    none of them, and leaves the engine as it is. *)
Theorem firstExtension_short_circuit (names : list string) (e : Engine) :
  let r := firstExtension gl names e in
  final r = e /\
  calls r = map gl_getExtension (askedExtensions gl names) /\
  outcome r =
    Normal (match last (askedExtensions gl names) with
            | Some name => getExtension gl name
            | None => None
            end).
Proof.
  cbv zeta. induction names as [|name names IH]; [repeat split|].
  cbn [firstExtension askedExtensions]. unfold queryExtension at 1. cbn.
  destruct (getExtension gl name) as [x|] eqn:E; cbn.
  - rewrite E. repeat split.
  - destruct IH as (I1 & I2 & I3).
    destruct (firstExtension gl names e) as [o e1 c1]. cbn in I1, I2, I3 |- *.
    subst e1 c1 o. split; [reflexivity|]. split; [reflexivity|].
    destruct (askedExtensions gl names) as [|n l] eqn:A; cbn; [rewrite E; reflexivity|].
    reflexivity.
Qed.

End ExtensionExtras.
